(** * Collaboration core of obsidian-cloud: room server and client provider

    Shallow embedding of [src/lib/collaboration/ws-server.ts]
    (class [CollaborationServer]) and [src/lib/collaboration/yjs-provider.ts]
    (class [YjsDocumentProvider], [mergeYjsStates], [areStatesEqual]).

    JavaScript objects that the source shares by reference (rooms, client
    records, sockets) live in stores indexed by references; a [Map] is an
    insertion-ordered association list; calls on the [ws] sockets and on the
    console are appended to a trace.  The Yjs library and Node's base64
    codec are not part of the repository: they are interfaces here. *)

From Stdlib Require Import ZArith Lia Ascii String.
From stdpp Require Import base option list strings gmap.

(** ** JavaScript [Map]: insertion-ordered, unique keys *)

Module JsMap.
Section Ops.
Context {K V : Type} `{EqDecision K}.

Fixpoint get (k : K) (m : list (K * V)) : option V :=
  match m with
  | [] => None
  | (k', v) :: m' => if decide (k = k') then Some v else get k m'
  end.

(** [set] keeps the position of a key that is already present and
    appends a new key at the end, as [Map.prototype.set] does. *)
Fixpoint set (k : K) (v : V) (m : list (K * V)) : list (K * V) :=
  match m with
  | [] => [(k, v)]
  | (k', v') :: m' =>
      if decide (k = k') then (k', v) :: m' else (k', v') :: set k v m'
  end.

Fixpoint delete (k : K) (m : list (K * V)) : list (K * V) :=
  match m with
  | [] => []
  | (k', v') :: m' =>
      if decide (k = k') then m' else (k', v') :: delete k m'
  end.

Definition size (m : list (K * V)) : nat := length m.

Definition keys (m : list (K * V)) : list K := m.*1.
End Ops.
End JsMap.

(** ** External libraries, as interfaces *)

Definition bytes := list Z.

(** Outcome of [Y.applyUpdate(doc, u)], which works on the document in
    place: the call returns or it throws, and either way [d] is the
    document as the call left it. *)
Inductive ApplyResult (D : Type) :=
| Applied (d : D)
| Thrown (d : D).

Arguments Applied {D} d.
Arguments Thrown {D} d.

Definition applied {D : Type} (r : ApplyResult D) : option D :=
  match r with
  | Applied d => Some d
  | Thrown _ => None
  end.

Definition leftDoc {D : Type} (r : ApplyResult D) : D :=
  match r with
  | Applied d => d
  | Thrown d => d
  end.

(** Yjs, as far as the repository calls it: the content of [new Y.Doc()],
    [Y.applyUpdate], [Y.encodeStateAsUpdate], and the payload of the
    ['update'] event that an [applyUpdate] call emits on the document, if
    it emits one. *)
Class Yjs (D : Type) := {
  Y_Doc : D;
  Y_applyUpdate : D -> bytes -> ApplyResult D;
  Y_encodeStateAsUpdate : D -> bytes;
  Y_updateEvent : D -> bytes -> option bytes
}.

(** Node's [Buffer.from(s, 'base64')] and [buf.toString('base64')]. *)
Class Base64 := {
  from_base64 : string -> bytes;
  to_base64 : bytes -> string
}.

(** ** Wire messages *)

Definition Cursor : Type := Z * Z.

(** The [data] field of a parsed message: a string, or any other JSON
    value ([typeof message.data !== 'string']). *)
Inductive JsData :=
| DataString (s : string)
| DataOther.

(** The [type] field: a string, or anything else ([shown] is how a
    template literal renders it, e.g. [undefined]); only a string can match
    a [case] label. *)
Inductive JsType :=
| TypeString (s : string)
| TypeOther (shown : string).

Definition showType (t : JsType) : string :=
  match t with
  | TypeString s => s
  | TypeOther shown => shown
  end.

(** [message.type === label], as a [case] of a [switch] tests it. *)
Definition typeIs (t : JsType) (label : string) : bool :=
  match t with
  | TypeString s => bool_decide (s = label)
  | TypeOther _ => false
  end.

Module WSMessage.
Record t := mk {
  type : JsType;
  documentId : string;
  data : option JsData;
  userId : option string;
  userName : option string;
  userColor : option string;
  cursor : option Cursor
}.
End WSMessage.

Record PresenceEntry := {
  p_userId : string;
  p_userName : string;
  p_userColor : string;
  p_cursor : option Cursor
}.

Inductive PresenceAction := Join | Leave | Awareness.

(** What the server hands to [ws.send], before [JSON.stringify]. *)
Inductive Frame :=
| FSync (documentId : string) (data : string)
| FAwarenessList (documentId : string) (presence : list PresenceEntry)
| FForward (message : WSMessage.t)
| FCursor (documentId userId userName userColor : string)
    (cursor : option Cursor)
| FPresence (action : PresenceAction) (userId : string)
    (presence : list PresenceEntry).

Inductive ReadyState := CONNECTING | OPEN | CLOSING | CLOSED.

Inductive Effect :=
| WsSend (w : nat) (f : Frame)
| WsClose (w : nat) (code : Z) (reason : string)
| ConsoleWarn (text : string)
| ConsoleError (text : string).

Inductive Completion := Normal | Threw.

(** Outcome of [JSON.parse(data.toString())]: it throws, or yields [null]
    (reading [message.type] then throws), or yields a value whose fields
    can be read. *)
Inductive Parsed :=
| SyntaxError
| JsonNull
| JsonValue (message : WSMessage.t).

#[global] Instance ReadyState_eq_dec : EqDecision ReadyState.
Proof. solve_decision. Defined.

(** JavaScript truthiness of an optional string field. *)
Definition truthy (o : option string) : option string :=
  match o with
  | Some s => if decide (s = "") then None else Some s
  | None => None
  end.

(** [s.slice(1)] *)
Definition slice1 (s : string) : string :=
  match s with
  | EmptyString => EmptyString
  | String _ r => r
  end.

(** ** The server, [CollaborationServer] *)

Module WsServer.

Definition PRESENCE_TIMEOUT : Z := 5000.

Record ClientConnection := mkClient {
  ws : nat;
  userId : string;
  userName : string;
  userColor : string;
  lastSeen : Z;
  cursor : option Cursor
}.

Record Handler := mkHandler {
  h_room : nat;
  h_client : nat;
  h_userId : string
}.

(** A pending [setTimeout] of [handleDisconnection]: its delay and the
    room object its callback closes over. *)
Record Timer := mkTimer {
  delay : Z;
  t_room : nat
}.

Definition colors : list string :=
  [ "#FF6B6B"; "#4ECDC4"; "#45B7D1"; "#96CEB4";
    "#FFEAA7"; "#DDA0DD"; "#98D8C8"; "#F7DC6F";
    "#BB8FCE"; "#85C1E9"; "#F8B500"; "#00CED1" ].

(** [colors[Math.floor(Math.random() * colors.length)]]; [rnd] stands
    for the random draw. *)
Definition generateUserColor (rnd : nat) : string :=
  nth (rnd mod length colors) colors "".

Definition set_lastSeen (t : Z) (c : ClientConnection) : ClientConnection :=
  mkClient (ws c) (userId c) (userName c) (userColor c) t (cursor c).
Definition set_userName (n : string) (c : ClientConnection) :=
  mkClient (ws c) (userId c) n (userColor c) (lastSeen c) (cursor c).
Definition set_userColor (n : string) (c : ClientConnection) :=
  mkClient (ws c) (userId c) (userName c) n (lastSeen c) (cursor c).
Definition set_cursor (x : option Cursor) (c : ClientConnection) :=
  mkClient (ws c) (userId c) (userName c) (userColor c) (lastSeen c) x.

Definition presenceOf (c : ClientConnection) : PresenceEntry :=
  {| p_userId := userId c; p_userName := userName c;
     p_userColor := userColor c; p_cursor := cursor c |}.

Section WithYjs.
Context {D : Type} `{Yjs D} `{Base64}.

Record YDoc := mkYDoc {
  guid : string;
  store : D;
  isDestroyed : bool
}.

Record DocumentRoom := mkRoom {
  doc : YDoc;
  clients : list (string * nat);
  lastActivity : Z
}.

Record Server := mkServer {
  rooms : list (string * nat);
  clientToRoom : list (nat * string);
  presenceCleanupInterval : Z;
  roomObjs : gmap nat DocumentRoom;
  clientObjs : gmap nat ClientConnection;
  sockets : gmap nat ReadyState;
  handlers : gmap nat Handler;
  timers : list Timer;
  trace : list Effect;
  nextRef : nat
}.

Definition with_rooms (x : list (string * nat)) (s : Server) : Server :=
  mkServer x (clientToRoom s) (presenceCleanupInterval s) (roomObjs s)
    (clientObjs s) (sockets s) (handlers s) (timers s) (trace s)
    (nextRef s).
Definition with_clientToRoom (x : list (nat * string)) (s : Server) :=
  mkServer (rooms s) x (presenceCleanupInterval s) (roomObjs s)
    (clientObjs s) (sockets s) (handlers s) (timers s) (trace s)
    (nextRef s).
Definition with_roomObjs (x : gmap nat DocumentRoom) (s : Server) :=
  mkServer (rooms s) (clientToRoom s) (presenceCleanupInterval s) x
    (clientObjs s) (sockets s) (handlers s) (timers s) (trace s)
    (nextRef s).
Definition with_clientObjs (x : gmap nat ClientConnection) (s : Server) :=
  mkServer (rooms s) (clientToRoom s) (presenceCleanupInterval s)
    (roomObjs s) x (sockets s) (handlers s) (timers s) (trace s)
    (nextRef s).
Definition with_sockets (x : gmap nat ReadyState) (s : Server) :=
  mkServer (rooms s) (clientToRoom s) (presenceCleanupInterval s)
    (roomObjs s) (clientObjs s) x (handlers s) (timers s) (trace s)
    (nextRef s).
Definition with_handlers (x : gmap nat Handler) (s : Server) :=
  mkServer (rooms s) (clientToRoom s) (presenceCleanupInterval s)
    (roomObjs s) (clientObjs s) (sockets s) x (timers s) (trace s)
    (nextRef s).
Definition with_timers (x : list Timer) (s : Server) :=
  mkServer (rooms s) (clientToRoom s) (presenceCleanupInterval s)
    (roomObjs s) (clientObjs s) (sockets s) (handlers s) x (trace s)
    (nextRef s).
Definition with_trace (x : list Effect) (s : Server) :=
  mkServer (rooms s) (clientToRoom s) (presenceCleanupInterval s)
    (roomObjs s) (clientObjs s) (sockets s) (handlers s) (timers s) x
    (nextRef s).
Definition with_nextRef (x : nat) (s : Server) :=
  mkServer (rooms s) (clientToRoom s) (presenceCleanupInterval s)
    (roomObjs s) (clientObjs s) (sockets s) (handlers s) (timers s)
    (trace s) x.

Definition set_clients (x : list (string * nat)) (r : DocumentRoom) :=
  mkRoom (doc r) x (lastActivity r).
Definition set_lastActivity (t : Z) (r : DocumentRoom) :=
  mkRoom (doc r) (clients r) t.
Definition set_store (d : D) (r : DocumentRoom) :=
  mkRoom (mkYDoc (guid (doc r)) d (isDestroyed (doc r))) (clients r)
    (lastActivity r).
Definition destroy_doc (r : DocumentRoom) :=
  mkRoom (mkYDoc (guid (doc r)) (store (doc r)) true) (clients r)
    (lastActivity r).

Definition emit (e : list Effect) (s : Server) : Server :=
  with_trace (trace s ++ e) s.

(** The state an open socket moves to when [close] is called on it. *)
Definition closing (st : ReadyState) : ReadyState :=
  match st with OPEN => CLOSING | x => x end.

Definition isOpen (s : Server) (w : nat) : bool :=
  bool_decide (sockets s !! w = Some OPEN).

(** [ws.close(code, reason)]: the call is recorded and an open socket
    starts closing; its ['close'] event comes later. *)
Definition wsClose (w : nat) (code : Z) (reason : string) (s : Server) :=
  emit [WsClose w code reason]
    (with_sockets (alter closing w (sockets s)) s).

(** [new CollaborationServer(port)]: no rooms, sweep every 1000 ms. *)
Definition constructor : Server :=
  mkServer [] [] 1000 ∅ ∅ ∅ ∅ [] [] 0.

(** [newGuid] is the identifier that [new Y.Doc()] draws for itself. *)
Definition getOrCreateRoom (documentId : string) (now : Z)
    (newGuid : string) (s : Server) : nat * Server :=
  match JsMap.get documentId (rooms s) with
  | Some r => (r, s)
  | None =>
      let r := nextRef s in
      let room := mkRoom (mkYDoc newGuid Y_Doc false) [] now in
      (r, with_nextRef (S r)
            (with_rooms (JsMap.set documentId r (rooms s))
               (with_roomObjs (<[r := room]> (roomObjs s)) s)))
  end.

Definition getPresenceList (s : Server) (room : DocumentRoom)
    : list PresenceEntry :=
  omap (fun e : string * nat => presenceOf <$> clientObjs s !! e.2)
    (clients room).

(** The sockets a [room.clients.forEach] loop sends to: entries whose
    key passes [keep] and whose socket is open, in map order. *)
Definition openTargets (s : Server) (keep : string -> bool)
    (cl : list (string * nat)) : list nat :=
  omap (fun e : string * nat =>
          match clientObjs s !! e.2 with
          | Some c =>
              if keep e.1 && isOpen s (ws c) then Some (ws c) else None
          | None => None
          end) cl.

Definition sendInitialSync (w : nat) (r : nat) (s : Server) : Server :=
  match roomObjs s !! r with
  | Some room =>
      let state := Y_encodeStateAsUpdate (store (doc room)) in
      let s1 := emit [WsSend w (FSync "" (to_base64 state))] s in
      emit [WsSend w (FAwarenessList "" (getPresenceList s1 room))] s1
  | None => s
  end.

Definition broadcastPresence (r : nat) (uid : string)
    (action : PresenceAction) (s : Server) : Server :=
  match roomObjs s !! r with
  | Some room =>
      let message := FPresence action uid (getPresenceList s room) in
      emit (map (fun w => WsSend w message)
              (openTargets s (fun _ => true) (clients room))) s
  | None => s
  end.

Definition handleConnection (w : nat) (documentId uid : string)
    (rnd : nat) (nowRoom nowSeen : Z) (newGuid : string) (s : Server)
    : Server :=
  let '(r, s1) := getOrCreateRoom documentId nowRoom newGuid s in
  let cref := nextRef s1 in
  let client :=
    mkClient w uid "Anonymous" (generateUserColor rnd) nowSeen None in
  let s2 :=
    with_nextRef (S cref)
      (with_clientObjs (<[cref := client]> (clientObjs s1)) s1) in
  let s3 :=
    with_roomObjs
      (alter (fun room => set_clients (JsMap.set uid cref (clients room))
                            room) r (roomObjs s2)) s2 in
  let s4 := with_clientToRoom (JsMap.set w documentId (clientToRoom s3)) s3 in
  let s5 := sendInitialSync w r s4 in
  let s6 := broadcastPresence r uid Join s5 in
  with_handlers (<[w := mkHandler r cref uid]> (handlers s6)) s6.

(** The ['connection'] callback of [setupServer].  [pathname] is
    [url.pathname], [uidParam] is [url.searchParams.get('userId')] and
    [generated] is what [generateClientId()] would return. *)
Definition onConnection (w : nat) (pathname : string)
    (uidParam : option string) (generated : string) (rnd : nat)
    (nowRoom nowSeen : Z) (newGuid : string) (s : Server) : Server :=
  let documentId := slice1 pathname in
  let uid := default generated (truthy uidParam) in
  if decide (documentId = "") then
    wsClose w 4000 "Document ID required" s
  else handleConnection w documentId uid rnd nowRoom nowSeen newGuid s.

Definition handleUpdate (r cref : nat) (message : WSMessage.t)
    (s : Server) : Server * Completion :=
  match WSMessage.data message with
  | Some (DataString payload) =>
      if decide (payload = "") then (s, Normal)
      else
        match roomObjs s !! r, clientObjs s !! cref with
        | Some room, Some client =>
            match Y_applyUpdate (store (doc room)) (from_base64 payload) with
            | Thrown d' =>
                (with_roomObjs (<[r := set_store d' room]> (roomObjs s)) s,
                 Threw)
            | Applied d' =>
                let s1 :=
                  with_roomObjs (<[r := set_store d' room]> (roomObjs s)) s in
                (emit (map (fun w => WsSend w (FForward message))
                         (openTargets s1
                            (fun k => bool_decide (k ≠ userId client))
                            (clients room))) s1, Normal)
            end
        | _, _ => (s, Normal)
        end
  | _ => (s, Normal)
  end.

Definition handleAwareness (r cref : nat) (message : WSMessage.t)
    (s : Server) : Server :=
  let upd (c : ClientConnection) :=
    let c1 := match truthy (WSMessage.userName message) with
              | Some n => set_userName n c
              | None => c
              end in
    match truthy (WSMessage.userColor message) with
    | Some n => set_userColor n c1
    | None => c1
    end in
  let s1 := with_clientObjs (alter upd cref (clientObjs s)) s in
  match clientObjs s1 !! cref with
  | Some client => broadcastPresence r (userId client) Awareness s1
  | None => s1
  end.

Definition handleCursor (r cref : nat) (message : WSMessage.t)
    (s : Server) : Server :=
  let s1 :=
    with_clientObjs
      (alter (set_cursor (WSMessage.cursor message)) cref (clientObjs s))
      s in
  match roomObjs s1 !! r, clientObjs s1 !! cref with
  | Some room, Some client =>
      let frame :=
        FCursor (WSMessage.documentId message) (userId client)
          (userName client) (userColor client) (cursor client) in
      emit (map (fun w => WsSend w frame)
              (openTargets s1 (fun k => bool_decide (k ≠ userId client))
                 (clients room))) s1
  | _, _ => s1
  end.

(** [tSeen] and [tActivity] are the two [Date.now()] readings. *)
Definition handleMessage (w r cref : nat) (parsed : Parsed)
    (tSeen tActivity : Z) (s : Server) : Server :=
  let touch (s : Server) :=
    with_roomObjs (alter (set_lastActivity tActivity) r (roomObjs s))
      (with_clientObjs (alter (set_lastSeen tSeen) cref (clientObjs s))
         s) in
  match parsed with
  | SyntaxError => emit [ConsoleError "Error handling message:"] s
  | JsonNull => emit [ConsoleError "Error handling message:"] (touch s)
  | JsonValue message =>
      let s2 := touch s in
      let '(s3, c) :=
        if typeIs (WSMessage.type message) "update" then
          handleUpdate r cref message s2
        else if typeIs (WSMessage.type message) "awareness" then
          (handleAwareness r cref message s2, Normal)
        else if typeIs (WSMessage.type message) "cursor" then
          (handleCursor r cref message s2, Normal)
        else
          (emit [ConsoleWarn ("Unknown message type: " +:+
                                showType (WSMessage.type message))] s2,
           Normal) in
      match c with
      | Normal => s3
      | Threw => emit [ConsoleError "Error handling message:"] s3
      end
  end.

Definition handleDisconnection (w r : nat) (uid : string) (s : Server)
    : Server :=
  let s1 :=
    with_roomObjs
      (alter (fun room => set_clients (JsMap.delete uid (clients room))
                            room) r (roomObjs s)) s in
  let s2 := with_clientToRoom (JsMap.delete w (clientToRoom s1)) s1 in
  let s3 := broadcastPresence r uid Leave s2 in
  match roomObjs s3 !! r with
  | Some room =>
      if decide (JsMap.size (clients room) = 0%nat) then
        with_timers (timers s3 ++ [mkTimer 60000 r]) s3
      else s3
  | None => s3
  end.

(** The callback that [handleDisconnection] hands to [setTimeout];
    [r] is the room object it closes over. *)
Definition roomTimeout (r : nat) (s : Server) : Server :=
  match roomObjs s !! r with
  | Some room =>
      let key := guid (doc room) in
      match JsMap.get key (rooms s) with
      | Some cur =>
          match roomObjs s !! cur with
          | Some currentRoom =>
              if decide (JsMap.size (clients currentRoom) = 0%nat) then
                with_rooms (JsMap.delete key (rooms s))
                  (with_roomObjs
                     (<[cur := destroy_doc currentRoom]> (roomObjs s)) s)
              else s
          | None => s
          end
      | None => s
      end
  | None => s
  end.

(** The runtime fires the oldest pending timer. *)
Definition fireTimer (s : Server) : Server :=
  match timers s with
  | [] => s
  | t :: rest => roomTimeout (t_room t) (with_timers rest s)
  end.

Definition isStale (now : Z) (c : ClientConnection) : bool :=
  bool_decide (now - lastSeen c > PRESENCE_TIMEOUT)%Z.

(** Body of the inner [forEach] of [cleanupStalePresence]. *)
Definition sweepClient (now : Z) (r : nat) (s : Server)
    (e : string * nat) : Server :=
  match clientObjs s !! e.2 with
  | Some client =>
      if isStale now client then
        let s1 := wsClose (ws client) 4001 "Connection timeout" s in
        let s2 :=
          with_roomObjs
            (alter (fun room =>
                      set_clients (JsMap.delete e.1 (clients room)) room)
               r (roomObjs s1)) s1 in
        let s3 :=
          with_clientToRoom (JsMap.delete (ws client) (clientToRoom s2))
            s2 in
        broadcastPresence r e.1 Leave s3
      else s
  | None => s
  end.

(** A [forEach] that deletes only the entry it is visiting sees every
    entry of the map as it was when the loop began, in order. *)
Definition sweepRoom (now : Z) (s : Server) (e : string * nat) : Server :=
  match roomObjs s !! e.2 with
  | Some room => foldl (sweepClient now e.2) s (clients room)
  | None => s
  end.

Definition cleanupStalePresence (now : Z) (s : Server) : Server :=
  foldl (sweepRoom now) s (rooms s).

Definition getDocumentState (documentId : string) (s : Server)
    : option bytes :=
  match JsMap.get documentId (rooms s) with
  | Some r =>
      (fun room => Y_encodeStateAsUpdate (store (doc room))) <$>
        roomObjs s !! r
  | None => None
  end.

Definition getClientCount (documentId : string) (s : Server) : nat :=
  match JsMap.get documentId (rooms s) with
  | Some r =>
      from_option (fun room => JsMap.size (clients room)) 0%nat
        (roomObjs s !! r)
  | None => 0%nat
  end.

(** Events delivered by the [ws] runtime. *)

(** A socket is open when its ['connection'] event is emitted. *)
Definition wssConnection (w : nat) (pathname : string)
    (uidParam : option string) (generated : string) (rnd : nat)
    (nowRoom nowSeen : Z) (newGuid : string) (s : Server) : Server :=
  onConnection w pathname uidParam generated rnd nowRoom nowSeen newGuid
    (with_sockets (<[w := OPEN]> (sockets s)) s).

Definition wsMessage (w : nat) (parsed : Parsed)
    (tSeen tActivity : Z) (s : Server) : Server :=
  match handlers s !! w with
  | Some h => handleMessage w (h_room h) (h_client h) parsed tSeen
                tActivity s
  | None => s
  end.

Definition wsClosed (w : nat) (s : Server) : Server :=
  let s1 := with_sockets (<[w := CLOSED]> (sockets s)) s in
  match handlers s1 !! w with
  | Some h => handleDisconnection w (h_room h) (h_userId h) s1
  | None => s1
  end.

Definition wsError (w : nat) (s : Server) : Server :=
  match handlers s !! w with
  | Some h =>
      handleDisconnection w (h_room h) (h_userId h)
        (emit [ConsoleError ("WebSocket error for user " +:+ h_userId h
                             +:+ ":")] s)
  | None => s
  end.

(** One delivery of the runtime to the server: a new socket, a message, a
    closed socket, a socket error, a tick of the sweep interval, or the
    oldest grace timer coming due. *)
Inductive Event :=
| EvConnection (w : nat) (pathname : string) (uidParam : option string)
    (generated : string) (rnd : nat) (nowRoom nowSeen : Z) (newGuid : string)
| EvMessage (w : nat) (parsed : Parsed) (tSeen tActivity : Z)
| EvClose (w : nat)
| EvError (w : nat)
| EvSweep (now : Z)
| EvTimer.

Definition step (s : Server) (e : Event) : Server :=
  match e with
  | EvConnection w pathname uidParam generated rnd nowRoom nowSeen newGuid =>
      wssConnection w pathname uidParam generated rnd nowRoom nowSeen newGuid s
  | EvMessage w parsed tSeen tActivity => wsMessage w parsed tSeen tActivity s
  | EvClose w => wsClosed w s
  | EvError w => wsError w s
  | EvSweep now => cleanupStalePresence now s
  | EvTimer => fireTimer s
  end.

Definition run (es : list Event) : Server := foldl step constructor es.

End WithYjs.

Arguments YDoc : clear implicits.
Arguments DocumentRoom : clear implicits.
Arguments Server : clear implicits.
End WsServer.

(** ** The client provider, [YjsDocumentProvider] *)

Module YjsProvider.

Inductive ConnectionStatus := connecting | connected | disconnected.

Record CollaboratorInfo := {
  id : string;
  name : string;
  color : string;
  cursor : option Cursor
}.

(** The callbacks of [YjsProviderEvents], the only channel from the
    provider to its caller besides return values and exceptions. *)
Inductive CallerEvent :=
| onStatusChange (status : ConnectionStatus)
| onSynced (isSynced : bool)
| onAwarenessChange (collaborators : list CollaboratorInfo)
| onUpdate (update : bytes).

Inductive Action :=
| Notify (e : CallerEvent)
| SetTimeout (delay : Z)
| ClearTimeout
| NewWebsocketProvider
| WsProviderConnect
| WsProviderDisconnect
| WsProviderDestroy
| SetLocalAwareness
| ConsoleWarn (text : string)
| ConsoleError (text : string).

(** A listener of the provider that the library calls before a call
    into the library returns: the ['status'] and ['sync'] listeners of
    the socket provider and the ['change'] listener of its awareness. *)
Inductive Reentry :=
| StatusEvent (status : ConnectionStatus)
| SyncEvent (synced : bool)
| AwarenessEvent (found : list CollaboratorInfo).

Definition maxReconnectAttempts : nat := 10.

(** The notifications among a list of actions: what the caller sees. *)
Definition callerSees (acts : list Action) : list CallerEvent :=
  omap (fun a => match a with Notify e => Some e | _ => None end) acts.

Section WithYjs.
Context {D : Type} `{Yjs D}.

Record Provider := mkProvider {
  ydoc : D;
  ydocDestroyed : bool;
  wsProvider : bool;
  isConnected : bool;
  isSynced : bool;
  collaborators : list CollaboratorInfo;
  reconnectAttempts : nat;
  reconnectTimeout : bool;
  updateListeners : nat
}.

Definition with_ydoc (x : D) (p : Provider) :=
  mkProvider x (ydocDestroyed p) (wsProvider p) (isConnected p)
    (isSynced p) (collaborators p) (reconnectAttempts p)
    (reconnectTimeout p) (updateListeners p).
Definition with_wsProvider (x : bool) (p : Provider) :=
  mkProvider (ydoc p) (ydocDestroyed p) x (isConnected p) (isSynced p)
    (collaborators p) (reconnectAttempts p) (reconnectTimeout p)
    (updateListeners p).
Definition with_isConnected (x : bool) (p : Provider) :=
  mkProvider (ydoc p) (ydocDestroyed p) (wsProvider p) x (isSynced p)
    (collaborators p) (reconnectAttempts p) (reconnectTimeout p)
    (updateListeners p).
Definition with_isSynced (x : bool) (p : Provider) :=
  mkProvider (ydoc p) (ydocDestroyed p) (wsProvider p) (isConnected p) x
    (collaborators p) (reconnectAttempts p) (reconnectTimeout p)
    (updateListeners p).
Definition with_collaborators (x : list CollaboratorInfo) (p : Provider) :=
  mkProvider (ydoc p) (ydocDestroyed p) (wsProvider p) (isConnected p)
    (isSynced p) x (reconnectAttempts p) (reconnectTimeout p)
    (updateListeners p).
Definition with_reconnectAttempts (x : nat) (p : Provider) :=
  mkProvider (ydoc p) (ydocDestroyed p) (wsProvider p) (isConnected p)
    (isSynced p) (collaborators p) x (reconnectTimeout p)
    (updateListeners p).
Definition with_reconnectTimeout (x : bool) (p : Provider) :=
  mkProvider (ydoc p) (ydocDestroyed p) (wsProvider p) (isConnected p)
    (isSynced p) (collaborators p) (reconnectAttempts p) x
    (updateListeners p).
Definition with_updateListeners (x : nat) (p : Provider) :=
  mkProvider (ydoc p) (ydocDestroyed p) (wsProvider p) (isConnected p)
    (isSynced p) (collaborators p) (reconnectAttempts p)
    (reconnectTimeout p) x.

Definition constructor : Provider :=
  mkProvider Y_Doc false false false false [] 0 false 0.

(** [connect()]; [ctorThrows] says whether [new WebsocketProvider]
    throws. *)
Definition connect (ctorThrows : bool) (p : Provider)
    : Provider * list Action :=
  if wsProvider p then (p, [])
  else if ctorThrows then
    (p, [Notify (onStatusChange connecting);
         ConsoleWarn "Failed to create WebSocket provider:";
         Notify (onStatusChange disconnected)])
  else
    (with_updateListeners (S (updateListeners p)) (with_wsProvider true p),
     [Notify (onStatusChange connecting); NewWebsocketProvider;
      SetLocalAwareness]).

Definition handleDisconnect (p : Provider) : Provider * list Action :=
  if decide (maxReconnectAttempts <= reconnectAttempts p)%nat then
    (p, [ConsoleError "Max reconnection attempts reached"])
  else
    let delay :=
      Z.min (1000 * 2 ^ Z.of_nat (reconnectAttempts p)) 30000 in
    (with_reconnectTimeout true
       (with_reconnectAttempts (S (reconnectAttempts p)) p),
     [SetTimeout delay]).

(** The ['status'] listener of [setupEventListeners]. *)
Definition onStatus (status : ConnectionStatus) (p : Provider)
    : Provider * list Action :=
  let p1 :=
    with_isConnected
      (match status with connected => true | _ => false end) p in
  let notified := [Notify (onStatusChange status)] in
  match status with
  | connected => (with_reconnectAttempts 0 p1, notified)
  | disconnected =>
      let '(p2, acts) := handleDisconnect p1 in (p2, notified ++ acts)
  | connecting => (p1, notified)
  end.

(** What [n] disconnects in a row schedule, one list per disconnect. *)
Fixpoint disconnects (n : nat) (p : Provider) : list (list Action) :=
  match n with
  | O => []
  | S n' => let '(p', acts) := handleDisconnect p in acts :: disconnects n' p'
  end.

(** The ['sync'] listener. *)
Definition onSync (synced : bool) (p : Provider) : Provider * list Action :=
  (with_isSynced synced p, [Notify (onSynced synced)]).

(** The callback that [handleDisconnect] hands to [setTimeout]. *)
Definition reconnectTimerFired (p : Provider) : Provider * list Action :=
  if wsProvider p && negb (isConnected p) then (p, [WsProviderConnect])
  else (p, []).

Definition getEncodedState (p : Provider) : bytes :=
  Y_encodeStateAsUpdate (ydoc p).

(** The document is as [Y.applyUpdate] leaves it, every ['update']
    listener that [setupEventListeners] put on the document is called
    with the event of the call, and an exception of the library goes on
    to the caller. *)
Definition applyUpdate (update : bytes) (p : Provider)
    : Provider * list Action * Completion :=
  let r := Y_applyUpdate (ydoc p) update in
  (with_ydoc (leftDoc r) p,
   match Y_updateEvent (ydoc p) update with
   | Some u => replicate (updateListeners p) (Notify (onUpdate u))
   | None => []
   end,
   match r with Applied _ => Normal | Thrown _ => Threw end).

Definition loadInitialState (state : bytes) (p : Provider)
    : Provider * list Action * Completion :=
  let r := Y_applyUpdate (ydoc p) state in
  (with_ydoc (leftDoc r) p,
   match Y_updateEvent (ydoc p) state with
   | Some u => replicate (updateListeners p) (Notify (onUpdate u))
   | None => []
   end,
   match r with Applied _ => Normal | Thrown _ => Threw end).

Definition withYdocDestroyed (p : Provider) : Provider :=
  mkProvider (ydoc p) true (wsProvider p) (isConnected p) (isSynced p)
    (collaborators p) (reconnectAttempts p) (reconnectTimeout p)
    (updateListeners p).

(** The ['change'] listener of [setupAwareness].  [found] is what the
    loop of [getCollaborators] collects from the awareness states; without
    a socket provider [getCollaborators] returns before the loop. *)
Definition onAwareness (found : list CollaboratorInfo) (p : Provider)
    : Provider * list Action :=
  let cs := if wsProvider p then found else [] in
  (with_collaborators cs p, [Notify (onAwarenessChange cs)]).

Definition reenter (e : Reentry) (p : Provider) : Provider * list Action :=
  match e with
  | StatusEvent status => onStatus status p
  | SyncEvent synced => onSync synced p
  | AwarenessEvent found => onAwareness found p
  end.

Definition reenterAll (es : list Reentry) (p : Provider)
    : Provider * list Action :=
  foldl (fun pa e => ((reenter e pa.1).1, pa.2 ++ (reenter e pa.1).2))
    (p, []) es.

(** [disconnect()].  [during] are the listeners that the socket provider
    calls before [wsProvider.disconnect()] returns (closing a connected
    socket reports [disconnected] at once): they run after the timer was
    cleared and before the fields are reset. *)
Definition disconnect (during : list Reentry) (p : Provider)
    : Provider * list Action :=
  let a1 := if reconnectTimeout p then [ClearTimeout] else [] in
  let p1 := with_reconnectTimeout false p in
  let '(p2, a2) :=
    if wsProvider p1 then
      let '(q, called) := reenterAll during p1 in
      (with_wsProvider false q,
       WsProviderDisconnect :: called ++ [WsProviderDestroy])
    else (p1, []) in
  (with_collaborators [] (with_isSynced false (with_isConnected false p2)),
   a1 ++ a2).

(** [destroy()].  [changes] are the calls of the awareness ['change']
    listener that [ydoc.destroy()] leads to, one entry for what the loop
    of [getCollaborators] would find each time; a provider that never
    connected has no such listener. *)
Definition destroy (during : list Reentry)
    (changes : list (list CollaboratorInfo)) (p : Provider)
    : Provider * list Action :=
  let '(p1, acts) := disconnect during p in
  let reached :=
    if decide (updateListeners p = 0%nat) then []
    else AwarenessEvent <$> changes in
  let '(p2, called) := reenterAll reached p1 in
  (withYdocDestroyed p2, acts ++ called).

(** [mergeYjsStates]; [None] when one of the two applications throws. *)
Definition mergeYjsStates (state1 state2 : bytes) : option bytes :=
  match Y_applyUpdate Y_Doc state1 with
  | Applied d1 =>
      match Y_applyUpdate d1 state2 with
      | Applied d2 => Some (Y_encodeStateAsUpdate d2)
      | Thrown _ => None
      end
  | Thrown _ => None
  end.

(** The comparison loop of [areStatesEqual] from index [i] on. *)
Fixpoint sameFrom (n i : nat) (a b : bytes) : bool :=
  match n with
  | O => true
  | S n' =>
      if decide (a !! i = b !! i) then sameFrom n' (S i) a b else false
  end.

(** [None] when one of the two applications throws. *)
Definition areStatesEqual (state1 state2 : bytes) : option bool :=
  match Y_applyUpdate Y_Doc state1, Y_applyUpdate Y_Doc state2 with
  | Applied doc1, Applied doc2 =>
      let snapshot1 := Y_encodeStateAsUpdate doc1 in
      let snapshot2 := Y_encodeStateAsUpdate doc2 in
      if decide (length snapshot1 = length snapshot2) then
        Some (sameFrom (length snapshot1) 0 snapshot1 snapshot2)
      else Some false
  | _, _ => None
  end.

End WithYjs.

Arguments Provider : clear implicits.
End YjsProvider.

(** ** A concrete replica and codec for closed examples

    A grow-only set of integers stands in for the Yjs document: an update
    is a length-prefixed list of elements, and merging is set union. *)

Module Replica.

Definition applySet (d : gset Z) (u : bytes) : ApplyResult (gset Z) :=
  match u with
  | [] => Thrown d
  | n :: xs =>
      if decide (n = Z.of_nat (length xs)) then Applied (d ∪ list_to_set xs)
      else Thrown d
  end.

Definition encodeSet (d : gset Z) : bytes :=
  Z.of_nat (length (elements d)) :: elements d.

Definition eventSet (d : gset Z) (u : bytes) : option bytes :=
  match applySet d u with
  | Applied d' => if decide (d' = d) then None else Some (encodeSet (d' ∖ d))
  | Thrown _ => None
  end.

#[global] Instance gset_yjs : Yjs (gset Z) := {
  Y_Doc := ∅;
  Y_applyUpdate := applySet;
  Y_encodeStateAsUpdate := encodeSet;
  Y_updateEvent := eventSet
}.



Definition alphabet : list ascii :=
  list_ascii_of_string
    "ABCDEFGHIJKLMNOPQRSTUVWXYZabcdefghijklmnopqrstuvwxyz0123456789+/".

Definition sextetChar (n : Z) : ascii :=
  nth (Z.to_nat n) alphabet "="%char.

Fixpoint indexOf (c : ascii) (l : list ascii) (i : Z) : option Z :=
  match l with
  | [] => None
  | x :: r => if decide (c = x) then Some i else indexOf c r (i + 1)%Z
  end.

Fixpoint sextets (l : list ascii) : list Z :=
  match l with
  | [] => []
  | c :: r =>
      if decide (c = "="%char) then []
      else match indexOf c alphabet 0 with
           | Some n => n :: sextets r
           | None => sextets r
           end
  end.

Fixpoint pack (l : list Z) : bytes :=
  match l with
  | a :: b :: c :: d :: r =>
      let n := (((a * 64 + b) * 64 + c) * 64 + d)%Z in
      (n / 65536)%Z :: (n / 256 mod 256)%Z :: (n mod 256)%Z :: pack r
  | [a; b; c] =>
      let n := ((a * 64 + b) * 64 + c)%Z in
      [(n / 1024)%Z; (n / 4 mod 256)%Z]
  | [a; b] => [((a * 64 + b) / 16)%Z]
  | _ => []
  end.

Fixpoint unpack (l : bytes) : list ascii :=
  match l with
  | a :: b :: c :: r =>
      let n := (a * 65536 + b * 256 + c)%Z in
      sextetChar (n / 262144) :: sextetChar (n / 4096 mod 64)
        :: sextetChar (n / 64 mod 64) :: sextetChar (n mod 64) :: unpack r
  | [a; b] =>
      let n := (a * 1024 + b * 4)%Z in
      [sextetChar (n / 4096); sextetChar (n / 64 mod 64);
       sextetChar (n mod 64); "="%char]
  | [a] =>
      let n := (a * 16)%Z in
      [sextetChar (n / 64); sextetChar (n mod 64); "="%char; "="%char]
  | [] => []
  end.

#[global] Instance base64 : Base64 := {
  from_base64 s := pack (sextets (list_ascii_of_string s));
  to_base64 b := string_of_list_ascii (unpack b)
}.

End Replica.

(** ** A small run of the server, for closed examples *)

Module Scenario.
Import WsServer Replica.

Definition updateMessage (payload : string) : WSMessage.t :=
  WSMessage.mk (TypeString "update") "doc1" (Some (DataString payload))
    None None None None.

Definition alice := mkClient 1 "alice" "Anonymous" "#96CEB4" 0 None.
Definition bob := mkClient 2 "bob" "Anonymous" "#FFEAA7" 10 None.

(** The identifier that the room's [Y.Doc] draws for itself. *)
Definition doc1Guid : string := "3f1c2a9e-7b4d-4e0a-9c55-1d2e8f6a0b47".

(** alice, then bob, connect to [/doc1]; the second identifier is drawn
    for nothing, the room being there already. *)
Definition aliceJoins : Event :=
  EvConnection 1 "/doc1" (Some "alice") "client_0_a" 3 0 0 doc1Guid.
Definition bobJoins : Event :=
  EvConnection 2 "/doc1" (Some "bob") "client_10_b" 4 10 10
    "a8d0e5b2-91c3-4f7e-8b16-5c4d3e2f1a09".

Definition aliceIn : Server (gset Z) := run [aliceJoins].
Definition bothIn : Server (gset Z) := run [aliceJoins; bobJoins].

Definition doc1Room : DocumentRoom (gset Z) :=
  mkRoom (mkYDoc doc1Guid ∅ false) [("alice", 1); ("bob", 2)] 0.

(** alice and bob leave. *)
Definition bothOut : Server (gset Z) :=
  run [aliceJoins; bobJoins; EvClose 1; EvClose 2].

(** The grace timer fires with nobody back. *)
Definition timerFired : Server (gset Z) :=
  run [aliceJoins; bobJoins; EvClose 1; EvClose 2; EvTimer].

End Scenario.

(** ** Vocabulary of the statements *)

Section Vocabulary.
Import WsServer.
Context {D : Type} `{Yjs D} `{Base64}.

(** An [update] message that gets past the guard of [handleUpdate]. *)
Definition isUpdate (m : WSMessage.t) (payload : string) : Prop :=
  WSMessage.type m = TypeString "update"
  /\ WSMessage.data m = Some (DataString payload)
  /\ payload ≠ "".

Definition staleRef (now : Z) (s : Server D) (cref : nat) : bool :=
  from_option (isStale now) false (clientObjs s !! cref).

Definition staleSocket (now : Z) (s : Server D) (w : nat) : Prop :=
  exists cref c,
    clientObjs s !! cref = Some c /\ isStale now c = true /\ ws c = w.

(** What a sweep may change, for a sweep that visits the rooms [rs]. *)
Definition sweepFrame (now : Z) (rs : list nat) (s s' : Server D) : Prop :=
  clientObjs s' = clientObjs s
  /\ rooms s' = rooms s
  /\ (exists added,
        trace s' = trace s ++ added
        /\ forall w code reason,
             WsClose w code reason ∈ added ->
             code = 4001%Z /\ staleSocket now s w)
  /\ (forall w, ~ staleSocket now s w -> sockets s' !! w = sockets s !! w)
  /\ (forall r, r ∉ rs -> roomObjs s' !! r = roomObjs s !! r).

(** The shape every state of a running server has: one room object per
    registry key, allocated below [nextRef], and client maps with unique
    keys. *)
Definition wellFormed (s : Server D) : Prop :=
  NoDup (rooms s).*2
  /\ (forall k r, (k, r) ∈ rooms s ->
        (r < nextRef s)%nat /\ is_Some (roomObjs s !! r))
  /\ (forall r room, roomObjs s !! r = Some room ->
        NoDup (JsMap.keys (clients room))).

(** What a handler that leaves the registry alone may do to the rooms. *)
Definition sameShape (s s' : Server D) : Prop :=
  rooms s' = rooms s
  /\ (nextRef s <= nextRef s')%nat
  /\ (forall r, is_Some (roomObjs s !! r) -> is_Some (roomObjs s' !! r))
  /\ (forall r room', roomObjs s' !! r = Some room' ->
        exists room,
          roomObjs s !! r = Some room
          /\ (NoDup (JsMap.keys (clients room)) ->
              NoDup (JsMap.keys (clients room')))).

End Vocabulary.

(** Evaluate record updates on a server state given by its fields. *)
Ltac eval_state :=
  cbv [WsServer.emit WsServer.wsClose WsServer.with_rooms
       WsServer.with_clientToRoom WsServer.with_roomObjs
       WsServer.with_clientObjs WsServer.with_sockets WsServer.with_handlers
       WsServer.with_timers WsServer.with_trace WsServer.with_nextRef
       WsServer.rooms WsServer.clientToRoom WsServer.presenceCleanupInterval
       WsServer.roomObjs WsServer.clientObjs WsServer.sockets
       WsServer.handlers WsServer.timers WsServer.trace WsServer.nextRef].

(** Unfold the record updates of the server state and project. *)
Ltac unfold_state :=
  unfold WsServer.emit, WsServer.wsClose, WsServer.with_rooms,
    WsServer.with_clientToRoom, WsServer.with_roomObjs,
    WsServer.with_clientObjs, WsServer.with_sockets, WsServer.with_handlers,
    WsServer.with_timers, WsServer.with_trace, WsServer.with_nextRef;
  simpl.

(** ** The rest of the server's interface *)

Module ServerApi.

(** What [close()] asks of the runtime besides the calls on sockets. *)
Inductive RuntimeCall := ClearInterval | WssClose.

Section WithYjs.
Import WsServer.
Context {D : Type} `{Yjs D} `{Base64}.

(** [loadDocumentState]; [now] and [newGuid] are what [getOrCreateRoom]
    reads when it has to make the room.  An exception of the library goes
    on to the caller. *)
Definition loadDocumentState (documentId : string) (state : bytes)
    (now : Z) (newGuid : string) (s : Server D) : Server D * Completion :=
  let '(r, s1) := getOrCreateRoom documentId now newGuid s in
  match roomObjs s1 !! r with
  | Some room =>
      let res := Y_applyUpdate (store (doc room)) state in
      (with_roomObjs (<[r := set_store (leftDoc res) room]> (roomObjs s1)) s1,
       match res with Applied _ => Normal | Thrown _ => Threw end)
  | None => (s1, Normal)
  end.

(** Body of the inner [forEach] of [close]. *)
Definition closeClient (s : Server D) (e : string * nat) : Server D :=
  match clientObjs s !! e.2 with
  | Some client => wsClose (ws client) 1001 "Server shutting down" s
  | None => s
  end.

(** Body of the outer [forEach] of [close]. *)
Definition closeRoom (s : Server D) (e : string * nat) : Server D :=
  match roomObjs s !! e.2 with
  | Some room =>
      let s1 := foldl closeClient s (clients room) in
      with_roomObjs (alter destroy_doc e.2 (roomObjs s1)) s1
  | None => s
  end.

Definition close (s : Server D) : Server D * list RuntimeCall :=
  let s1 := foldl closeRoom s (rooms s) in
  (with_clientToRoom [] (with_rooms [] s1), [ClearInterval; WssClose]).

(** The [userId] that the ['connection'] callback hands on. *)
Definition chosenUserId (uidParam : option string) (generated : string)
    : string :=
  default generated (truthy uidParam).

(** Whether [uid] is a key of the client map of the room registered
    under [documentId]. *)
Definition isMember (documentId uid : string) (s : Server D) : bool :=
  match JsMap.get documentId (rooms s) with
  | Some r =>
      match roomObjs s !! r with
      | Some room => bool_decide (is_Some (JsMap.get uid (clients room)))
      | None => false
      end
  | None => false
  end.

(** The document that [loadDocumentState] finds under [documentId]: the
    registered room's, or a new one. *)
Definition currentStore (documentId : string) (s : Server D) : D :=
  match JsMap.get documentId (rooms s) with
  | Some r => from_option (fun room => store (doc room)) Y_Doc (roomObjs s !! r)
  | None => Y_Doc
  end.

(** The same message under another [documentId]. *)
Definition withDocumentId (documentId : string) (m : WSMessage.t)
    : WSMessage.t :=
  WSMessage.mk (WSMessage.type m) documentId (WSMessage.data m)
    (WSMessage.userId m) (WSMessage.userName m) (WSMessage.userColor m)
    (WSMessage.cursor m).

(** The socket an effect is a [send] on. *)
Definition sendTarget (e : Effect) : option nat :=
  match e with
  | WsSend w _ => Some w
  | _ => None
  end.

(** The sockets of the client records that a client map lists, in map
    order, and those of all the rooms of a registry. *)
Definition memberSockets (s : Server D) (cl : list (string * nat))
    : list nat :=
  omap (fun e : string * nat => ws <$> clientObjs s !! e.2) cl.

Definition roomSockets (s : Server D) (rs : list (string * nat))
    : list nat :=
  rs ≫= fun e => from_option (fun room => memberSockets s (clients room)) []
                   (roomObjs s !! e.2).

(** A state in which every reference resolves: client records and rooms
    are allocated below [nextRef], a room lists a client record under that
    record's own [userId], and the handler of a socket holds a live room
    and the record of that socket. *)
Definition resolved (s : Server D) : Prop :=
  (forall cref c, clientObjs s !! cref = Some c -> (cref < nextRef s)%nat)
  /\ (forall r room, roomObjs s !! r = Some room -> (r < nextRef s)%nat)
  /\ (forall r room k cref,
        roomObjs s !! r = Some room -> (k, cref) ∈ clients room ->
        exists c, clientObjs s !! cref = Some c /\ userId c = k)
  /\ (forall w h,
        handlers s !! w = Some h ->
        is_Some (roomObjs s !! h_room h)
        /\ exists c,
             clientObjs s !! h_client h = Some c
             /\ userId c = h_userId h /\ ws c = w).

(** What a handler that allocates nothing may do to the stores: client
    records keep their socket and id, rooms stay, and client maps lose
    entries at most. *)
Definition keeps (s s' : Server D) : Prop :=
  (nextRef s <= nextRef s')%nat
  /\ handlers s' = handlers s
  /\ (forall cref c,
        clientObjs s' !! cref = Some c ->
        exists c0,
          clientObjs s !! cref = Some c0
          /\ userId c = userId c0 /\ ws c = ws c0)
  /\ (forall cref, is_Some (clientObjs s !! cref) ->
                   is_Some (clientObjs s' !! cref))
  /\ (forall r, is_Some (roomObjs s !! r) -> is_Some (roomObjs s' !! r))
  /\ (forall r room',
        roomObjs s' !! r = Some room' ->
        exists room,
          roomObjs s !! r = Some room
          /\ forall e, e ∈ clients room' -> e ∈ clients room).

(** An effect that [handleMessage] may add: a console line, or a send on
    a socket that is open. *)
Definition quietEffect (s : Server D) (e : Effect) : Prop :=
  match e with
  | WsSend w _ => sockets s !! w = Some OPEN
  | WsClose _ _ _ => False
  | ConsoleWarn _ => True
  | ConsoleError _ => True
  end.

(** What [handleMessage] may change: the documents, the client records
    and the activity stamps, by sends on open sockets and console lines. *)
Definition quiet (s s' : Server D) : Prop :=
  rooms s' = rooms s
  /\ clientToRoom s' = clientToRoom s
  /\ sockets s' = sockets s
  /\ handlers s' = handlers s
  /\ timers s' = timers s
  /\ nextRef s' = nextRef s
  /\ (forall r, clients <$> roomObjs s' !! r = clients <$> roomObjs s !! r)
  /\ exists added,
       trace s' = trace s ++ added /\ Forall (quietEffect s) added.

End WithYjs.
End ServerApi.

(** ** The rest of the provider's interface *)

Module ProviderApi.
Import YjsProvider.

(** An entry of [awareness.getStates()], as far as [getCollaborators]
    reads it: the [user] object with its three fields, and [cursor]. *)
Record AwarenessUser := {
  u_id : option string;
  u_name : option string;
  u_color : option string
}.

Record AwarenessState := {
  a_user : option AwarenessUser;
  a_cursor : option Cursor
}.

(** What the runtime and the caller deliver to a provider. *)
Inductive Input :=
| Connect (ctorThrows : bool)
| Status (status : ConnectionStatus)
| Sync (synced : bool)
| TimerFired
| ApplyUpdate (update : bytes)
| LoadInitialState (state : bytes)
| AwarenessChange (found : list CollaboratorInfo)
| Disconnect (during : list Reentry)
| Destroy (during : list Reentry) (changes : list (list CollaboratorInfo)).

Section WithYjs.
Context {D : Type} `{Yjs D}.

(** [getCollaborators]; [clientID] is [awareness.clientID], [states] is
    [awareness.getStates()] in its order, and [showId] is [String] on
    client ids. *)
Definition getCollaborators (showId : nat -> string) (clientID : nat)
    (states : list (nat * AwarenessState)) (p : Provider D)
    : list CollaboratorInfo :=
  if wsProvider p then
    omap (fun e : nat * AwarenessState =>
            if decide (e.1 = clientID) then None
            else
              (fun u =>
                 {| id := default (showId e.1) (truthy (u_id u));
                    name := default "Anonymous" (truthy (u_name u));
                    color := default "#888888" (truthy (u_color u));
                    cursor := a_cursor e.2 |}) <$> a_user e.2) states
  else [].

Definition deliver (i : Input) (p : Provider D) : Provider D * list Action :=
  match i with
  | Connect ctorThrows => connect ctorThrows p
  | Status status => onStatus status p
  | Sync synced => onSync synced p
  | TimerFired => reconnectTimerFired p
  | ApplyUpdate update => (applyUpdate update p).1
  | LoadInitialState state => (loadInitialState state p).1
  | AwarenessChange found => onAwareness found p
  | Disconnect during => disconnect during p
  | Destroy during changes => destroy during changes p
  end.

Definition pstep (pa : Provider D * list Action) (i : Input)
    : Provider D * list Action :=
  ((deliver i pa.1).1, pa.2 ++ (deliver i pa.1).2).

(** A provider's life from [new YjsDocumentProvider], with everything it
    did on the way. *)
Definition prun (inputs : list Input) : Provider D * list Action :=
  foldl pstep (constructor, []) inputs.

(** The bounds of the reconnection policy on a provider and on what it
    did: the counter is at most the ceiling, and every timer armed waits
    between one and thirty seconds. *)
Definition bounded (pa : Provider D * list Action) : Prop :=
  (reconnectAttempts pa.1 <= maxReconnectAttempts)%nat
  /\ forall d, SetTimeout d ∈ pa.2 -> (1000 <= d <= 30000)%Z.

(** [n] rounds of [connect()] and [disconnect()], the socket never
    getting connected in between, so that [wsProvider.disconnect()] has
    nothing to report. *)
Fixpoint reconnected (n : nat) (p : Provider D) : Provider D :=
  match n with
  | O => p
  | S n' => reconnected n' (disconnect [] (connect false p).1).1
  end.

End WithYjs.
End ProviderApi.

(** ** Further runs, for closed examples *)

Module Scenario2.
Import WsServer Replica Scenario.

Definition awarenessMessage : WSMessage.t :=
  WSMessage.mk (TypeString "awareness") "doc1" None None (Some "Alice")
    (Some "") None.

Definition cursorMessage : WSMessage.t :=
  WSMessage.mk (TypeString "cursor") "doc1" None None None None
    (Some (3, 4)%Z).

(** alice opens a second tab: another socket under the same id. *)
Definition aliceAgain : Event :=
  EvConnection 3 "/doc1" (Some "alice") "client_20_a" 5 20 20
    "5b7e1c3a-2d4f-4a6b-8c9d-0e1f2a3b4c5d".

Definition twoTabs : Server (gset Z) := run [aliceJoins; aliceAgain].

(** alice leaves and bob comes within the grace period. *)
Definition bobBack : Server (gset Z) := run [aliceJoins; EvClose 1; bobJoins].

(** A document whose id is the identifier its [Y.Doc] draws. *)
Definition selfNamed : Server (gset Z) :=
  run [EvConnection 1 ("/" +:+ doc1Guid) (Some "alice") "client_0_a" 3 0 0
         doc1Guid; EvClose 1].

End Scenario2.

(** * Properties *)

(** ** Facts about [JsMap] *)

Module JsMapFacts.
Section Facts.
Context {K V : Type} `{EqDecision K}.
Implicit Types (k : K) (v : V) (m : list (K * V)).

Lemma get_Some_elem_of k v m : JsMap.get k m = Some v -> (k, v) ∈ m.
Proof.
  induction m as [|[k' v'] m IH]; simpl; [done|].
  destruct (decide (k = k')) as [->|Hne].
  - intros [= ->]. left.
  - intros Hg. right. by apply IH.
Qed.

Lemma get_None_not_in k m : JsMap.get k m = None <-> k ∉ JsMap.keys m.
Proof.
  unfold JsMap.keys. induction m as [|[k' v'] m IH]; simpl.
  - split; [intros _; apply not_elem_of_nil | done].
  - destruct (decide (k = k')) as [->|Hne].
    + split; [done|]. intros Hn. exfalso. apply Hn. left.
    + rewrite IH. rewrite not_elem_of_cons.
      split; [intros Hn; by split|by intros [_ Hn]].
Qed.

Lemma elem_of_get k v m :
  NoDup (JsMap.keys m) -> (k, v) ∈ m -> JsMap.get k m = Some v.
Proof.
  unfold JsMap.keys. induction m as [|[k' v'] m IH]; simpl.
  - intros _ Hin. by apply elem_of_nil in Hin.
  - intros Hnd Hin. apply NoDup_cons in Hnd as [Hk Hnd].
    apply elem_of_cons in Hin as [[= -> ->]|Hin].
    + by rewrite decide_True.
    + destruct (decide (k = k')) as [->|Hne]; [|by apply IH].
      exfalso. apply Hk. apply list_elem_of_fmap. by exists (k', v).
Qed.

Lemma delete_middle k v pre post :
  k ∉ JsMap.keys pre ->
  JsMap.delete k (pre ++ (k, v) :: post) = pre ++ post.
Proof.
  unfold JsMap.keys. induction pre as [|[k' v'] pre IH]; simpl.
  - intros _. by rewrite decide_True.
  - intros Hn. apply not_elem_of_cons in Hn as [Hne Hn].
    rewrite decide_False by done. by rewrite IH.
Qed.

Lemma get_set_eq k v m : JsMap.get k (JsMap.set k v m) = Some v.
Proof.
  induction m as [|[k' v'] m IH]; simpl.
  - by rewrite decide_True.
  - destruct (decide (k = k')) as [->|Hne]; simpl.
    + by rewrite decide_True.
    + by rewrite decide_False.
Qed.

Lemma get_set_ne k k' v m :
  k ≠ k' -> JsMap.get k' (JsMap.set k v m) = JsMap.get k' m.
Proof.
  intros Hne. induction m as [|[k2 v2] m IH]; simpl.
  - by rewrite decide_False.
  - destruct (decide (k = k2)) as [->|Hne2]; simpl.
    + by rewrite !decide_False.
    + destruct (decide (k' = k2)); [done|apply IH].
Qed.

Lemma get_delete_ne k k' m :
  k ≠ k' -> JsMap.get k' (JsMap.delete k m) = JsMap.get k' m.
Proof.
  intros Hne. induction m as [|[k2 v2] m IH]; simpl; [done|].
  destruct (decide (k = k2)) as [->|Hne2]; simpl.
  - by rewrite decide_False.
  - destruct (decide (k' = k2)); [done|apply IH].
Qed.

Lemma get_delete_eq k m :
  NoDup (JsMap.keys m) -> JsMap.get k (JsMap.delete k m) = None.
Proof.
  unfold JsMap.keys. induction m as [|[k2 v2] m IH]; simpl; [done|].
  intros Hnd. apply NoDup_cons in Hnd as [Hk Hnd].
  destruct (decide (k = k2)) as [->|Hne]; simpl.
  - by apply get_None_not_in.
  - rewrite decide_False by done. by apply IH.
Qed.
Lemma elem_of_delete k e m : e ∈ JsMap.delete k m -> e ∈ m.
Proof.
  induction m as [|[k' v'] m IH]; simpl; [done|].
  destruct (decide (k = k')); [by right|].
  intros Hin. apply elem_of_cons in Hin as [->|Hin]; [left|right; auto].
Qed.

Lemma elem_of_set k v e m : e ∈ JsMap.set k v m -> e.1 = k \/ e ∈ m.
Proof.
  induction m as [|[k' v'] m IH]; simpl.
  - intros Hin. apply list_elem_of_singleton in Hin as ->. by left.
  - destruct (decide (k = k')) as [->|Hne]; intros Hin;
      apply elem_of_cons in Hin as [->|Hin].
    + by left.
    + right. by right.
    + right. left.
    + destruct (IH Hin); [by left|right; by right].
Qed.

Lemma set_fresh k v m :
  JsMap.get k m = None -> JsMap.set k v m = m ++ [(k, v)].
Proof.
  induction m as [|[k' v'] m IH]; simpl; [done|].
  destruct (decide (k = k')); [done|]. intros Hg. by rewrite IH.
Qed.

Lemma keys_set_NoDup k v m :
  NoDup (JsMap.keys m) -> NoDup (JsMap.keys (JsMap.set k v m)).
Proof.
  unfold JsMap.keys. induction m as [|[k' v'] m IH]; simpl.
  - intros _. apply NoDup_singleton.
  - intros Hnd. apply NoDup_cons in Hnd as [Hk Hnd].
    destruct (decide (k = k')) as [->|Hne]; simpl.
    + by apply NoDup_cons.
    + apply NoDup_cons. split; [|by apply IH]. intros Hin.
      apply list_elem_of_fmap in Hin as (e & He & Hin).
      destruct (elem_of_set _ _ _ _ Hin) as [Hek|Hem]; [congruence|].
      apply Hk. apply list_elem_of_fmap. by exists e.
Qed.

Lemma keys_delete_NoDup k m :
  NoDup (JsMap.keys m) -> NoDup (JsMap.keys (JsMap.delete k m)).
Proof.
  unfold JsMap.keys. induction m as [|[k' v'] m IH]; simpl; [done|].
  intros Hnd. apply NoDup_cons in Hnd as [Hk Hnd].
  destruct (decide (k = k')); [done|]. simpl. apply NoDup_cons.
  split; [|by apply IH]. intros Hin.
  apply list_elem_of_fmap in Hin as (e & He & Hin).
  apply Hk. apply list_elem_of_fmap. exists e.
  split; [done|]. by eapply elem_of_delete.
Qed.

Lemma values_delete_NoDup k m :
  NoDup m.*2 -> NoDup (JsMap.delete k m).*2.
Proof.
  induction m as [|[k' v'] m IH]; simpl; [done|].
  intros Hnd. apply NoDup_cons in Hnd as [Hk Hnd].
  destruct (decide (k = k')); [done|]. simpl. apply NoDup_cons.
  split; [|by apply IH]. intros Hin.
  apply list_elem_of_fmap in Hin as (e & He & Hin).
  apply Hk. apply list_elem_of_fmap. exists e.
  split; [done|]. by eapply elem_of_delete.
Qed.
End Facts.
End JsMapFacts.

(** ** The client provider *)

Section ProviderFacts.
Import YjsProvider.
Context {D : Type} `{Yjs D}.

Lemma handleDisconnect_below (p : Provider D) :
  (reconnectAttempts p < maxReconnectAttempts)%nat ->
  handleDisconnect p =
    (with_reconnectTimeout true
       (with_reconnectAttempts (S (reconnectAttempts p)) p),
     [SetTimeout (Z.min (1000 * 2 ^ Z.of_nat (reconnectAttempts p)) 30000)]).
Proof.
  intros Hlt. unfold handleDisconnect.
  destruct (decide (maxReconnectAttempts <= reconnectAttempts p)%nat);
    [lia|done].
Qed.

Lemma handleDisconnect_ceiling (p : Provider D) :
  (maxReconnectAttempts <= reconnectAttempts p)%nat ->
  handleDisconnect p = (p, [ConsoleError "Max reconnection attempts reached"]).
Proof.
  intros Hge. unfold handleDisconnect.
  destruct (decide (maxReconnectAttempts <= reconnectAttempts p)%nat);
    [done|lia].
Qed.

(** C4.  Attempt [n] (1 to 10) is the disconnect that finds the counter
    at [n - 1]: it arms a timer of [min (1000 * 2^(n-1)) 30000] ms and
    moves the counter to [n].  With the counter at 10 or more no timer is
    armed and the provider is left as it is.  The status [connected]
    resets the counter to zero. *)
Theorem reconnect_backoff (p : Provider D) (n : nat) :
  (1 <= n <= 10)%nat ->
  reconnectAttempts p = (n - 1)%nat ->
  handleDisconnect p =
    (with_reconnectTimeout true (with_reconnectAttempts n p),
     [SetTimeout (Z.min (1000 * 2 ^ (Z.of_nat n - 1)) 30000)])
  /\ (forall q : Provider D,
        (10 <= reconnectAttempts q)%nat ->
        (handleDisconnect q).1 = q /\
        forall d, SetTimeout d ∉ (handleDisconnect q).2)
  /\ (forall q : Provider D,
        reconnectAttempts (onStatus connected q).1 = 0%nat).
Proof.
  intros Hn Hp. split; [|split].
  - rewrite handleDisconnect_below by (unfold maxReconnectAttempts; lia).
    rewrite Hp. replace (S (n - 1)) with n by lia.
    by replace (Z.of_nat (n - 1)) with (Z.of_nat n - 1)%Z by lia.
  - intros q Hq. rewrite handleDisconnect_ceiling by done. simpl.
    split; [done|]. intros d Hin.
    apply list_elem_of_singleton in Hin. discriminate.
  - done.
Qed.

(** C7, as amended.  At the ceiling [handleDisconnect] arms no timer,
    calls no callback and leaves the provider as it is: it only writes
    to the console.  The status listener calls [onStatusChange] with
    [disconnected] exactly as it does for a disconnect below the
    ceiling. *)
Theorem reconnect_exhaustion_logged (p : Provider D) :
  (10 <= reconnectAttempts p)%nat ->
  handleDisconnect p =
    (p, [ConsoleError "Max reconnection attempts reached"])
  /\ callerSees (handleDisconnect p).2 = []
  /\ (forall q : Provider D,
        callerSees (onStatus disconnected p).2 =
        callerSees (onStatus disconnected q).2).
Proof.
  intros Hp. rewrite handleDisconnect_ceiling by done.
  split; [done|]. split; [done|]. intros q.
  unfold onStatus.
  destruct (handleDisconnect (with_isConnected false p)) as [p2 acts] eqn:E1.
  destruct (handleDisconnect (with_isConnected false q)) as [q2 acts'] eqn:E2.
  simpl. unfold handleDisconnect in E1, E2. simpl in E1, E2.
  rewrite decide_True in E1 by done. injection E1 as <- <-.
  destruct (decide (maxReconnectAttempts <= reconnectAttempts q)%nat);
    by injection E2 as <- <-.
Qed.

(** C10.  [applyUpdate] and [loadInitialState] agree on every input, and
    each is the library merge into [ydoc] with every other field of the
    provider kept. *)
Theorem applyUpdate_loadInitialState (p : Provider D) (b : bytes) :
  applyUpdate b p = loadInitialState b p
  /\ (applyUpdate b p).1.1 = with_ydoc (leftDoc (Y_applyUpdate (ydoc p) b)) p.
Proof. split; reflexivity. Qed.

Lemma sameFrom_spec (n i : nat) (a b : bytes) :
  sameFrom n i a b = true <->
  forall j, (i <= j < i + n)%nat -> a !! j = b !! j.
Proof.
  revert i. induction n as [|n IH]; intros i; simpl.
  - split; [intros _ j Hj; lia|done].
  - destruct (decide (a !! i = b !! i)) as [Heq|Hne].
    + rewrite IH. split.
      * intros Hrest j Hj. destruct (decide (j = i)) as [->|Hji]; [done|].
        apply Hrest. lia.
      * intros Hall j Hj. apply Hall. lia.
    + split; [done|]. intros Hall. exfalso. apply Hne, Hall. lia.
Qed.

(** The loop of [areStatesEqual] decides equality of the two encodings. *)
Lemma areStatesEqual_bytes (s1 s2 : bytes) (d1 d2 : D) :
  Y_applyUpdate Y_Doc s1 = Applied d1 ->
  Y_applyUpdate Y_Doc s2 = Applied d2 ->
  areStatesEqual s1 s2 =
    Some (bool_decide (Y_encodeStateAsUpdate d1 = Y_encodeStateAsUpdate d2)).
Proof.
  intros H1 H2. unfold areStatesEqual. rewrite H1, H2.
  set (a := Y_encodeStateAsUpdate d1). set (b := Y_encodeStateAsUpdate d2).
  destruct (decide (length a = length b)) as [Hlen|Hlen]; f_equal.
  - destruct (sameFrom (length a) 0 a b) eqn:Hs; symmetry.
    + apply bool_decide_eq_true. apply list_eq. intros j.
      destruct (decide (j < length a)%nat) as [Hj|Hj].
      * apply (proj1 (sameFrom_spec _ _ _ _) Hs). lia.
      * rewrite !lookup_ge_None_2 by lia. done.
    + apply bool_decide_eq_false. intros Heq.
      assert (sameFrom (length a) 0 a b = true) as Ht; [|congruence].
      apply sameFrom_spec. intros j _. by rewrite Heq.
  - symmetry. apply bool_decide_eq_false. intros Heq. by rewrite Heq in Hlen.
Qed.

End ProviderFacts.

Section ReplicaFacts.
Import YjsProvider Replica.

(** The third attempt waits 4000 ms. *)
Lemma reconnect_backoff_witness :
  handleDisconnect (with_reconnectAttempts 2 (constructor (D := gset Z))) =
    (with_reconnectTimeout true (with_reconnectAttempts 3 constructor),
     [SetTimeout 4000]).
Proof.
  apply (proj1 (reconnect_backoff
                  (with_reconnectAttempts 2 constructor) 3
                  ltac:(lia) eq_refl)).
Defined.

(** At the ceiling nothing is notified. *)
Lemma reconnect_exhaustion_logged_witness :
  callerSees
    (handleDisconnect (with_reconnectAttempts 10 (constructor (D := gset Z)))).2
  = [].
Proof.
  apply (proj1 (proj2 (reconnect_exhaustion_logged
                         (with_reconnectAttempts 10 constructor)
                         ltac:(simpl; lia)))).
Defined.

(** C7 as stated fails: with the counter at the ceiling the provider
    stops retrying but nothing reaches the caller. *)
Lemma reconnect_exhaustion_not_reported :
  let p := with_reconnectAttempts 10 (constructor (D := gset Z)) in
  ~ ((forall d, SetTimeout d ∉ (handleDisconnect p).2)
     /\ exists e, Notify e ∈ (handleDisconnect p).2).
Proof.
  simpl. intros [_ [e He]]. vm_compute in He.
  apply list_elem_of_singleton in He. discriminate.
Qed.

Example backoff_schedule :
  disconnects 11 constructor =
    [[SetTimeout 1000]; [SetTimeout 2000]; [SetTimeout 4000];
     [SetTimeout 8000]; [SetTimeout 16000]; [SetTimeout 30000];
     [SetTimeout 30000]; [SetTimeout 30000]; [SetTimeout 30000];
     [SetTimeout 30000];
     [ConsoleError "Max reconnection attempts reached"]].
Proof. reflexivity. Qed.

Example merge_value :
  mergeYjsStates (D := gset Z) [2; 7; 9]%Z [1; 3]%Z = Some [3; 7; 9; 3]%Z.
Proof. vm_compute. reflexivity. Qed.

End ReplicaFacts.

(** ** The server *)

Section ServerFacts.
Import WsServer.
Context {D : Type} `{Yjs D} `{Base64}.
Implicit Types (s : Server D) (room : DocumentRoom D).

Lemma elem_of_openTargets s keep cl w :
  w ∈ openTargets s keep cl <->
  exists k cref c,
    (k, cref) ∈ cl /\ clientObjs s !! cref = Some c /\ keep k = true
    /\ sockets s !! ws c = Some OPEN /\ w = ws c.
Proof.
  unfold openTargets. rewrite list_elem_of_omap. split.
  - intros [[k cref] [Hin Hf]]. simpl in Hf.
    destruct (clientObjs s !! cref) as [c|] eqn:Hc; [|done].
    destruct (keep k) eqn:Hk; simpl in Hf; [|done].
    unfold isOpen in Hf. case_bool_decide; [|done].
    injection Hf as <-. by exists k, cref, c.
  - intros (k & cref & c & Hin & Hc & Hk & Ho & ->).
    exists (k, cref). split; [done|]. simpl. rewrite Hc, Hk. simpl.
    unfold isOpen. by rewrite bool_decide_eq_true_2.
Qed.

Lemma openTargets_ext s1 s2 keep cl :
  sockets s1 = sockets s2 ->
  (forall ref, ws <$> clientObjs s1 !! ref = ws <$> clientObjs s2 !! ref) ->
  openTargets s1 keep cl = openTargets s2 keep cl.
Proof.
  intros Hs Hc. unfold openTargets.
  apply list_omap_ext, Forall2_same_length_lookup.
  split; [done|]. intros i x y Hx Hy. assert (x = y) as -> by congruence.
  specialize (Hc y.2). unfold isOpen. rewrite Hs.
  destruct (clientObjs s1 !! y.2) as [c1|], (clientObjs s2 !! y.2) as [c2|];
    simpl in Hc; try done. by injection Hc as ->.
Qed.

Lemma ws_alter_lastSeen (m : gmap nat ClientConnection) t cref ref :
  ws <$> alter (set_lastSeen t) cref m !! ref = ws <$> m !! ref.
Proof.
  destruct (decide (cref = ref)) as [->|Hne].
  - rewrite lookup_alter_eq. by destruct (m !! ref).
  - by rewrite lookup_alter_ne.
Qed.

(** C8.  A request whose path yields an empty document id is answered
    with [close(4000)] and nothing else: no room, no client record, no
    handler and no registry entry is added. *)
Theorem missing_document_id_refused (w : nat) (pathname : string)
    (uidParam : option string) (generated : string) (rnd : nat)
    (nowRoom nowSeen : Z) (newGuid : string) s :
  slice1 pathname = "" ->
  let s' :=
    onConnection w pathname uidParam generated rnd nowRoom nowSeen newGuid s
  in
  trace s' = trace s ++ [WsClose w 4000 "Document ID required"]
  /\ rooms s' = rooms s
  /\ roomObjs s' = roomObjs s
  /\ clientObjs s' = clientObjs s
  /\ clientToRoom s' = clientToRoom s
  /\ handlers s' = handlers s
  /\ timers s' = timers s.
Proof.
  intros Hp. unfold onConnection. rewrite Hp.
  rewrite decide_True by done. simpl. done.
Qed.




(** C2, as amended.  For an [update] message whose data is a non-empty
    string that the library merges, the room's document becomes the
    merged one and the trace gains exactly one send of the parsed
    message, data field untouched, for each entry of the room's client
    map whose key differs from the sender's participant id and whose
    socket is open, in map order.  An [update] whose data is the empty
    string only moves the two timestamps. *)
Theorem update_applied_and_forwarded (w r cref : nat) (m : WSMessage.t)
    (payload : string) (tSeen tActivity : Z) s room client (d' : D) :
  isUpdate m payload ->
  roomObjs s !! r = Some room ->
  clientObjs s !! cref = Some client ->
  Y_applyUpdate (store (doc room)) (from_base64 payload) = Applied d' ->
  let s' := handleMessage w r cref (JsonValue m) tSeen tActivity s in
  let targets :=
    openTargets s (fun k => bool_decide (k ≠ userId client)) (clients room)
  in
  roomObjs s' =
    <[r := set_store d' (set_lastActivity tActivity room)]> (roomObjs s)
  /\ trace s' = trace s ++ map (fun w' => WsSend w' (FForward m)) targets
  /\ (forall w',
        w' ∈ targets <->
        exists uid' cref' c',
          (uid', cref') ∈ clients room
          /\ clientObjs s !! cref' = Some c'
          /\ uid' ≠ userId client
          /\ sockets s !! ws c' = Some OPEN
          /\ w' = ws c')
  /\ sockets s' = sockets s
  /\ (forall m0 : WSMessage.t,
        WSMessage.type m0 = TypeString "update" ->
        WSMessage.data m0 = Some (DataString "") ->
        handleMessage w r cref (JsonValue m0) tSeen tActivity s =
          with_roomObjs (alter (set_lastActivity tActivity) r (roomObjs s))
            (with_clientObjs
               (alter (set_lastSeen tSeen) cref (clientObjs s)) s)).
Proof.
  intros (Hty & Hdata & Hne) Hroom Hclient Happ.
  unfold handleMessage. rewrite Hty. unfold handleUpdate; simpl.
  rewrite Hdata. rewrite decide_False by done.
  rewrite !lookup_alter_eq, Hroom, Hclient. simpl. rewrite Happ. simpl.
  split; [|split; [|split; [|split]]]; [| | | |intros m0 Hty0 Hdata0;
    by rewrite Hty0, Hdata0].
  - rewrite (alter_alt_Some _ _ _ _ Hroom). apply insert_insert_eq.
  - do 2 f_equal. apply openTargets_ext; [done|]. simpl.
    intros ref. apply ws_alter_lastSeen.
  - intros w'. rewrite elem_of_openTargets.
    split.
    + intros (k & cr & c & Hin & Hc & Hk & Ho & ->).
      apply bool_decide_eq_true in Hk. by exists k, cr, c.
    + intros (k & cr & c & Hin & Hc & Hk & Ho & ->).
      exists k, cr, c. by rewrite bool_decide_eq_true.
  - done.
Qed.

Lemma roomTimeout_wrong_key (r : nat) s room :
  roomObjs s !! r = Some room ->
  JsMap.get (guid (doc room)) (rooms s) = None ->
  roomTimeout r s = s.
Proof. intros Hr Hg. unfold roomTimeout. by rewrite Hr, Hg. Qed.

End ServerFacts.

Section Scenarios.
Import WsServer Replica Scenario.

Example bothIn_state :
  rooms bothIn = [("doc1", 0)]
  /\ roomObjs bothIn !! 0 = Some doc1Room
  /\ clientObjs bothIn !! 1 = Some alice
  /\ clientObjs bothIn !! 2 = Some bob
  /\ sockets bothIn !! 1 = Some OPEN
  /\ sockets bothIn !! 2 = Some OPEN.
Proof. vm_compute. repeat split. Qed.

(** A third socket asks for the path [/]: no document id. *)
Lemma missing_document_id_refused_witness :
  trace (onConnection 7 "/" (Some "carol") "client_20_c" 5 20 20 doc1Guid
           bothIn)
    = trace bothIn ++ [WsClose 7 4000 "Document ID required"].
Proof.
  apply (proj1 (missing_document_id_refused 7 "/" (Some "carol")
                  "client_20_c" 5 20 20 doc1Guid bothIn eq_refl)).
Defined.



(** ["AQc="] decodes to [1; 7]: the element 7. *)
Lemma update_applied_and_forwarded_witness :
  trace (handleMessage 1 0 1 (JsonValue (updateMessage "AQc=")) 20 20 bothIn)
    = trace bothIn ++ [WsSend 2 (FForward (updateMessage "AQc="))].
Proof.
  refine (proj1 (proj2 (update_applied_and_forwarded 1 0 1
                   (updateMessage "AQc=") "AQc="
                   20 20 bothIn doc1Room alice {[ 7%Z ]} _ _ _ _))).
  - split; [reflexivity|split; [reflexivity|discriminate]].
  - vm_compute. reflexivity.
  - vm_compute. reflexivity.
  - vm_compute. reflexivity.
Defined.

(** C2 as stated fails on the empty string, which is a string: the
    guard of [handleUpdate] returns before anything is applied or
    sent. *)
Lemma empty_update_ignored :
  let s' := handleMessage 1 0 1 (JsonValue (updateMessage "")) 20 20 bothIn in
  WSMessage.data (updateMessage "") = Some (DataString "")
  /\ sockets bothIn !! 2 = Some OPEN
  /\ trace s' = trace bothIn
  /\ ~ (exists f, WsSend 2 f ∈ drop (length (trace bothIn)) (trace s')).
Proof.
  vm_compute. repeat split. intros [f Hf]. by apply elem_of_nil in Hf.
Qed.

(** C6 at a concrete join: when bob joins the room alice is in, the
    [join] presence update goes to alice and to bob himself, after
    bob's [sync] and [awareness] messages. *)
Theorem join_broadcast_reaches_joiner :
  let presence := [presenceOf alice; presenceOf bob] in
  clientObjs bothIn !! 2 = Some bob
  /\ drop (length (trace aliceIn)) (trace bothIn) =
       [ WsSend 2 (FSync "" (to_base64 (Y_encodeStateAsUpdate (∅ : gset Z))));
         WsSend 2 (FAwarenessList "" presence);
         WsSend 1 (FPresence Join "bob" presence);
         WsSend 2 (FPresence Join "bob" presence) ].
Proof. vm_compute. split; reflexivity. Qed.

(** C1 at a concrete room: the callback looks the room up under the
    document's own [guid], finds nothing, and leaves the room registered
    under ["doc1"] with its document alive. *)
Theorem empty_room_survives_timer :
  timers bothOut = [mkTimer 60000 0]
  /\ getClientCount "doc1" bothOut = 0%nat
  /\ (guid ∘ doc <$> roomObjs bothOut !! 0) = Some doc1Guid
  /\ JsMap.get doc1Guid (rooms bothOut) = None
  /\ rooms timerFired = [("doc1", 0)]
  /\ (isDestroyed ∘ doc <$> roomObjs timerFired !! 0) = Some false
  /\ timers timerFired = [].
Proof. vm_compute. repeat split. Qed.

End Scenarios.

Section SweepFacts.
Import WsServer.
Context {D : Type} `{Yjs D} `{Base64}.
Implicit Types (s : Server D) (room : DocumentRoom D).

Lemma staleSocket_ext now s s' w :
  clientObjs s' = clientObjs s -> staleSocket now s' w <-> staleSocket now s w.
Proof. intros Hc. unfold staleSocket. by rewrite Hc. Qed.

Lemma sweepFrame_refl now rs s : sweepFrame now rs s s.
Proof.
  repeat split; try done. exists []. split; [by rewrite app_nil_r|].
  intros w code reason Hin. by apply elem_of_nil in Hin.
Qed.

Lemma sweepFrame_trans now rs s1 s2 s3 :
  sweepFrame now rs s1 s2 -> sweepFrame now rs s2 s3 ->
  sweepFrame now rs s1 s3.
Proof.
  intros (Hc1 & Hr1 & (a1 & Ht1 & Ha1) & Hs1 & Ho1)
         (Hc2 & Hr2 & (a2 & Ht2 & Ha2) & Hs2 & Ho2).
  split; [congruence|]. split; [congruence|]. split; [|split].
  - exists (a1 ++ a2). split; [by rewrite Ht2, Ht1, app_assoc|].
    intros w code reason Hin. apply elem_of_app in Hin as [Hin|Hin].
    + eauto.
    + destruct (Ha2 _ _ _ Hin) as [-> Hst]. split; [done|].
      by apply (staleSocket_ext now s1 s2).
  - intros w Hw. rewrite Hs2, Hs1; [done..|].
    by rewrite (staleSocket_ext now s1 s2).
  - intros r Hr. by rewrite Ho2, Ho1.
Qed.

Lemma sweepFrame_weaken now rs rs' s s' :
  (forall r, r ∈ rs -> r ∈ rs') ->
  sweepFrame now rs s s' -> sweepFrame now rs' s s'.
Proof.
  intros Hsub (Hc & Hr & Ht & Hs & Ho). repeat split; try done.
  intros r Hr'. apply Ho. intros Hin. by apply Hr', Hsub.
Qed.

Lemma set_clients_idem (x y : list (string * nat)) room :
  set_clients x (set_clients y room) = set_clients x room.
Proof. done. Qed.

Lemma set_clients_same room : set_clients (clients room) room = room.
Proof. by destruct room. Qed.

(** One visit of the inner loop to a stale client. *)
Lemma sweepClient_stale now r s k cref c room pre td :
  clientObjs s !! cref = Some c ->
  isStale now c = true ->
  roomObjs s !! r = Some room ->
  clients room = pre ++ (k, cref) :: td ->
  k ∉ JsMap.keys pre ->
  let s1 := sweepClient now r s (k, cref) in
  clientObjs s1 = clientObjs s
  /\ rooms s1 = rooms s
  /\ sockets s1 = alter closing (ws c) (sockets s)
  /\ roomObjs s1 = <[r := set_clients (pre ++ td) room]> (roomObjs s)
  /\ exists pl,
       trace s1 =
         trace s ++ WsClose (ws c) 4001 "Connection timeout"
           :: map (fun w => WsSend w (FPresence Leave k pl))
                (openTargets s1 (fun _ => true) (pre ++ td)).
Proof.
  intros Hc Hst Hroom Hcl Hk. unfold sweepClient. simpl.
  rewrite Hc, Hst. unfold broadcastPresence. simpl.
  rewrite lookup_alter_eq, Hroom. simpl.
  rewrite Hcl, JsMapFacts.delete_middle by done.
  repeat split.
  - by rewrite (alter_alt_Some _ _ _ _ Hroom), Hcl,
      JsMapFacts.delete_middle by done.
  - eexists. rewrite <- app_assoc. reflexivity.
Qed.

Lemma sweepClient_other now r s e :
  staleRef now s e.2 = false -> sweepClient now r s e = s.
Proof.
  unfold staleRef, sweepClient. destruct (clientObjs s !! e.2); simpl; [|done].
  by intros ->.
Qed.

Lemma sweepClient_frame now r s e room :
  roomObjs s !! r = Some room ->
  sweepFrame now [r] s (sweepClient now r s e)
  /\ is_Some (roomObjs (sweepClient now r s e) !! r).
Proof.
  intros Hroom. unfold sweepClient.
  destruct (clientObjs s !! e.2) as [c|] eqn:Hc;
    [|split; [apply sweepFrame_refl|by rewrite Hroom]].
  destruct (isStale now c) eqn:Hst;
    [|split; [apply sweepFrame_refl|by rewrite Hroom]].
  unfold broadcastPresence. simpl. rewrite lookup_alter_eq, Hroom. simpl.
  unfold sweepFrame. unfold_state.
  split; [|by rewrite lookup_alter_eq, Hroom].
  split; [done|]. split; [done|]. split; [|split].
  - eexists. split; [rewrite <- app_assoc; reflexivity|].
    intros w code reason Hin. simpl in Hin.
    apply elem_of_cons in Hin as [Heq|Hin].
    + injection Heq as -> -> ->. split; [done|]. by exists e.2, c.
    + apply list_elem_of_fmap in Hin as (? & ? & _). discriminate.
  - intros w Hw. rewrite lookup_alter_ne; [done|].
    intros <-. apply Hw. by exists e.2, c.
  - intros r' Hr'. rewrite lookup_alter_ne; [done|].
    intros <-. apply Hr'. left.
Qed.

(** The inner loop over the entries [td] still to visit, [pre] being
    the entries already visited and kept. *)
Lemma sweepClients_spec now r td : forall pre s room,
  roomObjs s !! r = Some room ->
  clients room = pre ++ td ->
  NoDup (JsMap.keys (pre ++ td)) ->
  let s' := foldl (sweepClient now r) s td in
  sweepFrame now [r] s s'
  /\ roomObjs s' !! r =
       Some (set_clients
               (pre ++ filter (fun e => staleRef now s e.2 = false) td) room).
Proof.
  induction td as [|[k cref] td IH]; intros pre s room Hroom Hcl Hnd; simpl.
  - split; [apply sweepFrame_refl|].
    rewrite Hroom. f_equal. rewrite filter_nil, <- Hcl.
    by rewrite set_clients_same.
  - assert (k ∉ JsMap.keys pre) as Hk.
    { unfold JsMap.keys in *. rewrite fmap_app in Hnd.
      apply NoDup_app in Hnd as (_ & Hd & _). intros Hin.
      apply (Hd _ Hin). left. }
    destruct (sweepClient_frame now r s (k, cref) room Hroom) as [Hfr _].
    destruct (staleRef now s cref) eqn:Hst.
    + pose proof Hst as Hst'. unfold staleRef in Hst'.
      destruct (clientObjs s !! cref) as [c|] eqn:Hc; [|done].
      simpl in Hst'.
      destruct (sweepClient_stale now r s k cref c room pre td)
        as (H1 & H2 & H3 & H4 & pl & H5); try done.
      destruct (IH pre (sweepClient now r s (k, cref))
                  (set_clients (pre ++ td) room)) as [Hf Hr].
      * by rewrite H4, lookup_insert_eq.
      * done.
      * unfold JsMap.keys in *. rewrite fmap_app in *. simpl in Hnd.
        apply NoDup_app in Hnd as (Hn1 & Hn2 & Hn3).
        apply NoDup_cons in Hn3 as [_ Hn3]. apply NoDup_app.
        split; [done|]. split; [|done].
        intros x Hx Hx'. apply (Hn2 x Hx). by right.
      * split; [by eapply sweepFrame_trans|].
        rewrite Hr. rewrite set_clients_idem.
        rewrite filter_cons_False by (simpl; congruence).
        do 3 f_equal. apply list_filter_iff. intros e.
        unfold staleRef. by rewrite H1.
    + rewrite sweepClient_other by done.
      destruct (IH (pre ++ [(k, cref)]) s room) as [Hf Hr].
      * done.
      * by rewrite <- app_assoc.
      * by rewrite <- app_assoc.
      * split; [done|]. rewrite Hr.
        rewrite filter_cons_True by done. by rewrite <- app_assoc.
Qed.

(** Every stale entry of the loop is closed with 4001 and its leave is
    sent to every fresh entry of the room whose socket is open. *)
Lemma sweepClients_evicts now r td : forall pre s room,
  roomObjs s !! r = Some room ->
  clients room = pre ++ td ->
  NoDup (JsMap.keys (pre ++ td)) ->
  forall k cref c,
    (k, cref) ∈ td ->
    clientObjs s !! cref = Some c ->
    isStale now c = true ->
    exists added,
      trace (foldl (sweepClient now r) s td) = trace s ++ added
      /\ WsClose (ws c) 4001 "Connection timeout" ∈ added
      /\ forall k' cref' c',
           (k', cref') ∈ pre ++ td ->
           clientObjs s !! cref' = Some c' ->
           isStale now c' = false ->
           sockets s !! ws c' = Some OPEN ->
           ~ staleSocket now s (ws c') ->
           exists pl, WsSend (ws c') (FPresence Leave k pl) ∈ added.
Proof.
  induction td as [|[k0 cref0] td IH]; intros pre s room Hroom Hcl Hnd
    k cref c Hin Hc Hst.
  { by apply elem_of_nil in Hin. }
  assert (k0 ∉ JsMap.keys pre) as Hk.
  { unfold JsMap.keys in *. rewrite fmap_app in Hnd.
    apply NoDup_app in Hnd as (_ & Hd & _). intros Hin'.
    apply (Hd _ Hin'). left. }
  assert (NoDup (JsMap.keys (pre ++ td))) as Hnd'.
  { unfold JsMap.keys in *. rewrite fmap_app in *. simpl in Hnd.
    apply NoDup_app in Hnd as (Hn1 & Hn2 & Hn3).
    apply NoDup_cons in Hn3 as [_ Hn3]. apply NoDup_app.
    split; [done|]. split; [|done].
    intros x Hx Hx'. apply (Hn2 x Hx). by right. }
  simpl.
  destruct (staleRef now s cref0) eqn:Hst0.
  - pose proof Hst0 as Hst0'. unfold staleRef in Hst0'.
    destruct (clientObjs s !! cref0) as [c0|] eqn:Hc0; [|done].
    simpl in Hst0'.
    destruct (sweepClient_stale now r s k0 cref0 c0 room pre td)
      as (H1 & H2 & H3 & H4 & pl & H5); try done.
    set (s1 := sweepClient now r s (k0, cref0)) in *.
    assert (roomObjs s1 !! r = Some (set_clients (pre ++ td) room)) as Hroom1
      by (by rewrite H4, lookup_insert_eq).
    destruct (sweepClients_spec now r td pre s1 _ Hroom1 eq_refl Hnd')
      as [(_ & _ & (added' & Ht' & _) & _ & _) _].
    assert (forall k' cref' c',
               (k', cref') ∈ pre ++ (k0, cref0) :: td ->
               clientObjs s !! cref' = Some c' ->
               isStale now c' = false ->
               (k', cref') ∈ pre ++ td) as Hfresh.
    { intros k' cref' c' Hin' Hc' Hf'.
      apply elem_of_app in Hin' as [Hin'|Hin']; apply elem_of_app;
        [by left|].
      apply elem_of_cons in Hin' as [[= -> ->]|Hin']; [|by right].
      congruence. }
    assert (forall c', ~ staleSocket now s (ws c') ->
                       sockets s !! ws c' = Some OPEN ->
                       sockets s1 !! ws c' = Some OPEN) as Hopen.
    { intros c' Hns Ho. rewrite H3. rewrite lookup_alter_ne; [done|].
      intros Heq. apply Hns. exists cref0, c0. done. }
    apply elem_of_cons in Hin as [[= -> ->]|Hin].
    + assert (c0 = c) as -> by congruence.
      eexists. split; [rewrite Ht', H5, <- app_assoc; reflexivity|].
      split; [apply elem_of_app; left; left|].
      intros k' cref' c' Hin' Hc' Hf' Ho' Hns'. exists pl.
      apply elem_of_app. left. right.
      apply list_elem_of_fmap. exists (ws c'). split; [done|].
      apply elem_of_openTargets. exists k', cref', c'.
      rewrite H1. repeat split; eauto.
    + destruct (IH pre s1 _ Hroom1 eq_refl Hnd' k cref c Hin)
        as (added & Ht & Hcl' & Hsend); [by rewrite H1|done|].
      exists ((WsClose (ws c0) 4001 "Connection timeout"
                 :: map (fun w => WsSend w (FPresence Leave k0 pl))
                      (openTargets s1 (fun _ => true) (pre ++ td)))
              ++ added).
      split; [by rewrite Ht, H5, <- app_assoc|].
      split; [apply elem_of_app; by right|].
      intros k' cref' c' Hin' Hc' Hf' Ho' Hns'.
      destruct (Hsend k' cref' c') as [pl' Hpl'].
      * eauto.
      * by rewrite H1.
      * done.
      * eauto.
      * by rewrite (staleSocket_ext now s s1).
      * exists pl'. apply elem_of_app. by right.
  - rewrite sweepClient_other by done.
    apply elem_of_cons in Hin as [[= -> ->]|Hin].
    { unfold staleRef in Hst0. rewrite Hc in Hst0. simpl in Hst0.
      congruence. }
    destruct (IH (pre ++ [(k0, cref0)]) s room Hroom) with (k := k)
      (cref := cref) (c := c) as (added & Ht & Hcl' & Hsend);
      try done; try (by rewrite <- app_assoc).
    exists added. split; [done|]. split; [done|].
    intros k' cref' c' Hin'. apply (Hsend k' cref' c').
    by rewrite <- app_assoc.
Qed.

Lemma sweepRoom_frame now s e : sweepFrame now [e.2] s (sweepRoom now s e).
Proof.
  unfold sweepRoom.
  destruct (roomObjs s !! e.2) as [room|] eqn:Hroom;
    [|apply sweepFrame_refl].
  generalize (clients room) as td. intros td. revert s room Hroom.
  induction td as [|x td IH]; intros s room Hroom; simpl.
  - apply sweepFrame_refl.
  - destruct (sweepClient_frame now e.2 s x room Hroom) as [Hstep [room1 H1]].
    eapply sweepFrame_trans; [exact Hstep|]. by apply (IH _ room1).
Qed.

Lemma sweepRooms_frame now l : forall s,
  sweepFrame now l.*2 s (foldl (sweepRoom now) s l).
Proof.
  induction l as [|e l IH]; intros s; simpl; [apply sweepFrame_refl|].
  eapply sweepFrame_trans.
  - eapply sweepFrame_weaken; [|apply sweepRoom_frame].
    intros r Hr. apply list_elem_of_singleton in Hr as ->. left.
  - eapply sweepFrame_weaken; [|apply IH]. intros r Hr. by right.
Qed.

End SweepFacts.

Section SweepTheorem.
Import WsServer.
Context {D : Type} `{Yjs D} `{Base64}.
Implicit Types (s : Server D) (room : DocumentRoom D).

Lemma isStale_true now c :
  isStale now c = true <-> (now - lastSeen c > 5000)%Z.
Proof. unfold isStale, PRESENCE_TIMEOUT. apply bool_decide_eq_true. Qed.

Lemma isStale_false now c :
  isStale now c = false <-> (now - lastSeen c <= 5000)%Z.
Proof.
  unfold isStale, PRESENCE_TIMEOUT. rewrite bool_decide_eq_false. lia.
Qed.

Lemma same_key_same_value (m : list (string * nat)) k v1 v2 :
  NoDup (JsMap.keys m) -> (k, v1) ∈ m -> (k, v2) ∈ m -> v1 = v2.
Proof.
  intros Hnd H1 H2.
  apply (JsMapFacts.elem_of_get _ _ _ Hnd) in H1, H2. congruence.
Qed.

Lemma keys_filter_NoDup (P : string * nat -> Prop)
    `{forall e, Decision (P e)} (m : list (string * nat)) :
  NoDup (JsMap.keys m) -> NoDup (JsMap.keys (filter P m)).
Proof.
  unfold JsMap.keys. induction m as [|e m IH]; simpl; [done|].
  intros Hnd. apply NoDup_cons in Hnd as [Hk Hnd].
  destruct (decide (P e)).
  - rewrite filter_cons_True by done. simpl. apply NoDup_cons.
    split; [|by apply IH]. intros Hin. apply Hk.
    apply list_elem_of_fmap in Hin as (y & -> & Hy).
    apply list_elem_of_filter in Hy as [_ Hy].
    apply list_elem_of_fmap. by exists y.
  - rewrite filter_cons_False by done. by apply IH.
Qed.

(** C5.  The sweep runs every 1000 ms.  One run at time [now], for a
    connection [c] registered under [uid] in a registered room: if [c]
    was last seen more than 5000 ms ago, its socket is closed with 4001,
    [uid] is no longer a key of the room's client map, and a leave
    update for [uid] is sent to every connection of the room that is
    within the window with an open socket; if [c] is within the window
    it stays in the map with its record as it was and its socket is not
    closed.  (No two client records share a socket in a running server;
    the statements about sockets say so where they need it.) *)
Theorem stale_presence_swept (now : Z) s (docId : string) (r : nat) room
    (uid : string) (cref : nat) (c : ClientConnection) :
  NoDup (rooms s).*2 ->
  (docId, r) ∈ rooms s ->
  roomObjs s !! r = Some room ->
  NoDup (JsMap.keys (clients room)) ->
  (uid, cref) ∈ clients room ->
  clientObjs s !! cref = Some c ->
  presenceCleanupInterval (constructor (D := D)) = 1000%Z
  /\ exists added room',
       trace (cleanupStalePresence now s) = trace s ++ added
       /\ roomObjs (cleanupStalePresence now s) !! r = Some room'
       /\ clientObjs (cleanupStalePresence now s) = clientObjs s
       /\ ((now - lastSeen c > 5000)%Z ->
             WsClose (ws c) 4001 "Connection timeout" ∈ added
             /\ JsMap.get uid (clients room') = None
             /\ forall uid' cref' c',
                  (uid', cref') ∈ clients room ->
                  clientObjs s !! cref' = Some c' ->
                  (now - lastSeen c' <= 5000)%Z ->
                  sockets s !! ws c' = Some OPEN ->
                  ~ staleSocket now s (ws c') ->
                  exists pl,
                    WsSend (ws c') (FPresence Leave uid pl) ∈ added)
       /\ ((now - lastSeen c <= 5000)%Z ->
             JsMap.get uid (clients room') = Some cref
             /\ (~ staleSocket now s (ws c) ->
                 sockets (cleanupStalePresence now s) !! ws c
                   = sockets s !! ws c
                 /\ forall code reason,
                      WsClose (ws c) code reason ∉ added)).
Proof.
  intros Hrefs Hreg Hroom Hkeys Hin Hc. split; [done|].
  apply list_elem_of_split in Hreg as (pre & post & Hsplit).
  assert ((r ∉ pre.*2) /\ (r ∉ post.*2)) as [Hpre Hpost].
  { rewrite Hsplit, fmap_app in Hrefs. simpl in Hrefs.
    apply NoDup_app in Hrefs as (_ & Hd & Hn).
    apply NoDup_cons in Hn as [Hn _]. split; [|done].
    intros Hr. apply (Hd _ Hr). left. }
  unfold cleanupStalePresence. rewrite Hsplit, foldl_app. simpl.
  set (s1 := foldl (sweepRoom now) s pre).
  pose proof (sweepRooms_frame now pre s) as F1. fold s1 in F1.
  destruct F1 as (Hc1 & Hr1 & (a1 & Ht1 & Ha1) & Hs1 & Ho1).
  assert (roomObjs s1 !! r = Some room) as Hroom1 by (by rewrite Ho1).
  assert (sweepRoom now s1 (docId, r)
          = foldl (sweepClient now r) s1 (clients room)) as Hs2.
  { unfold sweepRoom. simpl. by rewrite Hroom1. }
  rewrite Hs2. set (s2 := foldl (sweepClient now r) s1 (clients room)).
  destruct (sweepClients_spec now r (clients room) [] s1 room Hroom1
              eq_refl Hkeys) as [F2 Hroom2].
  fold s2 in F2, Hroom2. simpl in Hroom2.
  destruct F2 as (Hc2 & Hr2 & (a2 & Ht2 & Ha2) & Hs2' & Ho2).
  set (s3 := foldl (sweepRoom now) s2 post).
  pose proof (sweepRooms_frame now post s2) as F3. fold s3 in F3.
  destruct F3 as (Hc3 & Hr3 & (a3 & Ht3 & Ha3) & Hs3 & Ho3).
  assert (forall w, staleSocket now s1 w <-> staleSocket now s w) as Hst1
    by (intros w; by apply staleSocket_ext).
  assert (forall w, staleSocket now s2 w <-> staleSocket now s w) as Hst2
    by (intros w; apply staleSocket_ext; congruence).
  set (kept := filter (fun e : string * nat => staleRef now s1 e.2 = false)
                 (clients room)) in *.
  exists (a1 ++ a2 ++ a3), (set_clients kept room).
  split; [by rewrite Ht3, Ht2, Ht1, <- !app_assoc|].
  split; [by rewrite Ho3|]. split; [congruence|]. split.
  - intros Hstale. apply isStale_true in Hstale.
    destruct (sweepClients_evicts now r (clients room) [] s1 room Hroom1
                eq_refl Hkeys uid cref c Hin) as (a2' & Ht2' & Hcl & Hsend).
    { by rewrite Hc1. }
    { done. }
    fold s2 in Ht2'. assert (a2' = a2) as ->.
    { rewrite Ht2 in Ht2'. by apply app_inv_head in Ht2'. }
    split; [|split].
    + apply elem_of_app. right. apply elem_of_app. by left.
    + simpl. apply JsMapFacts.get_None_not_in. intros Hk.
      apply list_elem_of_fmap in Hk as ([k v] & Hk & Hv). simpl in Hk.
      subst k. apply list_elem_of_filter in Hv as [Hf Hv]. simpl in Hf.
      assert (v = cref) as -> by (by eapply same_key_same_value).
      unfold staleRef in Hf. rewrite Hc1, Hc in Hf. simpl in Hf.
      congruence.
    + intros uid' cref' c' Hin' Hc' Hf' Ho' Hns'.
      destruct (Hsend uid' cref' c') as [pl Hpl].
      * done.
      * by rewrite Hc1.
      * by apply isStale_false.
      * by rewrite Hs1.
      * by rewrite Hst1.
      * exists pl. apply elem_of_app. right. apply elem_of_app. by left.
  - intros Hfresh. apply isStale_false in Hfresh. split.
    + simpl. apply JsMapFacts.elem_of_get.
      * by apply keys_filter_NoDup.
      * apply list_elem_of_filter. split; [|done].
        unfold staleRef. simpl. by rewrite Hc1, Hc.
    + intros Hns. split.
      * rewrite Hs3, Hs2', Hs1; [done..| |]; [by rewrite Hst1|by rewrite Hst2].
      * intros code reason Hcl.
        apply elem_of_app in Hcl as [Hcl|Hcl];
          [|apply elem_of_app in Hcl as [Hcl|Hcl]].
        -- by destruct (Ha1 _ _ _ Hcl) as [_ ?].
        -- destruct (Ha2 _ _ _ Hcl) as [_ ?]. by apply Hns, Hst1.
        -- destruct (Ha3 _ _ _ Hcl) as [_ ?]. by apply Hns, Hst2.
Qed.

End SweepTheorem.

Section SweepScenario.
Import WsServer Replica Scenario.

(** At time 5005 alice (last seen at 0) is stale and bob (last seen at
    10) is not. *)
Lemma stale_presence_swept_witness :
  exists added room',
    trace (cleanupStalePresence 5005 bothIn) = trace bothIn ++ added
    /\ roomObjs (cleanupStalePresence 5005 bothIn) !! 0 = Some room'
    /\ WsClose 1 4001 "Connection timeout" ∈ added
    /\ JsMap.get "alice" (clients room') = None.
Proof.
  destruct (stale_presence_swept 5005 bothIn "doc1" 0 doc1Room "alice" 1
              alice) as [_ (added & room' & Ht & Hr & _ & Hstale & _)].
  - by apply (bool_decide_unpack _); vm_compute.
  - vm_compute. left.
  - vm_compute. reflexivity.
  - by apply (bool_decide_unpack _); vm_compute.
  - left.
  - vm_compute. reflexivity.
  - exists added, room'. destruct Hstale as (H1 & H2 & _).
    + simpl. lia.
    + exact (conj Ht (conj Hr (conj H1 H2))).
Defined.

Example sweep_trace :
  drop (length (trace bothIn)) (trace (cleanupStalePresence 5005 bothIn)) =
    [ WsClose 1 4001 "Connection timeout";
      WsSend 2 (FPresence Leave "alice" [presenceOf bob]) ]
  /\ (clients <$> roomObjs (cleanupStalePresence 5005 bothIn) !! 0)
     = Some [("bob", 2)]
  /\ sockets (cleanupStalePresence 5005 bothIn) !! 1 = Some CLOSING
  /\ sockets (cleanupStalePresence 5005 bothIn) !! 2 = Some OPEN.
Proof. vm_compute. repeat split. Qed.

End SweepScenario.

Section JoinFacts.
Import WsServer.
Context {D : Type} `{Yjs D} `{Base64}.
Implicit Types (s : Server D) (room : DocumentRoom D).

Lemma getOrCreateRoom_room documentId now newGuid s :
  (forall r, JsMap.get documentId (rooms s) = Some r ->
             is_Some (roomObjs s !! r)) ->
  let '(r, s1) := getOrCreateRoom documentId now newGuid s in
  is_Some (roomObjs s1 !! r)
  /\ JsMap.get documentId (rooms s1) = Some r
  /\ clientObjs s1 = clientObjs s
  /\ sockets s1 = sockets s
  /\ trace s1 = trace s.
Proof.
  intros Hwf. unfold getOrCreateRoom.
  destruct (JsMap.get documentId (rooms s)) as [r|] eqn:Hg.
  - split; [by apply Hwf|done].
  - unfold_state. split; [by rewrite lookup_insert_eq|].
    split; [apply JsMapFacts.get_set_eq|done].
Qed.

(** What a connection to a non-empty document id produces: the client
    record is registered under its participant id, the new socket gets a
    [sync] and then the presence list, and then the [join] update goes
    to every open socket of the room, the new socket [w] among them. *)
Lemma handleConnection_trace (w : nat) (documentId uid : string)
    (rnd : nat) (nowRoom nowSeen : Z) (newGuid : string) s :
  (forall r, JsMap.get documentId (rooms s) = Some r ->
             is_Some (roomObjs s !! r)) ->
  sockets s !! w = Some OPEN ->
  let s' := handleConnection w documentId uid rnd nowRoom nowSeen newGuid s in
  exists r room cref state pl targets,
    JsMap.get documentId (rooms s') = Some r
    /\ roomObjs s' !! r = Some room
    /\ JsMap.get uid (clients room) = Some cref
    /\ clientObjs s' !! cref =
         Some (mkClient w uid "Anonymous" (generateUserColor rnd) nowSeen None)
    /\ state = Y_encodeStateAsUpdate (store (doc room))
    /\ trace s' =
         trace s ++
           [WsSend w (FSync "" (to_base64 state));
            WsSend w (FAwarenessList "" pl)]
           ++ map (fun w' => WsSend w' (FPresence Join uid pl)) targets
    /\ w ∈ targets.
Proof.
  intros Hwf Hopen. unfold handleConnection.
  pose proof (getOrCreateRoom_room documentId nowRoom newGuid s Hwf) as Hg.
  destruct (getOrCreateRoom documentId nowRoom newGuid s) as [r s1].
  destruct Hg as ([room Hroom] & Hget & Hc1 & Hs1 & Ht1).
  rewrite <- Hs1 in Hopen. rewrite <- Ht1. clear Hc1 Hs1 Ht1 Hwf.
  destruct s1 as [rs c2r itv robjs cobjs socks hs ts tr nref].
  simpl in Hroom, Hget, Hopen.
  cbv [sendInitialSync broadcastPresence]. eval_state.
  rewrite !lookup_alter_eq, Hroom. cbn [fmap option_fmap option_map].
  eval_state.
  rewrite !lookup_alter_eq, Hroom. cbn [fmap option_fmap option_map].
  eval_state.
  set (client := mkClient w uid "Anonymous" (generateUserColor rnd) nowSeen
                   None).
  set (room' := set_clients (JsMap.set uid nref (clients room)) room).
  eexists r, room', nref, _, _, _.
  split; [exact Hget|].
  split; [by rewrite lookup_alter_eq, Hroom|].
  split; [apply JsMapFacts.get_set_eq|].
  split; [by rewrite lookup_insert_eq|]. split; [reflexivity|].
  split.
  - rewrite <- !app_assoc. reflexivity.
  - apply elem_of_openTargets. exists uid, nref, client.
    split; [apply JsMapFacts.get_Some_elem_of, JsMapFacts.get_set_eq|].
    split; [apply lookup_insert_eq|]. split; [reflexivity|].
    split; [exact Hopen|reflexivity].
Qed.

Lemma handleDisconnection_last_client (w r : nat) (uid : string) s room :
  roomObjs s !! r = Some room ->
  JsMap.delete uid (clients room) = [] ->
  timers (handleDisconnection w r uid s) = timers s ++ [mkTimer 60000 r].
Proof.
  intros Hroom Hdel. unfold handleDisconnection, broadcastPresence.
  destruct s as [rs c2r itv robjs cobjs socks hs ts tr nref].
  simpl in Hroom. eval_state.
  rewrite !lookup_alter_eq, Hroom. cbn [fmap option_fmap option_map].
  eval_state. rewrite !lookup_alter_eq, Hroom.
  cbn [fmap option_fmap option_map]. rewrite Hdel. reflexivity.
Qed.

End JoinFacts.

(** ** Invariants of the running server *)

Section Shape.
Import WsServer.
Context {D : Type} `{Yjs D} `{Base64}.
Implicit Types (s : Server D) (room : DocumentRoom D).

Lemma sameShape_refl s : sameShape s s.
Proof.
  repeat split; try done. intros r room' Hr. by exists room'.
Qed.

Lemma sameShape_trans s1 s2 s3 :
  sameShape s1 s2 -> sameShape s2 s3 -> sameShape s1 s3.
Proof.
  intros (Hr1 & Hn1 & Hs1 & Hc1) (Hr2 & Hn2 & Hs2 & Hc2).
  split; [congruence|]. split; [lia|]. split; [auto|].
  intros r room3 H3. destruct (Hc2 _ _ H3) as (room2 & H2 & Hnd2).
  destruct (Hc1 _ _ H2) as (room1 & H1' & Hnd1).
  exists room1. split; [done|]. auto.
Qed.

Lemma wellFormed_sameShape s s' :
  wellFormed s -> sameShape s s' -> wellFormed s'.
Proof.
  intros (Hrefs & Hreg & Hcl) (Hr & Hn & Hs & Hc).
  split; [by rewrite Hr|]. split.
  - intros k r Hin. rewrite Hr in Hin. destruct (Hreg _ _ Hin) as [Hlt Hsome].
    split; [lia|auto].
  - intros r room' Hr'. destruct (Hc _ _ Hr') as (room & Hroom & Hnd).
    apply Hnd. by eapply Hcl.
Qed.

Lemma sameShape_rooms_kept s s' :
  rooms s' = rooms s -> (nextRef s <= nextRef s')%nat ->
  roomObjs s' = roomObjs s -> sameShape s s'.
Proof.
  intros Hr Hn Ho. split; [done|]. split; [done|]. rewrite Ho.
  split; [done|]. intros r room' Hr'. by exists room'.
Qed.

Lemma shape_emit e s : sameShape s (emit e s).
Proof. by apply sameShape_rooms_kept. Qed.
Lemma shape_clientObjs x s : sameShape s (with_clientObjs x s).
Proof. by apply sameShape_rooms_kept. Qed.
Lemma shape_sockets x s : sameShape s (with_sockets x s).
Proof. by apply sameShape_rooms_kept. Qed.
Lemma shape_handlers x s : sameShape s (with_handlers x s).
Proof. by apply sameShape_rooms_kept. Qed.
Lemma shape_timers x s : sameShape s (with_timers x s).
Proof. by apply sameShape_rooms_kept. Qed.
Lemma shape_clientToRoom x s : sameShape s (with_clientToRoom x s).
Proof. by apply sameShape_rooms_kept. Qed.
Lemma shape_nextRef n s :
  (nextRef s <= n)%nat -> sameShape s (with_nextRef n s).
Proof. intros Hn. by apply sameShape_rooms_kept. Qed.

Lemma shape_alter (f : DocumentRoom D -> DocumentRoom D) r s :
  (forall room, NoDup (JsMap.keys (clients room)) ->
                NoDup (JsMap.keys (clients (f room)))) ->
  sameShape s (with_roomObjs (alter f r (roomObjs s)) s).
Proof.
  intros Hf. split; [done|]. split; [done|]. simpl. split.
  - intros r' Hs. by apply lookup_alter_is_Some.
  - intros r' room' Hr'. apply lookup_alter_Some in Hr'
      as [(-> & room & Hroom & ->)|[Hne Hroom]].
    + exists room. auto.
    + by exists room'.
Qed.

Lemma shape_insert r room room' s :
  roomObjs s !! r = Some room ->
  clients room' = clients room ->
  sameShape s (with_roomObjs (<[r := room']> (roomObjs s)) s).
Proof.
  intros Hroom Hcl. split; [done|]. split; [done|]. simpl. split.
  - intros r' Hs. apply lookup_insert_is_Some.
    destruct (decide (r = r')); [by left|by right].
  - intros r' room2 Hr'. apply lookup_insert_Some in Hr'
      as [[-> ->]|[Hne Hr']].
    + exists room. split; [done|]. by rewrite Hcl.
    + by exists room2.
Qed.

Lemma shape_wsClose w code reason s : sameShape s (wsClose w code reason s).
Proof. by apply sameShape_rooms_kept. Qed.

Lemma shape_broadcastPresence r uid action s :
  sameShape s (broadcastPresence r uid action s).
Proof.
  unfold broadcastPresence. destruct (roomObjs s !! r);
    [apply shape_emit|apply sameShape_refl].
Qed.

Lemma shape_sendInitialSync w r s : sameShape s (sendInitialSync w r s).
Proof.
  unfold sendInitialSync. destruct (roomObjs s !! r);
    [|apply sameShape_refl].
  eapply sameShape_trans; apply shape_emit.
Qed.

Lemma shape_delete_client uid r s :
  sameShape s
    (with_roomObjs
       (alter (fun room => set_clients (JsMap.delete uid (clients room)) room)
          r (roomObjs s)) s).
Proof.
  apply shape_alter. intros room. simpl. apply JsMapFacts.keys_delete_NoDup.
Qed.

Lemma shape_handleUpdate r cref m s : sameShape s (handleUpdate r cref m s).1.
Proof.
  unfold handleUpdate.
  destruct (WSMessage.data m) as [[payload|]|]; try apply sameShape_refl.
  destruct (decide (payload = "")); [apply sameShape_refl|].
  destruct (roomObjs s !! r) as [room|] eqn:Hroom; [|apply sameShape_refl].
  destruct (clientObjs s !! cref) as [client|]; [|apply sameShape_refl].
  destruct (Y_applyUpdate (store (doc room)) (from_base64 payload)); simpl.
  - eapply sameShape_trans; [|apply shape_emit]. by eapply shape_insert.
  - by eapply shape_insert.
Qed.

Lemma shape_handleAwareness r cref m s :
  sameShape s (handleAwareness r cref m s).
Proof.
  unfold handleAwareness. cbv zeta.
  match goal with
  | |- context [with_clientObjs ?x s] => set (s1 := with_clientObjs x s)
  end.
  assert (sameShape s s1) as H1 by apply shape_clientObjs.
  destruct (clientObjs s1 !! cref); [|done].
  eapply sameShape_trans; [exact H1|apply shape_broadcastPresence].
Qed.

Lemma shape_handleCursor r cref m s : sameShape s (handleCursor r cref m s).
Proof.
  unfold handleCursor. cbv zeta.
  match goal with
  | |- context [with_clientObjs ?x s] => set (s1 := with_clientObjs x s)
  end.
  assert (sameShape s s1) as H1 by apply shape_clientObjs.
  destruct (roomObjs s1 !! r); [|done].
  destruct (clientObjs s1 !! cref); [|done].
  eapply sameShape_trans; [exact H1|apply shape_emit].
Qed.

Lemma shape_handleMessage w r cref parsed tSeen tActivity s :
  sameShape s (handleMessage w r cref parsed tSeen tActivity s).
Proof.
  unfold handleMessage. cbv zeta.
  match goal with
  | |- context [with_roomObjs ?x (with_clientObjs ?y s)] =>
      set (s2 := with_roomObjs x (with_clientObjs y s))
  end.
  assert (sameShape s s2) as H2.
  { eapply sameShape_trans; [apply shape_clientObjs|].
    apply (shape_alter _ r (with_clientObjs _ s)). done. }
  destruct parsed as [| |m]; [apply shape_emit| |].
  { eapply sameShape_trans; [exact H2|apply shape_emit]. }
  destruct (typeIs (WSMessage.type m) "update").
  { pose proof (shape_handleUpdate r cref m s2) as Hu.
    destruct (handleUpdate r cref m s2) as [s3 []]; simpl in Hu.
    - by eapply sameShape_trans.
    - eapply sameShape_trans; [|apply shape_emit]. by eapply sameShape_trans. }
  destruct (typeIs (WSMessage.type m) "awareness").
  { eapply sameShape_trans; [exact H2|apply shape_handleAwareness]. }
  destruct (typeIs (WSMessage.type m) "cursor").
  { eapply sameShape_trans; [exact H2|apply shape_handleCursor]. }
  eapply sameShape_trans; [exact H2|apply shape_emit].
Qed.

Lemma shape_handleDisconnection w r uid s :
  sameShape s (handleDisconnection w r uid s).
Proof.
  unfold handleDisconnection. cbv zeta.
  match goal with
  | |- context [broadcastPresence r uid Leave ?x] =>
      set (s3 := broadcastPresence r uid Leave x)
  end.
  assert (sameShape s s3) as H3.
  { eapply sameShape_trans; [|apply shape_broadcastPresence].
    eapply sameShape_trans; [|apply shape_clientToRoom].
    apply shape_delete_client. }
  destruct (roomObjs s3 !! r) as [room|]; [|done].
  destruct (decide (JsMap.size (clients room) = 0%nat)); [|done].
  eapply sameShape_trans; [exact H3|apply shape_timers].
Qed.

Lemma shape_sweepClient now r s e : sameShape s (sweepClient now r s e).
Proof.
  unfold sweepClient. destruct (clientObjs s !! e.2) as [c|];
    [|apply sameShape_refl].
  destruct (isStale now c); [|apply sameShape_refl]. cbv zeta.
  eapply sameShape_trans; [|apply shape_broadcastPresence].
  eapply sameShape_trans; [|apply shape_clientToRoom].
  eapply sameShape_trans; [apply shape_wsClose|].
  apply shape_delete_client.
Qed.

Lemma shape_foldl {A} (f : Server D -> A -> Server D) (l : list A) :
  (forall s x, sameShape s (f s x)) ->
  forall s, sameShape s (foldl f s l).
Proof.
  intros Hf. induction l as [|x l IH]; intros s; simpl;
    [apply sameShape_refl|].
  eapply sameShape_trans; [apply Hf|apply IH].
Qed.

Lemma shape_cleanupStalePresence now s :
  sameShape s (cleanupStalePresence now s).
Proof.
  unfold cleanupStalePresence. apply shape_foldl. clear s. intros s e.
  unfold sweepRoom. destruct (roomObjs s !! e.2); [|apply sameShape_refl].
  apply shape_foldl. intros s' x. apply shape_sweepClient.
Qed.

Lemma wellFormed_constructor : wellFormed (constructor (D := D)).
Proof.
  split; [apply NoDup_nil_2|]. split.
  - intros k r Hin. by apply elem_of_nil in Hin.
  - intros r room Hr. simpl in Hr. by rewrite lookup_empty in Hr.
Qed.

Lemma wellFormed_getOrCreateRoom documentId now newGuid s :
  wellFormed s ->
  wellFormed (getOrCreateRoom documentId now newGuid s).2.
Proof.
  intros (Hrefs & Hreg & Hcl). unfold getOrCreateRoom.
  destruct (JsMap.get documentId (rooms s)) as [r|] eqn:Hg; [done|].
  simpl. unfold wellFormed. simpl.
  rewrite JsMapFacts.set_fresh by done. split; [|split].
  - rewrite fmap_app. simpl. apply NoDup_app. split; [done|].
    split; [|apply NoDup_singleton].
    intros r Hr Hr'. apply list_elem_of_singleton in Hr' as ->.
    apply list_elem_of_fmap in Hr as ([k r] & Heq & Hin). simpl in Heq.
    subst r. destruct (Hreg _ _ Hin). lia.
  - intros k r Hin. apply elem_of_app in Hin as [Hin|Hin].
    + destruct (Hreg _ _ Hin) as [Hlt Hsome]. split; [lia|].
      apply lookup_insert_is_Some. destruct (decide (nextRef s = r)); auto.
    + apply list_elem_of_singleton in Hin as [= -> ->]. split; [lia|].
      by rewrite lookup_insert_eq.
  - intros r room Hr. apply lookup_insert_Some in Hr as [[_ <-]|[_ Hr]].
    + simpl. apply NoDup_nil_2.
    + by eapply Hcl.
Qed.

Lemma wellFormed_handleConnection w documentId uid rnd nowRoom nowSeen
    newGuid s :
  wellFormed s ->
  wellFormed (handleConnection w documentId uid rnd nowRoom nowSeen newGuid s).
Proof.
  intros Hwf. unfold handleConnection.
  pose proof (wellFormed_getOrCreateRoom documentId nowRoom newGuid s Hwf)
    as Hwf1.
  destruct (getOrCreateRoom documentId nowRoom newGuid s) as [r s1].
  simpl in Hwf1. cbv zeta. eapply wellFormed_sameShape; [exact Hwf1|].
  eapply sameShape_trans; [|apply shape_handlers].
  eapply sameShape_trans; [|apply shape_broadcastPresence].
  eapply sameShape_trans; [|apply shape_sendInitialSync].
  eapply sameShape_trans; [|apply shape_clientToRoom].
  eapply sameShape_trans;
    [|apply (shape_alter _ r); intros room; simpl;
      apply JsMapFacts.keys_set_NoDup].
  eapply sameShape_trans; [apply shape_clientObjs|].
  apply shape_nextRef. simpl. lia.
Qed.

Lemma wellFormed_roomTimeout r s : wellFormed s -> wellFormed (roomTimeout r s).
Proof.
  intros Hwf. unfold roomTimeout.
  destruct (roomObjs s !! r) as [room|]; [|done].
  destruct (JsMap.get (guid (doc room)) (rooms s)) as [cur|]; [|done].
  destruct (roomObjs s !! cur) as [currentRoom|] eqn:Hcur; [|done].
  destruct (decide (JsMap.size (clients currentRoom) = 0%nat)); [|done].
  assert (wellFormed
            (with_roomObjs (<[cur := destroy_doc currentRoom]> (roomObjs s)) s))
    as (Hrefs & Hreg & Hcl).
  { eapply wellFormed_sameShape; [exact Hwf|]. by eapply shape_insert. }
  split; [|split].
  - simpl. by apply JsMapFacts.values_delete_NoDup.
  - intros k r' Hin. apply Hreg with k. simpl in *.
    by eapply JsMapFacts.elem_of_delete.
  - exact Hcl.
Qed.

(** Every state the server reaches from [constructor] is well formed. *)
Lemma wellFormed_step s e : wellFormed s -> wellFormed (step s e).
Proof.
  intros Hwf. destruct e; simpl.
  - unfold wssConnection, onConnection.
    assert (wellFormed (with_sockets (<[w := OPEN]> (sockets s)) s)) as Hwf'
      by (eapply wellFormed_sameShape; [exact Hwf|apply shape_sockets]).
    destruct (decide (slice1 pathname = "")).
    + eapply wellFormed_sameShape; [exact Hwf'|apply shape_wsClose].
    + by apply wellFormed_handleConnection.
  - unfold wsMessage. destruct (handlers s !! w); [|done].
    eapply wellFormed_sameShape; [exact Hwf|apply shape_handleMessage].
  - unfold wsClosed. cbv zeta.
    eapply wellFormed_sameShape; [exact Hwf|].
    destruct (handlers (with_sockets (<[w := CLOSED]> (sockets s)) s) !! w).
    + eapply sameShape_trans;
        [apply shape_sockets|apply shape_handleDisconnection].
    + apply shape_sockets.
  - unfold wsError. destruct (handlers s !! w); [|done].
    eapply wellFormed_sameShape; [exact Hwf|].
    eapply sameShape_trans; [apply shape_emit|apply shape_handleDisconnection].
  - eapply wellFormed_sameShape; [exact Hwf|apply shape_cleanupStalePresence].
  - unfold fireTimer. destruct (timers s) as [|t rest]; [done|].
    apply wellFormed_roomTimeout.
    eapply wellFormed_sameShape; [exact Hwf|apply shape_timers].
Qed.

Lemma wellFormed_run (es : list Event) : wellFormed (run (D := D) es).
Proof.
  unfold run. generalize (wellFormed_constructor).
  generalize (constructor (D := D)) as s. induction es as [|e es IH];
    intros s Hwf; simpl; [done|].
  apply IH. by apply wellFormed_step.
Qed.

(** With [wellFormed_run], the two uniqueness premises of the sweep
    theorem hold in every state the server reaches. *)
Lemma wellFormed_unique_keys s docId r room :
  wellFormed s ->
  (docId, r) ∈ rooms s ->
  roomObjs s !! r = Some room ->
  NoDup (rooms s).*2 /\ NoDup (JsMap.keys (clients room)).
Proof. intros (Hrefs & _ & Hcl) _ Hroom. split; [done|by eapply Hcl]. Qed.

End Shape.

(** * Further properties *)

Module JsMapMore.
Section Facts.
Context {K V : Type} `{EqDecision K}.
Implicit Types (k : K) (v : V) (m : list (K * V)).

Lemma elem_of_set_inv k v e m :
  e ∈ JsMap.set k v m -> e = (k, v) \/ e ∈ m.
Proof.
  induction m as [|[k' v'] m IH]; simpl.
  - intros Hin. apply list_elem_of_singleton in Hin. by left.
  - destruct (decide (k = k')) as [->|Hne]; intros Hin;
      apply elem_of_cons in Hin as [->|Hin].
    + by left.
    + right. by right.
    + right. left.
    + destruct (IH Hin); [by left|right; by right].
Qed.

Lemma size_set k v m :
  JsMap.size (JsMap.set k v m) =
    (JsMap.size m + match JsMap.get k m with Some _ => 0 | None => 1 end)%nat.
Proof.
  unfold JsMap.size. induction m as [|[k' v'] m IH]; simpl; [done|].
  destruct (decide (k = k')); simpl; [lia|]. rewrite IH. lia.
Qed.

Lemma delete_absent k m : JsMap.get k m = None -> JsMap.delete k m = m.
Proof.
  induction m as [|[k' v'] m IH]; simpl; [done|].
  destruct (decide (k = k')); [done|]. intros Hg. by rewrite IH.
Qed.

Lemma foldl_fixed {A S : Type} (f : S -> A -> S) (l : list A) (s : S) :
  (forall x, x ∈ l -> f s x = s) -> foldl f s l = s.
Proof.
  induction l as [|x l IH]; simpl; [done|]. intros Hf.
  rewrite Hf by left. apply IH. intros y Hy. apply Hf. by right.
Qed.
End Facts.
End JsMapMore.

Section ServerMore.
Import WsServer ServerApi.
Context {D : Type} `{Yjs D} `{Base64}.
Implicit Types (s : Server D) (room : DocumentRoom D).

(** X1.  [getOrCreateRoom] is idempotent: asked again for the same
    document id, whatever the clock and the identifier drawn, it returns
    the same room object and changes nothing. *)
Theorem getOrCreateRoom_idempotent (documentId : string) (now now' : Z)
    (newGuid newGuid' : string) s :
  getOrCreateRoom documentId now' newGuid'
    (getOrCreateRoom documentId now newGuid s).2
  = getOrCreateRoom documentId now newGuid s
  /\ JsMap.get documentId (rooms (getOrCreateRoom documentId now newGuid s).2)
     = Some (getOrCreateRoom documentId now newGuid s).1.
Proof.
  unfold getOrCreateRoom at 2 3 4 5.
  destruct (JsMap.get documentId (rooms s)) as [r|] eqn:Hg; simpl.
  - unfold getOrCreateRoom. by rewrite Hg.
  - unfold getOrCreateRoom. simpl. by rewrite JsMapFacts.get_set_eq.
Qed.

Lemma handleConnection_state (w : nat) (documentId uid : string) (rnd : nat)
    (nowRoom nowSeen : Z) (newGuid : string) s r s1 room :
  getOrCreateRoom documentId nowRoom newGuid s = (r, s1) ->
  roomObjs s1 !! r = Some room ->
  let s' := handleConnection w documentId uid rnd nowRoom nowSeen newGuid s in
  let client :=
    mkClient w uid "Anonymous" (generateUserColor rnd) nowSeen None in
  rooms s' = rooms s1
  /\ roomObjs s' =
       <[r := set_clients (JsMap.set uid (nextRef s1) (clients room)) room]>
         (roomObjs s1)
  /\ clientObjs s' = <[nextRef s1 := client]> (clientObjs s1)
  /\ handlers s' = <[w := mkHandler r (nextRef s1) uid]> (handlers s1)
  /\ sockets s' = sockets s1
  /\ timers s' = timers s1
  /\ clientToRoom s' = JsMap.set w documentId (clientToRoom s1)
  /\ nextRef s' = S (nextRef s1).
Proof.
  intros Hg Hroom. unfold handleConnection. rewrite Hg.
  destruct s1 as [rs c2r itv robjs cobjs socks hs ts tr nref].
  simpl in Hroom.
  cbv [sendInitialSync broadcastPresence]. eval_state.
  rewrite !lookup_alter_eq, Hroom. cbn [fmap option_fmap option_map].
  eval_state.
  rewrite !lookup_alter_eq, Hroom. cbn [fmap option_fmap option_map].
  eval_state.
  split; [reflexivity|]. split; [|repeat split].
  by apply (alter_alt_Some
              (fun room0 =>
                 set_clients (JsMap.set uid nref (clients room0)) room0)).
Qed.

(** X2.  A connection to a non-empty document id is registered under the
    participant id of the query string when that is non-empty and under
    the generated one otherwise, with the new socket and its handler; the
    room's client count grows by one, or stays when the id was there
    already (the new connection takes the old one's place). *)
Theorem connection_registered (w : nat) (pathname : string)
    (uidParam : option string) (generated : string) (rnd : nat)
    (nowRoom nowSeen : Z) (newGuid : string) s :
  slice1 pathname ≠ "" ->
  (forall r, JsMap.get (slice1 pathname) (rooms s) = Some r ->
             is_Some (roomObjs s !! r)) ->
  let documentId := slice1 pathname in
  let uid := chosenUserId uidParam generated in
  let s' :=
    onConnection w pathname uidParam generated rnd nowRoom nowSeen newGuid s in
  getClientCount documentId s' =
    (getClientCount documentId s
     + if isMember documentId uid s then 0 else 1)%nat
  /\ exists r room cref,
       JsMap.get documentId (rooms s') = Some r
       /\ roomObjs s' !! r = Some room
       /\ JsMap.get uid (clients room) = Some cref
       /\ clientObjs s' !! cref =
            Some (mkClient w uid "Anonymous" (generateUserColor rnd) nowSeen
                    None)
       /\ handlers s' !! w = Some (mkHandler r cref uid).
Proof.
  intros Hdoc Hwf documentId uid s'. subst s'. unfold onConnection.
  rewrite decide_False by done. fold documentId.
  change (default generated (truthy uidParam)) with uid.
  pose proof (getOrCreateRoom_room documentId nowRoom newGuid s Hwf) as Hg.
  destruct (getOrCreateRoom documentId nowRoom newGuid s) as [r s1] eqn:Hgo.
  destruct Hg as ([room Hroom] & Hget & _).
  destruct (handleConnection_state w documentId uid rnd nowRoom nowSeen
              newGuid s r s1 room Hgo Hroom)
    as (Hr & Ho & Hc & Hh & _).
  assert (getClientCount documentId s =
            JsMap.size (clients room)
          /\ isMember documentId uid s
             = bool_decide (is_Some (JsMap.get uid (clients room))))
    as [Hcount Hmem].
  { unfold getClientCount, isMember. unfold getOrCreateRoom in Hgo.
    destruct (JsMap.get documentId (rooms s)) as [r0|] eqn:Hg0.
    - injection Hgo as <- <-. by rewrite Hroom.
    - injection Hgo as <- <-. simpl in Hroom.
      rewrite lookup_insert_eq in Hroom. by injection Hroom as <-. }
  split.
  - unfold getClientCount at 1. rewrite Hr, Hget, Ho, lookup_insert_eq.
    simpl. rewrite JsMapMore.size_set, Hcount, Hmem.
    destruct (JsMap.get uid (clients room)) eqn:E.
    + by rewrite bool_decide_eq_true_2 by eauto.
    + by rewrite bool_decide_eq_false_2 by (by intros [? ?]).
  - exists r, (set_clients (JsMap.set uid (nextRef s1) (clients room)) room),
      (nextRef s1).
    rewrite Hr, Ho, Hc, Hh, !lookup_insert_eq.
    repeat split; [done|]. apply JsMapFacts.get_set_eq.
Qed.


Lemma quiet_refl s : quiet s s.
Proof.
  repeat split; try done. exists []. by rewrite app_nil_r.
Qed.

Lemma quietEffect_ext s s' e :
  sockets s' = sockets s -> quietEffect s' e -> quietEffect s e.
Proof. intros Hs. destruct e; simpl; by rewrite ?Hs. Qed.

Lemma quiet_trans s1 s2 s3 : quiet s1 s2 -> quiet s2 s3 -> quiet s1 s3.
Proof.
  intros (Hr1 & Hc1 & Hs1 & Hh1 & Ht1 & Hn1 & Hm1 & a1 & Ha1 & Hq1)
         (Hr2 & Hc2 & Hs2 & Hh2 & Ht2 & Hn2 & Hm2 & a2 & Ha2 & Hq2).
  do 6 (split; [congruence|]). split.
  - intros r. by rewrite Hm2, Hm1.
  - exists (a1 ++ a2). split; [by rewrite Ha2, Ha1, app_assoc|].
    apply Forall_app. split; [done|].
    eapply Forall_impl; [exact Hq2|]. intros e. by apply quietEffect_ext.
Qed.

Lemma quiet_clientObjs x s : quiet s (with_clientObjs x s).
Proof.
  repeat split; try done. exists []. by rewrite app_nil_r.
Qed.

Lemma quiet_alter (f : DocumentRoom D -> DocumentRoom D) r s :
  (forall room, clients (f room) = clients room) ->
  quiet s (with_roomObjs (alter f r (roomObjs s)) s).
Proof.
  intros Hf. repeat split; try done.
  - intros r'. simpl. destruct (decide (r = r')) as [->|Hne].
    + rewrite lookup_alter_eq. destruct (roomObjs s !! r'); simpl; [|done].
      by rewrite Hf.
    + by rewrite lookup_alter_ne.
  - exists []. by rewrite app_nil_r.
Qed.

Lemma quiet_insert r room room' s :
  roomObjs s !! r = Some room ->
  clients room' = clients room ->
  quiet s (with_roomObjs (<[r := room']> (roomObjs s)) s).
Proof.
  intros Hroom Hcl. repeat split; try done.
  - intros r'. simpl. destruct (decide (r = r')) as [->|Hne].
    + rewrite lookup_insert_eq, Hroom. simpl. by rewrite Hcl.
    + by rewrite lookup_insert_ne.
  - exists []. by rewrite app_nil_r.
Qed.

Lemma quiet_send s keep cl (f : Frame) :
  quiet s (emit (map (fun w => WsSend w f) (openTargets s keep cl)) s).
Proof.
  repeat split; try done. eexists. split; [reflexivity|].
  apply Forall_forall. intros e He.
  apply list_elem_of_fmap in He as (w & -> & Hw). simpl.
  apply elem_of_openTargets in Hw as (k & cref & c & _ & _ & _ & Ho & ->).
  done.
Qed.

Lemma quiet_console s (e : Effect) :
  quietEffect s e -> quiet s (emit [e] s).
Proof.
  intros He. repeat split; try done. exists [e]. split; [done|].
  by apply Forall_singleton.
Qed.

Lemma quiet_broadcastPresence r uid action s :
  quiet s (broadcastPresence r uid action s).
Proof.
  unfold broadcastPresence. destruct (roomObjs s !! r);
    [apply quiet_send|apply quiet_refl].
Qed.

Lemma quiet_handleUpdate r cref m s : quiet s (handleUpdate r cref m s).1.
Proof.
  unfold handleUpdate.
  destruct (WSMessage.data m) as [[payload|]|]; try apply quiet_refl.
  destruct (decide (payload = "")); [apply quiet_refl|].
  destruct (roomObjs s !! r) as [room|] eqn:Hroom; [|apply quiet_refl].
  destruct (clientObjs s !! cref) as [client|]; [|apply quiet_refl].
  destruct (Y_applyUpdate (store (doc room)) (from_base64 payload)); simpl.
  - eapply quiet_trans; [|apply quiet_send].
    by apply (quiet_insert r room).
  - by apply (quiet_insert r room).
Qed.

Lemma quiet_handleAwareness r cref m s : quiet s (handleAwareness r cref m s).
Proof.
  unfold handleAwareness. cbv zeta.
  match goal with
  | |- context [with_clientObjs ?x s] => set (s1 := with_clientObjs x s)
  end.
  assert (quiet s s1) as H1 by apply quiet_clientObjs.
  destruct (clientObjs s1 !! cref); [|done].
  eapply quiet_trans; [exact H1|apply quiet_broadcastPresence].
Qed.

Lemma quiet_handleCursor r cref m s : quiet s (handleCursor r cref m s).
Proof.
  unfold handleCursor. cbv zeta.
  match goal with
  | |- context [with_clientObjs ?x s] => set (s1 := with_clientObjs x s)
  end.
  assert (quiet s s1) as H1 by apply quiet_clientObjs.
  destruct (roomObjs s1 !! r); [|done].
  destruct (clientObjs s1 !! cref); [|done].
  eapply quiet_trans; [exact H1|apply quiet_send].
Qed.

(** X3.  Whatever a socket sends, handling the message closes no socket,
    arms no timer, and leaves the registry, the socket-to-room map, the
    handlers and the membership of every room as they were; every frame
    it sends goes to a socket that is open. *)
Theorem message_changes_no_membership (w r cref : nat) (parsed : Parsed)
    (tSeen tActivity : Z) s :
  let s' := handleMessage w r cref parsed tSeen tActivity s in
  rooms s' = rooms s
  /\ clientToRoom s' = clientToRoom s
  /\ sockets s' = sockets s
  /\ handlers s' = handlers s
  /\ timers s' = timers s
  /\ (forall r', clients <$> roomObjs s' !! r' = clients <$> roomObjs s !! r')
  /\ exists added,
       trace s' = trace s ++ added
       /\ (forall w' code reason, WsClose w' code reason ∉ added)
       /\ (forall w' f, WsSend w' f ∈ added -> sockets s !! w' = Some OPEN).
Proof.
  intros s'.
  assert (quiet s s') as (Hr & Hc & Hs & Hh & Ht & _ & Hm & added & Ha & Hq).
  { subst s'. unfold handleMessage. cbv zeta.
    match goal with
    | |- context [with_roomObjs ?x (with_clientObjs ?y s)] =>
        set (s2 := with_roomObjs x (with_clientObjs y s))
    end.
    assert (quiet s s2) as H2.
    { eapply quiet_trans; [apply quiet_clientObjs|].
      apply (quiet_alter _ r (with_clientObjs _ s)). done. }
    destruct parsed as [| |m]; [by apply quiet_console| |].
    { eapply quiet_trans; [exact H2|by apply quiet_console]. }
    destruct (typeIs (WSMessage.type m) "update").
    { pose proof (quiet_handleUpdate r cref m s2) as Hu.
      destruct (handleUpdate r cref m s2) as [s3 []]; simpl in Hu.
      - by eapply quiet_trans.
      - eapply quiet_trans; [|by apply quiet_console].
        by eapply quiet_trans. }
    destruct (typeIs (WSMessage.type m) "awareness").
    { eapply quiet_trans; [exact H2|apply quiet_handleAwareness]. }
    destruct (typeIs (WSMessage.type m) "cursor").
    { eapply quiet_trans; [exact H2|apply quiet_handleCursor]. }
    eapply quiet_trans; [exact H2|by apply quiet_console]. }
  repeat split; try done. exists added. split; [done|]. split.
  - intros w' code reason Hin.
    by apply (proj1 (Forall_forall _ _) Hq) in Hin.
  - intros w' f Hin. by apply (proj1 (Forall_forall _ _) Hq) in Hin.
Qed.

Lemma typeIs_string (a b : string) :
  typeIs (TypeString a) b = bool_decide (a = b).
Proof. done. Qed.

(** X4.  An [awareness] message renames or recolours the sender only
    with non-empty strings, and then the full presence list, with the
    sender's new entry in it, goes to every open connection of the room,
    the sender's own included. *)
Theorem awareness_rebroadcast (w r cref : nat) (m : WSMessage.t)
    (tSeen tActivity : Z) s room client :
  WSMessage.type m = TypeString "awareness" ->
  roomObjs s !! r = Some room ->
  clientObjs s !! cref = Some client ->
  let s' := handleMessage w r cref (JsonValue m) tSeen tActivity s in
  let client' :=
    mkClient (ws client) (userId client)
      (default (userName client) (truthy (WSMessage.userName m)))
      (default (userColor client) (truthy (WSMessage.userColor m)))
      tSeen (cursor client) in
  let targets := openTargets s (fun _ => true) (clients room) in
  clientObjs s' = <[cref := client']> (clientObjs s)
  /\ roomObjs s' = <[r := set_lastActivity tActivity room]> (roomObjs s)
  /\ trace s' =
       trace s ++
         map (fun w' =>
                WsSend w' (FPresence Awareness (userId client)
                             (getPresenceList s' room))) targets
  /\ ((userId client, cref) ∈ clients room ->
      presenceOf client' ∈ getPresenceList s' room
      /\ (sockets s !! ws client = Some OPEN -> ws client ∈ targets)).
Proof.
  intros Hty Hroom Hclient s' client' targets.
  assert (s' =
            emit (map (fun w' =>
                         WsSend w' (FPresence Awareness (userId client)
                                      (getPresenceList
                                         (with_clientObjs
                                            (<[cref := client']> (clientObjs s))
                                            s) room))) targets)
              (with_roomObjs
                 (<[r := set_lastActivity tActivity room]> (roomObjs s))
                 (with_clientObjs (<[cref := client']> (clientObjs s)) s)))
    as Hs'.
  { subst s'. unfold handleMessage. rewrite Hty, !typeIs_string.
    rewrite bool_decide_eq_false_2 by discriminate.
    rewrite bool_decide_eq_true_2 by done. cbv zeta.
    unfold handleAwareness, broadcastPresence. cbv zeta.
    destruct s as [rs c2r itv robjs cobjs socks hs ts tr nref].
    simpl in Hroom, Hclient. eval_state.
    rewrite !lookup_alter_eq, Hclient, Hroom.
    cbn [fmap option_fmap option_map]. eval_state.
    rewrite (alter_alt_Some _ _ _ _ Hroom).
    rewrite alter_alter_eq, (alter_alt_Some _ _ _ _ Hclient).
    assert (forall c,
               userId
                 (match truthy (WSMessage.userColor m) with
                  | Some n =>
                      set_userColor n
                        match truthy (WSMessage.userName m) with
                        | Some n0 => set_userName n0 c
                        | None => c
                        end
                  | None =>
                      match truthy (WSMessage.userName m) with
                      | Some n0 => set_userName n0 c
                      | None => c
                      end
                  end) = userId c) as Huid.
    { intros c. by destruct (truthy (WSMessage.userColor m)),
        (truthy (WSMessage.userName m)). }
    assert ((match truthy (WSMessage.userColor m) with
             | Some n =>
                 set_userColor n
                   match truthy (WSMessage.userName m) with
                   | Some n0 => set_userName n0 (set_lastSeen tSeen client)
                   | None => set_lastSeen tSeen client
                   end
             | None =>
                 match truthy (WSMessage.userName m) with
                 | Some n0 => set_userName n0 (set_lastSeen tSeen client)
                 | None => set_lastSeen tSeen client
                 end
             end) = client') as Hcl.
    { subst client'. by destruct (truthy (WSMessage.userColor m)),
        (truthy (WSMessage.userName m)). }
    cbn [compose]. rewrite Hcl. simpl.
    f_equal. f_equal. f_equal. subst targets.
    apply openTargets_ext; [done|]. simpl. intros ref.
    destruct (decide (cref = ref)) as [->|Hne].
    - by rewrite lookup_insert_eq, Hclient.
    - by rewrite lookup_insert_ne. }
  rewrite Hs'. simpl. split; [done|]. split; [done|]. split; [done|].
  intros Hin. split.
  - unfold getPresenceList. apply list_elem_of_omap.
    exists (userId client, cref). split; [done|]. simpl.
    by rewrite lookup_insert_eq.
  - intros Hopen. subst targets. apply elem_of_openTargets.
    by exists (userId client), cref, client.
Qed.

(** X5.  A [cursor] message stores the cursor on the sender's record and
    sends one [cursor] frame, carrying the sender's id, name, colour and
    the new cursor, to every open connection registered under another
    participant id; the sender gets none, and the room's document and
    membership are untouched. *)
Theorem cursor_forwarded (w r cref : nat) (m : WSMessage.t)
    (tSeen tActivity : Z) s room client :
  WSMessage.type m = TypeString "cursor" ->
  roomObjs s !! r = Some room ->
  clientObjs s !! cref = Some client ->
  let s' := handleMessage w r cref (JsonValue m) tSeen tActivity s in
  let frame :=
    FCursor (WSMessage.documentId m) (userId client) (userName client)
      (userColor client) (WSMessage.cursor m) in
  let targets :=
    openTargets s (fun k => bool_decide (k ≠ userId client)) (clients room) in
  clientObjs s' =
    <[cref := set_cursor (WSMessage.cursor m) (set_lastSeen tSeen client)]>
      (clientObjs s)
  /\ roomObjs s' = <[r := set_lastActivity tActivity room]> (roomObjs s)
  /\ trace s' = trace s ++ map (fun w' => WsSend w' frame) targets
  /\ (forall w',
        w' ∈ targets <->
        exists uid' cref' c',
          (uid', cref') ∈ clients room
          /\ clientObjs s !! cref' = Some c'
          /\ uid' ≠ userId client
          /\ sockets s !! ws c' = Some OPEN
          /\ w' = ws c').
Proof.
  intros Hty Hroom Hclient s' frame targets.
  assert (s' =
            emit (map (fun w' => WsSend w' frame) targets)
              (with_roomObjs
                 (<[r := set_lastActivity tActivity room]> (roomObjs s))
                 (with_clientObjs
                    (<[cref := set_cursor (WSMessage.cursor m)
                                 (set_lastSeen tSeen client)]> (clientObjs s))
                    s))) as Hs'.
  { subst s'. unfold handleMessage. rewrite Hty, !typeIs_string.
    rewrite !bool_decide_eq_false_2 by discriminate.
    rewrite bool_decide_eq_true_2 by done. cbv zeta.
    unfold handleCursor. cbv zeta.
    destruct s as [rs c2r itv robjs cobjs socks hs ts tr nref].
    simpl in Hroom, Hclient. eval_state.
    rewrite !lookup_alter_eq, Hclient, Hroom.
    cbn [fmap option_fmap option_map]. eval_state.
    rewrite (alter_alt_Some _ _ _ _ Hroom).
    rewrite alter_alter_eq, (alter_alt_Some _ _ _ _ Hclient).
    cbn [compose]. simpl. f_equal. f_equal. f_equal. subst targets.
    apply openTargets_ext; [done|]. simpl. intros ref.
    destruct (decide (cref = ref)) as [->|Hne].
    - by rewrite lookup_insert_eq, Hclient.
    - by rewrite lookup_insert_ne. }
  rewrite Hs'. simpl. split; [done|]. split; [done|]. split; [done|].
  intros w'. subst targets. rewrite elem_of_openTargets. split.
  - intros (k & cr & c & Hin & Hc & Hk & Ho & ->).
    apply bool_decide_eq_true in Hk. by exists k, cr, c.
  - intros (k & cr & c & Hin & Hc & Hk & Ho & ->).
    exists k, cr, c. by rewrite bool_decide_eq_true.
Qed.

Lemma handleDisconnection_state (w r : nat) (uid : string) s room :
  roomObjs s !! r = Some room ->
  let rest := JsMap.delete uid (clients room) in
  let room' := set_clients rest room in
  handleDisconnection w r uid s =
    with_timers
      (timers s ++ if decide (rest = []) then [mkTimer 60000 r] else [])
      (emit (map (fun w' => WsSend w' (FPresence Leave uid
                                         (getPresenceList s room')))
               (openTargets s (fun _ => true) rest))
         (with_clientToRoom (JsMap.delete w (clientToRoom s))
            (with_roomObjs (<[r := room']> (roomObjs s)) s))).
Proof.
  intros Hroom rest room'. unfold handleDisconnection, broadcastPresence.
  destruct s as [rs c2r itv robjs cobjs socks hs ts tr nref].
  simpl in Hroom. eval_state.
  rewrite !lookup_alter_eq, Hroom. cbn [fmap option_fmap option_map].
  eval_state. rewrite !lookup_alter_eq, Hroom.
  cbn [fmap option_fmap option_map]. rewrite (alter_alt_Some _ _ _ _ Hroom).
  fold rest room'. cbn [clients set_clients]. unfold JsMap.size.
  destruct rest as [|e rest'] eqn:Hrest; simpl.
  - by rewrite app_nil_r.
  - by rewrite app_nil_r.
Qed.

(** X6.  When a socket's ['close'] event arrives, the entry under the
    handler's participant id leaves the room's client map, whichever
    connection that entry belonged to; the other entries and the document
    stay.  One [leave] presence update goes to the open sockets of the
    remaining entries and never to the closed socket, the registry keeps
    the room, and a 60000 ms timer for the room is added exactly when the
    client map is left empty. *)
Theorem closed_socket_leaves_room (w : nat) s (h : Handler) room :
  handlers s !! w = Some h ->
  roomObjs s !! h_room h = Some room ->
  NoDup (JsMap.keys (clients room)) ->
  let s' := wsClosed w s in
  exists room' targets,
    roomObjs s' !! h_room h = Some room'
    /\ doc room' = doc room
    /\ JsMap.get (h_userId h) (clients room') = None
    /\ (forall k, k ≠ h_userId h ->
          JsMap.get k (clients room') = JsMap.get k (clients room))
    /\ rooms s' = rooms s
    /\ clientToRoom s' = JsMap.delete w (clientToRoom s)
    /\ trace s' =
         trace s ++
           map (fun w' => WsSend w' (FPresence Leave (h_userId h)
                                       (getPresenceList s room'))) targets
    /\ (forall w',
          w' ∈ targets <->
          exists k cref c,
            (k, cref) ∈ clients room'
            /\ clientObjs s !! cref = Some c
            /\ ws c = w'
            /\ sockets s !! w' = Some OPEN
            /\ w' ≠ w)
    /\ timers s' =
         timers s ++
           if decide (clients room' = []) then [mkTimer 60000 (h_room h)]
           else [].
Proof.
  intros Hh Hroom Hnd s'. subst s'. unfold wsClosed.
  replace (handlers (with_sockets (<[w:=CLOSED]> (sockets s)) s))
    with (handlers s) by by destruct s.
  rewrite Hh.
  rewrite (handleDisconnection_state w (h_room h) (h_userId h) _ room)
    by by destruct s.
  set (rest := JsMap.delete (h_userId h) (clients room)).
  exists (set_clients rest room),
    (openTargets (with_sockets (<[w:=CLOSED]> (sockets s)) s)
       (fun _ => true) rest).
  destruct s as [rs c2r itv robjs cobjs socks hs ts tr nref].
  simpl in Hh, Hroom. eval_state. cbn [roomObjs clientObjs sockets rooms].
  split; [by rewrite lookup_insert_eq|]. split; [done|].
  split; [by apply JsMapFacts.get_delete_eq|].
  split; [intros k Hk; by apply JsMapFacts.get_delete_ne|].
  split; [done|]. split; [done|]. split; [done|]. split; [|done].
  intros w'. rewrite elem_of_openTargets. simpl. split.
  - intros (k & cr & c & Hin & Hc & _ & Ho & ->). exists k, cr, c.
    destruct (decide (w = ws c)) as [->|Hne].
    + by rewrite lookup_insert_eq in Ho.
    + rewrite lookup_insert_ne in Ho by done. done.
  - intros (k & cr & c & Hin & Hc & <- & Ho & Hne). exists k, cr, c.
    rewrite lookup_insert_ne by done. done.
Qed.

Lemma roomTimeout_cases (r : nat) s :
  roomTimeout r s = s
  \/ exists room cur found,
       roomObjs s !! r = Some room
       /\ JsMap.get (guid (doc room)) (rooms s) = Some cur
       /\ roomObjs s !! cur = Some found
       /\ clients found = []
       /\ roomTimeout r s =
            with_rooms (JsMap.delete (guid (doc room)) (rooms s))
              (with_roomObjs (<[cur := destroy_doc found]> (roomObjs s)) s).
Proof.
  unfold roomTimeout. destruct (roomObjs s !! r) as [room|] eqn:Hr; [|by left].
  destruct (JsMap.get (guid (doc room)) (rooms s)) as [cur|] eqn:Hg;
    [|by left].
  destruct (roomObjs s !! cur) as [found|] eqn:Hc; [|by left].
  destruct (decide (JsMap.size (clients found) = 0%nat)) as [Hz|]; [|by left].
  right. exists room, cur, found. repeat (split; [done|]).
  split; [|done]. by apply nil_length_inv.
Qed.

(** X7.  A grace timer that comes due never disposes a room that has a
    client: whichever room armed the timer, every registered room with a
    non-empty client map is still registered afterwards, unchanged, and
    the callback sends nothing, closes nothing and touches no client
    record. *)
Theorem timer_spares_occupied_room s (k : string) (cur : nat) room :
  JsMap.get k (rooms s) = Some cur ->
  roomObjs s !! cur = Some room ->
  clients room ≠ [] ->
  let s' := fireTimer s in
  JsMap.get k (rooms s') = Some cur
  /\ roomObjs s' !! cur = Some room
  /\ trace s' = trace s
  /\ sockets s' = sockets s
  /\ clientObjs s' = clientObjs s
  /\ clientToRoom s' = clientToRoom s.
Proof.
  intros Hk Hroom Hne s'. subst s'. unfold fireTimer.
  destruct (timers s) as [|t rest] eqn:Ht; [done|].
  set (s0 := with_timers rest s).
  assert (rooms s0 = rooms s /\ roomObjs s0 = roomObjs s
          /\ trace s0 = trace s /\ sockets s0 = sockets s
          /\ clientObjs s0 = clientObjs s
          /\ clientToRoom s0 = clientToRoom s) as (E1 & E2 & E3 & E4 & E5 & E6)
    by by destruct s.
  rewrite <- E1 in Hk. rewrite <- E2 in Hroom.
  rewrite <- E3, <- E4, <- E5, <- E6. clear E1 E2 E3 E4 E5 E6.
  destruct (roomTimeout_cases (t_room t) s0)
    as [->|(armed & cur' & found & _ & Hg & Hf & Hemp & ->)]; [done|].
  destruct s0 as [rs c2r itv robjs cobjs socks hs ts tr nref].
  simpl in *.
  assert (cur' ≠ cur) as Hcur by (intros ->; congruence).
  assert (guid (doc armed) ≠ k) as Hkey by (intros <-; congruence).
  rewrite JsMapFacts.get_delete_ne by done.
  rewrite lookup_insert_ne by done. done.
Qed.

(** X8.  What a due grace timer does dispose: the callback looks the
    registry up under the [guid] of the document of the room that armed
    it, and when an empty room is registered under that key, that room's
    document is destroyed and the key leaves the registry; the other keys
    stay, the timer is consumed, and nothing is sent. *)
Theorem timer_disposes_room_under_guid s (t : Timer) (rest : list Timer)
    armed (cur : nat) found :
  timers s = t :: rest ->
  roomObjs s !! t_room t = Some armed ->
  JsMap.get (guid (doc armed)) (rooms s) = Some cur ->
  roomObjs s !! cur = Some found ->
  clients found = [] ->
  NoDup (JsMap.keys (rooms s)) ->
  let s' := fireTimer s in
  JsMap.get (guid (doc armed)) (rooms s') = None
  /\ (forall k, k ≠ guid (doc armed) ->
        JsMap.get k (rooms s') = JsMap.get k (rooms s))
  /\ roomObjs s' = <[cur := destroy_doc found]> (roomObjs s)
  /\ (isDestroyed ∘ doc <$> roomObjs s' !! cur) = Some true
  /\ timers s' = rest
  /\ trace s' = trace s.
Proof.
  intros Ht Harmed Hg Hfound Hemp Hnd s'. subst s'. unfold fireTimer.
  rewrite Ht. unfold roomTimeout.
  destruct s as [rs c2r itv robjs cobjs socks hs ts tr nref].
  simpl in *. rewrite Harmed, Hg, Hfound, Hemp. simpl.
  split; [by apply JsMapFacts.get_delete_eq|].
  split; [intros k Hk; by apply JsMapFacts.get_delete_ne|].
  split; [done|]. by rewrite lookup_insert_eq.
Qed.

Lemma closing_idem st : closing (closing st) = closing st.
Proof. by destruct st. Qed.

Lemma lookup_foldl_closing (l : list nat) : forall (m : gmap nat ReadyState) w,
  foldl (fun m w => alter closing w m) m l !! w =
    if decide (w ∈ l) then closing <$> m !! w else m !! w.
Proof.
  induction l as [|a l IH]; intros m w; cbn [foldl].
  - destruct (decide (w ∈ [])) as [Hin|_]; [|done].
    by apply elem_of_nil in Hin.
  - rewrite IH. destruct (decide (w ∈ a :: l)) as [Hin|Hin].
    + destruct (decide (a = w)) as [->|Hne].
      * rewrite lookup_alter_eq. destruct (decide (w ∈ l)); [|done].
        destruct (m !! w) as [st|]; simpl; [|done]. by rewrite closing_idem.
      * rewrite lookup_alter_ne by done.
        apply elem_of_cons in Hin as [->|Hin]; [done|].
        by destruct (decide (w ∈ l)).
    + apply not_elem_of_cons in Hin as [Hne Hin].
      rewrite lookup_alter_ne by done. by destruct (decide (w ∈ l)).
Qed.

Lemma closeClients_spec (l : list (string * nat)) : forall s,
  foldl closeClient s l =
    emit (map (fun w => WsClose w 1001 "Server shutting down")
            (memberSockets s l))
      (with_sockets
         (foldl (fun m w => alter closing w m) (sockets s)
            (memberSockets s l)) s).
Proof.
  induction l as [|e l IH]; intros s; simpl.
  - destruct s. unfold memberSockets. simpl. eval_state.
    by rewrite app_nil_r.
  - rewrite IH. unfold closeClient, memberSockets. simpl.
    destruct (clientObjs s !! e.2) as [c|] eqn:Hc; simpl; [|done].
    destruct s as [rs c2r itv robjs cobjs socks hs ts tr nref].
    eval_state. simpl. by rewrite <- app_assoc.
Qed.

Lemma roomSockets_cons s (e : string * nat) (l : list (string * nat)) :
  roomSockets s (e :: l) =
    from_option (fun room => memberSockets s (clients room)) []
      (roomObjs s !! e.2) ++ roomSockets s l.
Proof. reflexivity. Qed.

Lemma roomSockets_ext s1 s2 (l : list (string * nat)) :
  clientObjs s1 = clientObjs s2 ->
  (forall r, clients <$> roomObjs s1 !! r = clients <$> roomObjs s2 !! r) ->
  roomSockets s1 l = roomSockets s2 l.
Proof.
  intros Hc Hr. induction l as [|e l IH]; [done|].
  rewrite !roomSockets_cons, IH. f_equal. specialize (Hr e.2).
  destruct (roomObjs s1 !! e.2) as [r1|], (roomObjs s2 !! e.2) as [r2|];
    simpl in *; try done.
  unfold memberSockets. rewrite Hc. congruence.
Qed.

Lemma elem_of_roomSockets s (l : list (string * nat)) w :
  w ∈ roomSockets s l <->
  exists docId r room k cref c,
    (docId, r) ∈ l /\ roomObjs s !! r = Some room
    /\ (k, cref) ∈ clients room /\ clientObjs s !! cref = Some c
    /\ ws c = w.
Proof.
  unfold roomSockets. rewrite list_elem_of_bind. split.
  - intros ([docId r] & Hw & Hin). simpl in Hw.
    destruct (roomObjs s !! r) as [room|] eqn:Hr; simpl in Hw;
      [|by apply elem_of_nil in Hw].
    apply list_elem_of_omap in Hw as ([k cref] & Hk & Hc). simpl in Hc.
    destruct (clientObjs s !! cref) as [c|] eqn:Hcl; simpl in Hc; [|done].
    exists docId, r, room, k, cref, c. repeat split; try done. congruence.
  - intros (docId & r & room & k & cref & c & Hin & Hr & Hk & Hc & <-).
    exists (docId, r). split; [|done]. simpl. rewrite Hr. simpl.
    apply list_elem_of_omap. exists (k, cref). split; [done|].
    simpl. by rewrite Hc.
Qed.

Lemma closeRooms_spec (l : list (string * nat)) : forall s,
  let s' := foldl closeRoom s l in
  (rooms s' = rooms s /\ clientToRoom s' = clientToRoom s
   /\ clientObjs s' = clientObjs s /\ handlers s' = handlers s
   /\ timers s' = timers s /\ nextRef s' = nextRef s)
  /\ trace s' =
       trace s ++ map (fun w => WsClose w 1001 "Server shutting down")
                    (roomSockets s l)
  /\ sockets s' =
       foldl (fun m w => alter closing w m) (sockets s) (roomSockets s l)
  /\ (forall r,
        roomObjs s' !! r =
          if decide (r ∈ l.*2) then destroy_doc <$> roomObjs s !! r
          else roomObjs s !! r).
Proof.
  induction l as [|e l IH]; intros s; cbn [foldl].
  - simpl. split; [done|]. split; [by rewrite app_nil_r|]. split; [done|].
    intros r. destruct (decide (r ∈ [])) as [Hin|_]; [|done].
    by apply elem_of_nil in Hin.
  - set (s1 := closeRoom s e).
    assert ((rooms s1 = rooms s /\ clientToRoom s1 = clientToRoom s
             /\ clientObjs s1 = clientObjs s /\ handlers s1 = handlers s
             /\ timers s1 = timers s /\ nextRef s1 = nextRef s)
            /\ trace s1 =
                 trace s ++ map (fun w => WsClose w 1001 "Server shutting down")
                              (roomSockets s [e])
            /\ sockets s1 =
                 foldl (fun m w => alter closing w m) (sockets s)
                   (roomSockets s [e])
            /\ roomObjs s1 = alter destroy_doc e.2 (roomObjs s))
      as (Hsame & Ht & Hs & Hr).
    { subst s1. unfold closeRoom. rewrite roomSockets_cons.
      change (roomSockets s []) with (@nil nat).
      destruct (roomObjs s !! e.2) as [room|] eqn:Hroom; simpl.
      - rewrite closeClients_spec, app_nil_r.
        destruct s as [rs c2r itv robjs cobjs socks hs ts tr nref].
        by eval_state.
      - rewrite app_nil_r. repeat split; try done.
        apply map_eq. intros r. destruct (decide (e.2 = r)) as [<-|Hne].
        + by rewrite lookup_alter_eq, Hroom.
        + by rewrite lookup_alter_ne. }
    destruct (IH s1) as (Hsame' & Ht' & Hs' & Hr').
    assert (roomSockets s1 l = roomSockets s l) as Hrs.
    { apply roomSockets_ext; [apply Hsame|]. intros r. rewrite Hr.
      destruct (decide (e.2 = r)) as [<-|Hne].
      - rewrite lookup_alter_eq. by destruct (roomObjs s !! e.2).
      - by rewrite lookup_alter_ne. }
    rewrite Hrs in Ht', Hs'.
    assert (roomSockets s (e :: l) = roomSockets s [e] ++ roomSockets s l)
      as ->.
    { rewrite !roomSockets_cons. change (roomSockets s []) with (@nil nat).
      by rewrite app_nil_r. }
    split; [intuition congruence|].
    split; [by rewrite Ht', Ht, map_app, app_assoc|].
    split; [by rewrite Hs', Hs, foldl_app|].
    intros r. rewrite Hr', Hr, fmap_cons.
    destruct (decide (r ∈ e.2 :: l.*2)) as [Hin|Hin].
    + destruct (decide (e.2 = r)) as [<-|Hne].
      * rewrite lookup_alter_eq. destruct (decide (e.2 ∈ l.*2)); [|done].
        by destruct (roomObjs s !! e.2).
      * rewrite lookup_alter_ne by done.
        apply elem_of_cons in Hin as [->|Hin]; [done|].
        by destruct (decide (r ∈ l.*2)).
    + apply not_elem_of_cons in Hin as [Hne Hin].
      rewrite lookup_alter_ne by done. by destruct (decide (r ∈ l.*2)).
Qed.

(** X9.  [close()] empties the registry and the socket index, calls
    [close(1001, 'Server shutting down')] once per entry of every
    registered room's client map, in registry order, and destroys every
    registered room's document.  It sends no [leave] update, leaves the
    pending grace timers and the sockets' handlers in place, and does not
    clear the client maps of the rooms. *)
Theorem close_shuts_down s :
  let s' := (close s).1 in
  (close s).2 = [ClearInterval; WssClose]
  /\ rooms s' = [] /\ clientToRoom s' = []
  /\ trace s' =
       trace s ++ map (fun w => WsClose w 1001 "Server shutting down")
                    (roomSockets s (rooms s))
  /\ (forall w,
        w ∈ roomSockets s (rooms s) <->
        exists docId r room k cref c,
          (docId, r) ∈ rooms s /\ roomObjs s !! r = Some room
          /\ (k, cref) ∈ clients room /\ clientObjs s !! cref = Some c
          /\ ws c = w)
  /\ (forall w,
        sockets s' !! w =
          if decide (w ∈ roomSockets s (rooms s))
          then closing <$> sockets s !! w else sockets s !! w)
  /\ (forall r,
        roomObjs s' !! r =
          if decide (r ∈ (rooms s).*2) then destroy_doc <$> roomObjs s !! r
          else roomObjs s !! r)
  /\ (forall docId,
        getClientCount docId s' = 0%nat /\ getDocumentState docId s' = None)
  /\ timers s' = timers s
  /\ handlers s' = handlers s
  /\ clientObjs s' = clientObjs s.
Proof.
  intros s'. subst s'. unfold close. cbn [fst snd].
  destruct (closeRooms_spec (rooms s) s)
    as ((_ & _ & Hc & Hh & Hti & _) & Ht & Hs & Hr).
  set (s1 := foldl closeRoom s (rooms s)) in *.
  replace (trace (with_clientToRoom [] (with_rooms [] s1))) with (trace s1)
    by by destruct s1.
  replace (sockets (with_clientToRoom [] (with_rooms [] s1)))
    with (sockets s1) by by destruct s1.
  replace (roomObjs (with_clientToRoom [] (with_rooms [] s1)))
    with (roomObjs s1) by by destruct s1.
  replace (timers (with_clientToRoom [] (with_rooms [] s1)))
    with (timers s1) by by destruct s1.
  replace (handlers (with_clientToRoom [] (with_rooms [] s1)))
    with (handlers s1) by by destruct s1.
  replace (clientObjs (with_clientToRoom [] (with_rooms [] s1)))
    with (clientObjs s1) by by destruct s1.
  split; [done|]. split; [by destruct s1|]. split; [by destruct s1|].
  split; [done|]. split; [apply elem_of_roomSockets|].
  split; [intros w; rewrite Hs; apply lookup_foldl_closing|].
  split; [done|]. split; [|done].
  intros docId. unfold getClientCount, getDocumentState. by destruct s1.
Qed.

(** X10.  [loadDocumentState] applies the state to the document of the
    room registered under the id, making the room when there is none, and
    [getDocumentState] then returns the encoding of the document as the
    call left it.  The call passes an exception of the library on, sends
    nothing to the clients of the room, arms no grace timer and changes
    no client count. *)
Theorem loaded_state_is_returned (documentId : string) (state : bytes)
    (now : Z) (newGuid : string) s :
  (forall r, JsMap.get documentId (rooms s) = Some r ->
             is_Some (roomObjs s !! r)) ->
  let res := Y_applyUpdate (currentStore documentId s) state in
  let s' := (loadDocumentState documentId state now newGuid s).1 in
  getDocumentState documentId s' = Some (Y_encodeStateAsUpdate (leftDoc res))
  /\ (loadDocumentState documentId state now newGuid s).2 =
       match res with Applied _ => Normal | Thrown _ => Threw end
  /\ getClientCount documentId s' = getClientCount documentId s
  /\ trace s' = trace s
  /\ timers s' = timers s
  /\ clientObjs s' = clientObjs s
  /\ sockets s' = sockets s.
Proof.
  intros Hwf res s'. subst res s'.
  unfold loadDocumentState, getOrCreateRoom, currentStore, getDocumentState,
    getClientCount.
  destruct (JsMap.get documentId (rooms s)) as [r|] eqn:Hg.
  - destruct (Hwf r eq_refl) as [room Hroom]. rewrite Hroom. simpl.
    destruct s as [rs c2r itv robjs cobjs socks hs ts tr nref].
    simpl in *. rewrite Hg, lookup_insert_eq. simpl.
    by destruct (Y_applyUpdate (store (doc room)) state).
  - destruct s as [rs c2r itv robjs cobjs socks hs ts tr nref].
    simpl in *. rewrite lookup_insert_eq. simpl.
    rewrite JsMapFacts.get_set_eq, lookup_insert_eq. simpl.
    by destruct (Y_applyUpdate Y_Doc state).
Qed.


Lemma sweep_fixed now s :
  (forall docId r room e,
     (docId, r) ∈ rooms s -> roomObjs s !! r = Some room ->
     e ∈ clients room -> staleRef now s e.2 = false) ->
  cleanupStalePresence now s = s.
Proof.
  intros Hfresh. unfold cleanupStalePresence.
  apply JsMapMore.foldl_fixed. intros [docId r] Hin. unfold sweepRoom.
  simpl. destruct (roomObjs s !! r) as [room|] eqn:Hroom; [|done].
  apply JsMapMore.foldl_fixed. intros e He.
  apply sweepClient_other. by eapply Hfresh.
Qed.

(** X11.  A sweep that finds every listed connection seen within the
    window changes nothing at all: no socket closed, no frame sent, no
    map touched.  The window is closed at its end: a connection last seen
    exactly 5000 ms ago stays. *)
Theorem sweep_of_fresh_clients_is_noop (now : Z) s :
  (forall docId r room k cref c,
     (docId, r) ∈ rooms s -> roomObjs s !! r = Some room ->
     (k, cref) ∈ clients room -> clientObjs s !! cref = Some c ->
     (now - lastSeen c <= 5000)%Z) ->
  cleanupStalePresence now s = s.
Proof.
  intros Hfresh. apply sweep_fixed. intros docId r room [k cref] Hin Hroom He.
  unfold staleRef. simpl.
  destruct (clientObjs s !! cref) as [c|] eqn:Hc; simpl; [|done].
  apply isStale_false. by eapply Hfresh.
Qed.

Lemma sweepClient_keeps now r s e :
  timers (sweepClient now r s e) = timers s
  /\ handlers (sweepClient now r s e) = handlers s
  /\ nextRef (sweepClient now r s e) = nextRef s.
Proof.
  unfold sweepClient. destruct (clientObjs s !! e.2) as [c|]; [|done].
  destruct (isStale now c); [|done]. unfold broadcastPresence.
  destruct s as [rs c2r itv robjs cobjs socks hs ts tr nref]. eval_state.
  by destruct (alter _ r robjs !! r).
Qed.

Lemma foldl_keeps {A B : Type} (g : Server D -> B)
    (f : Server D -> A -> Server D) (l : list A) :
  (forall s x, g (f s x) = g s) -> forall s, g (foldl f s l) = g s.
Proof.
  intros Hf. induction l as [|x l IH]; intros s; simpl; [done|].
  by rewrite IH, Hf.
Qed.

(** X12.  The sweep arms no grace timer and removes no handler: a room
    that the sweep empties stays registered with no timer pending for it
    until the ['close'] event of a socket arrives, and the client records
    of the evicted connections stay in place for their handlers. *)
Theorem sweep_arms_no_timer (now : Z) s :
  let s' := cleanupStalePresence now s in
  timers s' = timers s
  /\ handlers s' = handlers s
  /\ rooms s' = rooms s
  /\ clientObjs s' = clientObjs s.
Proof.
  intros s'. subst s'. unfold cleanupStalePresence.
  assert (forall s0 e, timers (sweepRoom now s0 e) = timers s0) as Ht.
  { intros s0 e. unfold sweepRoom. destruct (roomObjs s0 !! e.2); [|done].
    apply (foldl_keeps timers). intros s1 x.
    apply sweepClient_keeps. }
  assert (forall s0 e, handlers (sweepRoom now s0 e) = handlers s0) as Hh.
  { intros s0 e. unfold sweepRoom. destruct (roomObjs s0 !! e.2); [|done].
    apply (foldl_keeps handlers). intros s1 x.
    apply sweepClient_keeps. }
  split; [by apply (foldl_keeps timers)|].
  split; [by apply (foldl_keeps handlers)|].
  destruct (sweepRooms_frame now (rooms s) s) as (Hc & Hr & _).
  done.
Qed.

Lemma sweep_room_result now s (docId : string) (r : nat) room :
  NoDup (rooms s).*2 ->
  (docId, r) ∈ rooms s ->
  roomObjs s !! r = Some room ->
  NoDup (JsMap.keys (clients room)) ->
  roomObjs (cleanupStalePresence now s) !! r =
    Some (set_clients
            (filter (fun e => staleRef now s e.2 = false) (clients room))
            room).
Proof.
  intros Hrefs Hreg Hroom Hkeys.
  apply list_elem_of_split in Hreg as (pre & post & Hsplit).
  assert ((r ∉ pre.*2) /\ (r ∉ post.*2)) as [Hpre Hpost].
  { rewrite Hsplit, fmap_app in Hrefs. simpl in Hrefs.
    apply NoDup_app in Hrefs as (_ & Hd & Hn).
    apply NoDup_cons in Hn as [Hn _]. split; [|done].
    intros Hr. apply (Hd _ Hr). left. }
  unfold cleanupStalePresence. rewrite Hsplit, foldl_app. simpl.
  set (s1 := foldl (sweepRoom now) s pre).
  pose proof (sweepRooms_frame now pre s) as F1. fold s1 in F1.
  destruct F1 as (Hc1 & _ & _ & _ & Ho1).
  assert (roomObjs s1 !! r = Some room) as Hroom1 by (by rewrite Ho1).
  assert (sweepRoom now s1 (docId, r)
          = foldl (sweepClient now r) s1 (clients room)) as ->.
  { unfold sweepRoom. simpl. by rewrite Hroom1. }
  set (s2 := foldl (sweepClient now r) s1 (clients room)).
  destruct (sweepClients_spec now r (clients room) [] s1 room Hroom1
              eq_refl Hkeys) as [_ Hroom2].
  fold s2 in Hroom2. simpl in Hroom2.
  destruct (sweepRooms_frame now post s2) as (_ & _ & _ & _ & Ho3).
  rewrite Ho3, Hroom2 by done. f_equal. f_equal.
  apply list_filter_iff. intros e. unfold staleRef. by rewrite Hc1.
Qed.

(** X13.  In a state where the registry gives each room one key and the
    client maps have unique keys, a sweep leaves in every registered room
    exactly the entries that were not stale, in their order, with the
    document as it was; a second sweep at the same instant then changes
    nothing. *)
Theorem sweep_idempotent (now : Z) s :
  NoDup (rooms s).*2 ->
  (forall docId r room,
     (docId, r) ∈ rooms s -> roomObjs s !! r = Some room ->
     NoDup (JsMap.keys (clients room))) ->
  let s' := cleanupStalePresence now s in
  (forall docId r room,
     (docId, r) ∈ rooms s -> roomObjs s !! r = Some room ->
     roomObjs s' !! r =
       Some (set_clients
               (filter (fun e => staleRef now s e.2 = false) (clients room))
               room))
  /\ cleanupStalePresence now s' = s'.
Proof.
  intros Hrefs Hkeys s'.
  assert (forall docId r room,
            (docId, r) ∈ rooms s -> roomObjs s !! r = Some room ->
            roomObjs s' !! r =
              Some (set_clients
                      (filter (fun e => staleRef now s e.2 = false)
                         (clients room)) room)) as Hres.
  { intros docId r room Hin Hroom.
    apply (sweep_room_result now s docId); eauto. }
  split; [exact Hres|].
  destruct (sweepRooms_frame now (rooms s) s) as (Hc & Hr & _ & _ & Ho).
  fold (cleanupStalePresence now s) in Hc, Hr, Ho. fold s' in Hc, Hr, Ho.
  apply sweep_fixed. intros docId r room' e Hin Hroom' He.
  rewrite Hr in Hin.
  destruct (roomObjs s !! r) as [room|] eqn:Hroom.
  - rewrite (Hres docId r room Hin Hroom) in Hroom'.
    injection Hroom' as <-. simpl in He.
    apply list_elem_of_filter in He as [Hf _].
    unfold staleRef in *. by rewrite Hc.
  - exfalso. clear He. revert Hroom'. subst s'.
    unfold cleanupStalePresence.
    assert (forall l s0, roomObjs s0 !! r = None ->
              roomObjs (foldl (sweepRoom now) s0 l) !! r = None) as Hnone.
    { induction l as [|x l IH]; intros s0 Hz; simpl; [done|].
      apply IH. unfold sweepRoom.
      destruct (roomObjs s0 !! x.2) as [rm|] eqn:Hx; [|done].
      assert (forall td s1, roomObjs s1 !! r = None ->
                roomObjs (foldl (sweepClient now x.2) s1 td) !! r = None)
        as Hin2.
      { induction td as [|y td IH2]; intros s1 H1'; simpl; [done|].
        apply IH2. unfold sweepClient.
        destruct (clientObjs s1 !! y.2) as [c|]; [|done].
        destruct (isStale now c); [|done]. unfold broadcastPresence.
        destruct s1 as [rs c2r itv robjs cobjs socks hs ts tr nref].
        eval_state. simpl in H1'.
        assert (alter (fun room0 => set_clients
                         (JsMap.delete y.1 (clients room0)) room0)
                  x.2 robjs !! r = None) as Ha.
        { destruct (decide (x.2 = r)) as [->|Hne].
          - by rewrite lookup_alter_eq, H1'.
          - by rewrite lookup_alter_ne. }
        by destruct (alter _ x.2 robjs !! x.2). }
      by apply Hin2. }
    intros Hroom'. by rewrite Hnone in Hroom'.
Qed.

(** ** References always resolve *)

Lemma keeps_refl s : keeps s s.
Proof.
  split; [done|]. split; [done|]. split; [by eauto|]. split; [done|].
  split; [done|]. intros r room' Hr. by exists room'.
Qed.

Lemma keeps_trans s1 s2 s3 : keeps s1 s2 -> keeps s2 s3 -> keeps s1 s3.
Proof.
  intros (Hn1 & Hh1 & Hc1 & Hd1 & Hr1 & Hm1) (Hn2 & Hh2 & Hc2 & Hd2 & Hr2 & Hm2).
  split; [lia|]. split; [congruence|]. split; [|split; [auto|split; [auto|]]].
  - intros cref c3 H3. destruct (Hc2 _ _ H3) as (c2 & H2 & Hu2 & Hw2).
    destruct (Hc1 _ _ H2) as (c1 & H1' & Hu1 & Hw1).
    exists c1. split; [done|]. split; congruence.
  - intros r room3 H3. destruct (Hm2 _ _ H3) as (room2 & H2 & Hsub2).
    destruct (Hm1 _ _ H2) as (room1 & H1' & Hsub1).
    exists room1. split; [done|]. auto.
Qed.

Lemma resolved_keeps s s' : resolved s -> keeps s s' -> resolved s'.
Proof.
  intros (Hc & Hr & Hm & Hh) (Hn' & Hh' & Hc' & Hd' & Hr' & Hm').
  split; [|split; [|split]].
  - intros cref c Hl. destruct (Hc' _ _ Hl) as (c0 & Hl0 & _).
    specialize (Hc _ _ Hl0). lia.
  - intros r room' Hl. destruct (Hm' _ _ Hl) as (room & Hl0 & _).
    specialize (Hr _ _ Hl0). lia.
  - intros r room' k cref Hl Hin.
    destruct (Hm' _ _ Hl) as (room & Hl0 & Hsub).
    destruct (Hm _ _ _ _ Hl0 (Hsub _ Hin)) as (c0 & Hc0 & Hk).
    destruct (Hd' cref) as [c Hcl]; [by eauto|].
    destruct (Hc' _ _ Hcl) as (c0' & Hc0' & Hu & _).
    exists c. split; [done|]. congruence.
  - intros w h Hl. rewrite Hh' in Hl.
    destruct (Hh _ _ Hl) as (Hroom & c0 & Hc0 & Hu & Hw).
    split; [auto|]. destruct (Hd' (h_client h)) as [c Hcl]; [by eauto|].
    destruct (Hc' _ _ Hcl) as (c0' & Hc0' & Hu' & Hw').
    exists c. split; [done|]. split; congruence.
Qed.

Lemma keeps_same s s' :
  handlers s' = handlers s -> nextRef s' = nextRef s ->
  clientObjs s' = clientObjs s -> roomObjs s' = roomObjs s -> keeps s s'.
Proof.
  intros Hh Hn Hc Hr. split; [lia|]. split; [done|]. rewrite Hc, Hr.
  split; [by eauto|]. split; [done|]. split; [done|].
  intros r room' Hl. by exists room'.
Qed.

Lemma keeps_emit e s : keeps s (emit e s).
Proof. by apply keeps_same. Qed.
Lemma keeps_sockets x s : keeps s (with_sockets x s).
Proof. by apply keeps_same. Qed.
Lemma keeps_timers x s : keeps s (with_timers x s).
Proof. by apply keeps_same. Qed.
Lemma keeps_clientToRoom x s : keeps s (with_clientToRoom x s).
Proof. by apply keeps_same. Qed.
Lemma keeps_rooms x s : keeps s (with_rooms x s).
Proof. by apply keeps_same. Qed.
Lemma keeps_wsClose w code reason s : keeps s (wsClose w code reason s).
Proof. by apply keeps_same. Qed.

Lemma keeps_broadcastPresence r uid action s :
  keeps s (broadcastPresence r uid action s).
Proof.
  unfold broadcastPresence. destruct (roomObjs s !! r);
    [apply keeps_emit|apply keeps_refl].
Qed.

Lemma keeps_alter_client (f : ClientConnection -> ClientConnection) cref s :
  (forall c, userId (f c) = userId c /\ ws (f c) = ws c) ->
  keeps s (with_clientObjs (alter f cref (clientObjs s)) s).
Proof.
  intros Hf. split; [by destruct s|]. split; [by destruct s|].
  replace (roomObjs (with_clientObjs (alter f cref (clientObjs s)) s))
    with (roomObjs s) by by destruct s.
  replace (clientObjs (with_clientObjs (alter f cref (clientObjs s)) s))
    with (alter f cref (clientObjs s)) by by destruct s.
  split; [|split; [|split; [done|]]].
  - intros ref c Hl. destruct (decide (cref = ref)) as [->|Hne].
    + rewrite lookup_alter_eq in Hl.
      destruct (clientObjs s !! ref) as [c0|]; simpl in Hl; [|done].
      injection Hl as <-. exists c0. split; [done|]. apply Hf.
    + rewrite lookup_alter_ne in Hl by done. by exists c.
  - intros ref Hl. destruct (decide (cref = ref)) as [->|Hne].
    + rewrite lookup_alter_eq. by apply fmap_is_Some.
    + by rewrite lookup_alter_ne.
  - intros r room' Hl. by exists room'.
Qed.

Lemma keeps_alter_room (f : DocumentRoom D -> DocumentRoom D) r s :
  (forall room e, e ∈ clients (f room) -> e ∈ clients room) ->
  keeps s (with_roomObjs (alter f r (roomObjs s)) s).
Proof.
  intros Hf. split; [by destruct s|]. split; [by destruct s|].
  replace (clientObjs (with_roomObjs (alter f r (roomObjs s)) s))
    with (clientObjs s) by by destruct s.
  replace (roomObjs (with_roomObjs (alter f r (roomObjs s)) s))
    with (alter f r (roomObjs s)) by by destruct s.
  split; [by eauto|]. split; [done|]. split.
  - intros r' Hl. destruct (decide (r = r')) as [->|Hne].
    + rewrite lookup_alter_eq. by apply fmap_is_Some.
    + by rewrite lookup_alter_ne.
  - intros r' room' Hl. destruct (decide (r = r')) as [->|Hne].
    + rewrite lookup_alter_eq in Hl.
      destruct (roomObjs s !! r') as [room|]; simpl in Hl; [|done].
      injection Hl as <-. exists room. split; [done|]. apply Hf.
    + rewrite lookup_alter_ne in Hl by done. by exists room'.
Qed.

Lemma keeps_insert_room r room room' s :
  roomObjs s !! r = Some room ->
  (forall e, e ∈ clients room' -> e ∈ clients room) ->
  keeps s (with_roomObjs (<[r := room']> (roomObjs s)) s).
Proof.
  intros Hroom Hsub.
  replace (<[r := room']> (roomObjs s))
    with (alter (fun _ => room') r (roomObjs s)).
  - split; [by destruct s|]. split; [by destruct s|].
    replace (clientObjs (with_roomObjs (alter (fun _ => room') r (roomObjs s)) s))
      with (clientObjs s) by by destruct s.
    replace (roomObjs (with_roomObjs (alter (fun _ => room') r (roomObjs s)) s))
      with (alter (fun _ : DocumentRoom D => room') r (roomObjs s))
      by by destruct s.
    split; [by eauto|]. split; [done|]. split.
    + intros r' Hl. destruct (decide (r = r')) as [->|Hne].
      * rewrite lookup_alter_eq. by apply fmap_is_Some.
      * by rewrite lookup_alter_ne.
    + intros r' room'' Hl. destruct (decide (r = r')) as [->|Hne].
      * rewrite lookup_alter_eq, Hroom in Hl. injection Hl as <-.
        by exists room.
      * rewrite lookup_alter_ne in Hl by done. by exists room''.
  - apply map_eq. intros r'. destruct (decide (r = r')) as [->|Hne].
    + by rewrite lookup_alter_eq, lookup_insert_eq, Hroom.
    + by rewrite lookup_alter_ne, lookup_insert_ne.
Qed.

Lemma keeps_handleUpdate r cref m s : keeps s (handleUpdate r cref m s).1.
Proof.
  unfold handleUpdate.
  destruct (WSMessage.data m) as [[payload|]|]; try apply keeps_refl.
  destruct (decide (payload = "")); [apply keeps_refl|].
  destruct (roomObjs s !! r) as [room|] eqn:Hroom; [|apply keeps_refl].
  destruct (clientObjs s !! cref) as [client|]; [|apply keeps_refl].
  destruct (Y_applyUpdate (store (doc room)) (from_base64 payload)); simpl.
  - eapply keeps_trans; [|apply keeps_emit].
    by apply (keeps_insert_room r room).
  - by apply (keeps_insert_room r room).
Qed.

Lemma keeps_handleAwareness r cref m s : keeps s (handleAwareness r cref m s).
Proof.
  unfold handleAwareness. cbv zeta.
  match goal with
  | |- context [with_clientObjs ?x s] => set (s1 := with_clientObjs x s)
  end.
  assert (keeps s s1) as H1.
  { apply keeps_alter_client. intros c.
    destruct (truthy (WSMessage.userName m)),
      (truthy (WSMessage.userColor m)); done. }
  destruct (clientObjs s1 !! cref); [|done].
  eapply keeps_trans; [exact H1|apply keeps_broadcastPresence].
Qed.

Lemma keeps_handleCursor r cref m s : keeps s (handleCursor r cref m s).
Proof.
  unfold handleCursor. cbv zeta.
  match goal with
  | |- context [with_clientObjs ?x s] => set (s1 := with_clientObjs x s)
  end.
  assert (keeps s s1) as H1 by by apply keeps_alter_client.
  destruct (roomObjs s1 !! r); [|done].
  destruct (clientObjs s1 !! cref); [|done].
  eapply keeps_trans; [exact H1|apply keeps_emit].
Qed.

Lemma keeps_handleMessage w r cref parsed tSeen tActivity s :
  keeps s (handleMessage w r cref parsed tSeen tActivity s).
Proof.
  unfold handleMessage. cbv zeta.
  match goal with
  | |- context [with_roomObjs ?x (with_clientObjs ?y s)] =>
      set (s2 := with_roomObjs x (with_clientObjs y s))
  end.
  assert (keeps s s2) as H2.
  { eapply keeps_trans;
      [by apply (keeps_alter_client (set_lastSeen tSeen) cref s)|].
    by apply (keeps_alter_room _ r (with_clientObjs _ s)). }
  destruct parsed as [| |m]; [apply keeps_emit| |].
  { eapply keeps_trans; [exact H2|apply keeps_emit]. }
  destruct (typeIs (WSMessage.type m) "update").
  { pose proof (keeps_handleUpdate r cref m s2) as Hu.
    destruct (handleUpdate r cref m s2) as [s3 []]; simpl in Hu.
    - by eapply keeps_trans.
    - eapply keeps_trans; [|apply keeps_emit]. by eapply keeps_trans. }
  destruct (typeIs (WSMessage.type m) "awareness").
  { eapply keeps_trans; [exact H2|apply keeps_handleAwareness]. }
  destruct (typeIs (WSMessage.type m) "cursor").
  { eapply keeps_trans; [exact H2|apply keeps_handleCursor]. }
  eapply keeps_trans; [exact H2|apply keeps_emit].
Qed.

Lemma keeps_delete_client (uid : string) r s :
  keeps s
    (with_roomObjs
       (alter (fun room => set_clients (JsMap.delete uid (clients room)) room)
          r (roomObjs s)) s).
Proof.
  apply keeps_alter_room. intros room e. simpl.
  apply JsMapFacts.elem_of_delete.
Qed.

Lemma keeps_handleDisconnection w r uid s :
  keeps s (handleDisconnection w r uid s).
Proof.
  unfold handleDisconnection. cbv zeta.
  match goal with
  | |- context [broadcastPresence r uid Leave ?x] =>
      set (s3 := broadcastPresence r uid Leave x)
  end.
  assert (keeps s s3) as H3.
  { eapply keeps_trans; [|apply keeps_broadcastPresence].
    eapply keeps_trans; [|apply keeps_clientToRoom].
    apply keeps_delete_client. }
  destruct (roomObjs s3 !! r) as [room|]; [|done].
  destruct (decide (JsMap.size (clients room) = 0%nat)); [|done].
  eapply keeps_trans; [exact H3|apply keeps_timers].
Qed.

Lemma keeps_sweepClient now r s e : keeps s (sweepClient now r s e).
Proof.
  unfold sweepClient. destruct (clientObjs s !! e.2) as [c|];
    [|apply keeps_refl].
  destruct (isStale now c); [|apply keeps_refl]. cbv zeta.
  eapply keeps_trans; [|apply keeps_broadcastPresence].
  eapply keeps_trans; [|apply keeps_clientToRoom].
  eapply keeps_trans; [apply keeps_wsClose|].
  apply keeps_delete_client.
Qed.

Lemma keeps_foldl {A} (f : Server D -> A -> Server D) (l : list A) :
  (forall s x, keeps s (f s x)) -> forall s, keeps s (foldl f s l).
Proof.
  intros Hf. induction l as [|x l IH]; intros s; simpl; [apply keeps_refl|].
  eapply keeps_trans; [apply Hf|apply IH].
Qed.

Lemma keeps_cleanupStalePresence now s : keeps s (cleanupStalePresence now s).
Proof.
  unfold cleanupStalePresence. apply keeps_foldl. clear s. intros s e.
  unfold sweepRoom. destruct (roomObjs s !! e.2); [|apply keeps_refl].
  apply keeps_foldl. intros s' x. apply keeps_sweepClient.
Qed.

Lemma keeps_roomTimeout r s : keeps s (roomTimeout r s).
Proof.
  destruct (roomTimeout_cases r s)
    as [->|(room & cur & found & _ & _ & Hf & _ & ->)]; [apply keeps_refl|].
  eapply keeps_trans; [|apply keeps_rooms].
  by apply (keeps_insert_room cur found).
Qed.

Lemma resolved_constructor : resolved (constructor (D := D)).
Proof.
  split; [|split; [|split]]; simpl.
  - intros cref c Hl. by rewrite lookup_empty in Hl.
  - intros r room Hl. by rewrite lookup_empty in Hl.
  - intros r room k cref Hl. by rewrite lookup_empty in Hl.
  - intros w h Hl. by rewrite lookup_empty in Hl.
Qed.

Lemma resolved_handleConnection w documentId uid rnd nowRoom nowSeen
    newGuid s :
  (forall r, JsMap.get documentId (rooms s) = Some r ->
             is_Some (roomObjs s !! r)) ->
  resolved s ->
  resolved (handleConnection w documentId uid rnd nowRoom nowSeen newGuid s).
Proof.
  intros Hwf Hres.
  pose proof (getOrCreateRoom_room documentId nowRoom newGuid s Hwf) as Hg.
  destruct (getOrCreateRoom documentId nowRoom newGuid s) as [r s1] eqn:Hgo.
  destruct Hg as ([room Hroom] & _ & _).
  assert (resolved s1) as (Hc & Hr & Hm & Hh).
  { unfold getOrCreateRoom in Hgo.
    destruct (JsMap.get documentId (rooms s)) as [r0|].
    - by injection Hgo as <- <-.
    - injection Hgo as <- <-. destruct Hres as (Hc & Hr & Hm & Hh).
      destruct s as [rs c2r itv robjs cobjs socks hs ts tr nref].
      unfold resolved. simpl in *. split; [|split; [|split]].
      + intros cref c Hl. specialize (Hc _ _ Hl). lia.
      + intros r room0 Hl.
        apply lookup_insert_Some in Hl as [[<- _]|[_ Hl]]; [lia|].
        specialize (Hr _ _ Hl). lia.
      + intros r room0 k cref Hl Hin.
        apply lookup_insert_Some in Hl as [[_ <-]|[_ Hl]].
        * by apply elem_of_nil in Hin.
        * by eapply Hm.
      + intros w0 h Hl. destruct (Hh _ _ Hl) as [Hroom0 Hcl].
        split; [|done]. apply lookup_insert_is_Some.
        destruct (decide (nref = h_room h)); auto. }
  destruct (handleConnection_state w documentId uid rnd nowRoom nowSeen
              newGuid s r s1 room Hgo Hroom)
    as (_ & Ho & Hco & Hha & _ & _ & _ & Hn).
  set (s' := handleConnection w documentId uid rnd nowRoom nowSeen newGuid s)
    in *.
  assert (clientObjs s1 !! nextRef s1 = None) as Hfresh.
  { destruct (clientObjs s1 !! nextRef s1) as [c|] eqn:Hl; [|done].
    specialize (Hc _ _ Hl). lia. }
  unfold resolved. rewrite Ho, Hco, Hha, Hn. split; [|split; [|split]].
  - intros cref c Hl.
    apply lookup_insert_Some in Hl as [[<- _]|[_ Hl]]; [lia|].
    specialize (Hc _ _ Hl). lia.
  - intros r0 room0 Hl.
    apply lookup_insert_Some in Hl as [[<- _]|[_ Hl]].
    + specialize (Hr _ _ Hroom). lia.
    + specialize (Hr _ _ Hl). lia.
  - intros r0 room0 k cref Hl Hin.
    apply lookup_insert_Some in Hl as [[<- <-]|[_ Hl]].
    + simpl in Hin. apply JsMapMore.elem_of_set_inv in Hin as [[= -> ->]|Hin].
      * eexists. by rewrite lookup_insert_eq.
      * destruct (Hm _ _ _ _ Hroom Hin) as (c & Hcl & Hk).
        exists c. split; [|done]. rewrite lookup_insert_ne; [done|].
        intros <-. congruence.
    + destruct (Hm _ _ _ _ Hl Hin) as (c & Hcl & Hk).
      exists c. split; [|done]. rewrite lookup_insert_ne; [done|].
      intros <-. congruence.
  - intros w0 h Hl. apply lookup_insert_Some in Hl as [[<- <-]|[Hne Hl]].
    + simpl. split; [by rewrite lookup_insert_eq|].
      eexists. by rewrite lookup_insert_eq.
    + destruct (Hh _ _ Hl) as [Hroom0 (c & Hcl & Hu & Hw)]. split.
      * apply lookup_insert_is_Some.
        destruct (decide (r = h_room h)); auto.
      * exists c. split; [|done]. rewrite lookup_insert_ne; [done|].
        intros Heq. rewrite <- Heq in Hcl. congruence.
Qed.

Lemma resolved_step s e : wellFormed s -> resolved s -> resolved (step s e).
Proof.
  intros Hwf Hres. destruct e; simpl.
  - unfold wssConnection, onConnection.
    assert (resolved (with_sockets (<[w := OPEN]> (sockets s)) s)) as Hres'
      by (eapply resolved_keeps; [exact Hres|apply keeps_sockets]).
    destruct (decide (slice1 pathname = "")).
    + eapply resolved_keeps; [exact Hres'|apply keeps_wsClose].
    + apply resolved_handleConnection; [|done].
      intros r Hg. destruct Hwf as (_ & Hreg & _).
      replace (roomObjs (with_sockets (<[w:=OPEN]> (sockets s)) s))
        with (roomObjs s) by by destruct s.
      eapply Hreg. eapply JsMapFacts.get_Some_elem_of.
      replace (rooms s)
        with (rooms (with_sockets (<[w:=OPEN]> (sockets s)) s))
        by by destruct s.
      exact Hg.
  - unfold wsMessage. destruct (handlers s !! w); [|done].
    eapply resolved_keeps; [exact Hres|apply keeps_handleMessage].
  - unfold wsClosed. cbv zeta.
    eapply resolved_keeps; [exact Hres|].
    destruct (handlers (with_sockets (<[w := CLOSED]> (sockets s)) s) !! w).
    + eapply keeps_trans;
        [apply keeps_sockets|apply keeps_handleDisconnection].
    + apply keeps_sockets.
  - unfold wsError. destruct (handlers s !! w); [|done].
    eapply resolved_keeps; [exact Hres|].
    eapply keeps_trans; [apply keeps_emit|apply keeps_handleDisconnection].
  - eapply resolved_keeps; [exact Hres|apply keeps_cleanupStalePresence].
  - unfold fireTimer. destruct (timers s) as [|t rest]; [done|].
    eapply resolved_keeps; [exact Hres|].
    eapply keeps_trans; [apply keeps_timers|apply keeps_roomTimeout].
Qed.

Lemma uniqueIds_step s e :
  NoDup (JsMap.keys (rooms s)) -> NoDup (JsMap.keys (rooms (step s e))).
Proof.
  intros Hnd. destruct e; simpl.
  - unfold wssConnection, onConnection.
    destruct (decide (slice1 pathname = "")); [by destruct s|].
    unfold handleConnection.
    destruct (getOrCreateRoom (slice1 pathname) nowRoom newGuid
                (with_sockets (<[w:=OPEN]> (sockets s)) s)) as [r s1] eqn:Hgo.
    assert (NoDup (JsMap.keys (rooms s1))) as Hnd1.
    { unfold getOrCreateRoom in Hgo.
      replace (rooms (with_sockets (<[w:=OPEN]> (sockets s)) s))
        with (rooms s) in Hgo by by destruct s.
      destruct (JsMap.get (slice1 pathname) (rooms s)).
      - injection Hgo as <- <-. by destruct s.
      - injection Hgo as <- <-. destruct s. simpl in *.
        by apply JsMapFacts.keys_set_NoDup. }
    cbv zeta.
    match goal with
    | |- NoDup (JsMap.keys (rooms ?x)) =>
        assert (sameShape s1 x) as (-> & _); [|done]
    end.
    eapply sameShape_trans; [|apply shape_handlers].
    eapply sameShape_trans; [|apply shape_broadcastPresence].
    eapply sameShape_trans; [|apply shape_sendInitialSync].
    eapply sameShape_trans; [|apply shape_clientToRoom].
    eapply sameShape_trans;
      [|apply (shape_alter _ r); intros room; simpl;
        apply JsMapFacts.keys_set_NoDup].
    eapply sameShape_trans; [apply shape_clientObjs|].
    apply shape_nextRef. simpl. lia.
  - unfold wsMessage. destruct (handlers s !! w); [|done].
    by destruct (shape_handleMessage w (h_room h) (h_client h) parsed tSeen
                   tActivity s) as (-> & _).
  - unfold wsClosed. cbv zeta.
    destruct (handlers (with_sockets (<[w := CLOSED]> (sockets s)) s) !! w).
    + destruct (shape_handleDisconnection w (h_room h) (h_userId h)
                  (with_sockets (<[w := CLOSED]> (sockets s)) s)) as (-> & _).
      by destruct s.
    + by destruct s.
  - unfold wsError. destruct (handlers s !! w); [|done].
    destruct (shape_handleDisconnection w (h_room h) (h_userId h)
                (emit [ConsoleError ("WebSocket error for user "
                                       +:+ h_userId h +:+ ":")] s))
      as (-> & _).
    by destruct s.
  - by destruct (shape_cleanupStalePresence now s) as (-> & _).
  - unfold fireTimer. destruct (timers s) as [|t rest]; [done|].
    destruct (roomTimeout_cases (t_room t) (with_timers rest s))
      as [->|(room & cur & found & _ & _ & _ & _ & ->)]; [by destruct s|].
    destruct s. simpl in *. by apply JsMapFacts.keys_delete_NoDup.
Qed.

Lemma invariants_run (es : list Event) :
  resolved (run (D := D) es)
  /\ wellFormed (run (D := D) es)
  /\ NoDup (JsMap.keys (rooms (run (D := D) es))).
Proof.
  unfold run.
  assert (resolved (constructor (D := D))
          /\ wellFormed (constructor (D := D))
          /\ NoDup (JsMap.keys (rooms (constructor (D := D))))) as Hinit.
  { split; [apply resolved_constructor|].
    split; [apply wellFormed_constructor|]. apply NoDup_nil_2. }
  revert Hinit. generalize (constructor (D := D)) as s.
  induction es as [|e es IH]; intros s Hinv; simpl; [done|].
  apply IH. destruct Hinv as (Hres & Hwf & Hnd).
  split; [by apply resolved_step|].
  split; [by apply wellFormed_step|]. by apply uniqueIds_step.
Qed.

(** X14.  Every state that the server reaches from [constructor] by
    connections, messages, close and error events, sweeps and grace
    timers is consistent.  The handler of a socket holds a live room and
    the client record made for that socket under its id, so a message, a
    close or an error never finds a reference dangling; every entry of a
    client map leads to a record with that id; rooms and records are
    allocated below [nextRef]; no room is registered under two keys, no
    key twice, and no client map has a key twice. *)
Theorem reachable_states_consistent (es : list Event) (w : nat)
    (h : Handler) :
  let s := run (D := D) es in
  (handlers s !! w = Some h ->
   is_Some (roomObjs s !! h_room h)
   /\ exists c,
        clientObjs s !! h_client h = Some c
        /\ userId c = h_userId h /\ ws c = w)
  /\ (forall r room k cref,
        roomObjs s !! r = Some room -> (k, cref) ∈ clients room ->
        exists c, clientObjs s !! cref = Some c /\ userId c = k)
  /\ (forall r room,
        roomObjs s !! r = Some room ->
        (r < nextRef s)%nat /\ NoDup (JsMap.keys (clients room)))
  /\ NoDup (JsMap.keys (rooms s))
  /\ NoDup (rooms s).*2.
Proof.
  intros s. subst s.
  destruct (invariants_run es)
    as ((_ & Hr & Hm & Hh) & (Hv & _ & Hcl) & Hk).
  split; [by apply Hh|]. split; [exact Hm|].
  split; [|done]. intros r room Hroom. split; [by eapply Hr|by eapply Hcl].
Qed.

Lemma presence_ids s (l : list (string * nat)) :
  (forall k cref, (k, cref) ∈ l ->
     exists c, clientObjs s !! cref = Some c /\ userId c = k) ->
  p_userId <$>
    omap (fun e : string * nat => presenceOf <$> clientObjs s !! e.2) l
  = JsMap.keys l.
Proof.
  unfold JsMap.keys. induction l as [|[k cref] l IH]; intros Hres; [done|].
  destruct (Hres k cref) as (c & Hc & Hk); [left|].
  simpl. rewrite Hc. simpl. f_equal; [done|].
  apply IH. intros k' cref' Hin. apply Hres. by right.
Qed.

(** X15.  In every state the server reaches, the presence list of a room
    has one entry per key of the room's client map, in map order, each
    carrying its key as [userId]; so no participant id is listed
    twice. *)
Theorem presence_list_matches_members (es : list Event) (r : nat) room :
  roomObjs (run es) !! r = Some room ->
  p_userId <$> getPresenceList (run es) room = JsMap.keys (clients room)
  /\ NoDup (p_userId <$> getPresenceList (run es) room)
  /\ length (getPresenceList (run es) room) = JsMap.size (clients room).
Proof.
  intros Hroom. destruct (invariants_run es) as ((_ & _ & Hm & _) & Hwf & _).
  assert (p_userId <$> getPresenceList (run es) room
          = JsMap.keys (clients room)) as Hids.
  { apply presence_ids. intros k cref Hin. by eapply Hm. }
  split; [done|]. split.
  - rewrite Hids. destruct Hwf as (_ & _ & Hcl). by eapply Hcl.
  - apply (f_equal length) in Hids. unfold JsMap.keys, JsMap.size in *.
    by rewrite !length_fmap in Hids.
Qed.

Lemma stamps_handleUpdate r cref m s ref r' :
  lastSeen <$> clientObjs (handleUpdate r cref m s).1 !! ref
    = lastSeen <$> clientObjs s !! ref
  /\ lastActivity <$> roomObjs (handleUpdate r cref m s).1 !! r'
     = lastActivity <$> roomObjs s !! r'.
Proof.
  unfold handleUpdate.
  destruct (WSMessage.data m) as [[payload|]|]; try done.
  destruct (decide (payload = "")); [done|].
  destruct (roomObjs s !! r) as [room|] eqn:Hroom; [|done].
  destruct (clientObjs s !! cref) as [client|]; [|done].
  assert (forall d, lastActivity <$> <[r := set_store d room]> (roomObjs s) !! r'
                    = lastActivity <$> roomObjs s !! r') as Hins.
  { intros d. destruct (decide (r = r')) as [->|Hne].
    - by rewrite lookup_insert_eq, Hroom.
    - by rewrite lookup_insert_ne. }
  destruct (Y_applyUpdate (store (doc room)) (from_base64 payload));
    destruct s; simpl in *; by rewrite Hins.
Qed.

Lemma stamps_handleAwareness r cref m s ref r' :
  lastSeen <$> clientObjs (handleAwareness r cref m s) !! ref
    = lastSeen <$> clientObjs s !! ref
  /\ lastActivity <$> roomObjs (handleAwareness r cref m s) !! r'
     = lastActivity <$> roomObjs s !! r'.
Proof.
  unfold handleAwareness, broadcastPresence. cbv zeta.
  match goal with
  | |- context [with_clientObjs (alter ?g cref (clientObjs s)) s] =>
      set (f := g)
  end.
  assert (lastSeen <$> alter f cref (clientObjs s) !! ref
          = lastSeen <$> clientObjs s !! ref) as Hal.
  { destruct (decide (cref = ref)) as [->|Hne].
    - rewrite lookup_alter_eq. destruct (clientObjs s !! ref) as [c|]; [|done].
      simpl. subst f. simpl.
      by destruct (truthy (WSMessage.userName m)),
        (truthy (WSMessage.userColor m)).
    - by rewrite lookup_alter_ne. }
  destruct s as [rs c2r itv robjs cobjs socks hs ts tr nref]. eval_state.
  simpl in Hal. destruct (alter f cref cobjs !! cref); [|done].
  by destruct (robjs !! r).
Qed.

Lemma stamps_handleCursor r cref m s ref r' :
  lastSeen <$> clientObjs (handleCursor r cref m s) !! ref
    = lastSeen <$> clientObjs s !! ref
  /\ lastActivity <$> roomObjs (handleCursor r cref m s) !! r'
     = lastActivity <$> roomObjs s !! r'.
Proof.
  unfold handleCursor. cbv zeta.
  assert (lastSeen <$> alter (set_cursor (WSMessage.cursor m)) cref
                         (clientObjs s) !! ref
          = lastSeen <$> clientObjs s !! ref) as Hal.
  { destruct (decide (cref = ref)) as [->|Hne].
    - rewrite lookup_alter_eq. by destruct (clientObjs s !! ref).
    - by rewrite lookup_alter_ne. }
  destruct s as [rs c2r itv robjs cobjs socks hs ts tr nref]. eval_state.
  simpl in Hal. destruct (robjs !! r); [|done].
  by destruct (alter _ cref cobjs !! cref).
Qed.

(** X24.  Every message that parses, whatever its type and whether or
    not handling it fails afterwards, stamps the sender's record with the
    time of arrival and the room with the time of activity; a message
    that does not parse stamps neither, so it does not keep its sender
    from being swept. *)
Theorem parsed_message_refreshes_presence (w r cref : nat)
    (parsed : Parsed) (tSeen tActivity : Z) s room client :
  roomObjs s !! r = Some room ->
  clientObjs s !! cref = Some client ->
  let s' := handleMessage w r cref parsed tSeen tActivity s in
  (lastSeen <$> clientObjs s' !! cref) =
    Some (match parsed with SyntaxError => lastSeen client | _ => tSeen end)
  /\ (lastActivity <$> roomObjs s' !! r) =
       Some (match parsed with
             | SyntaxError => lastActivity room
             | _ => tActivity
             end)
  /\ (forall now,
        staleRef now s' cref =
          match parsed with
          | SyntaxError => staleRef now s cref
          | _ => bool_decide (now - tSeen > 5000)%Z
          end).
Proof.
  intros Hroom Hclient s'.
  assert ((lastSeen <$> clientObjs s' !! cref) =
            Some (match parsed with
                  | SyntaxError => lastSeen client | _ => tSeen end)
          /\ (lastActivity <$> roomObjs s' !! r) =
               Some (match parsed with
                     | SyntaxError => lastActivity room
                     | _ => tActivity
                     end)) as [Hseen Hact].
  { subst s'. unfold handleMessage. cbv zeta.
    match goal with
    | |- context [with_roomObjs ?x (with_clientObjs ?y s)] =>
        set (s2 := with_roomObjs x (with_clientObjs y s))
    end.
    assert ((lastSeen <$> clientObjs s2 !! cref) = Some tSeen
            /\ (lastActivity <$> roomObjs s2 !! r) = Some tActivity)
      as [H2c H2r].
    { subst s2. destruct s. simpl in *.
      by rewrite !lookup_alter_eq, Hroom, Hclient. }
    destruct parsed as [| |m].
    - destruct s. simpl in *. by rewrite Hroom, Hclient.
    - destruct s2. simpl in *. by rewrite H2c, H2r.
    - destruct (typeIs (WSMessage.type m) "update").
      { destruct (stamps_handleUpdate r cref m s2 cref r) as [Hc Hr].
        destruct (handleUpdate r cref m s2) as [s3 []]; simpl in Hc, Hr.
        - by rewrite Hc, Hr.
        - destruct s3. simpl in *. by rewrite Hc, Hr. }
      destruct (typeIs (WSMessage.type m) "awareness").
      { destruct (stamps_handleAwareness r cref m s2 cref r) as [Hc Hr].
        by rewrite Hc, Hr. }
      destruct (typeIs (WSMessage.type m) "cursor").
      { destruct (stamps_handleCursor r cref m s2 cref r) as [Hc Hr].
        by rewrite Hc, Hr. }
      destruct s2. simpl in *. by rewrite H2c, H2r. }
  split; [done|]. split; [done|]. intros now. unfold staleRef.
  destruct (clientObjs s' !! cref) as [c'|]; [|done].
  simpl in Hseen. injection Hseen as Hseen. rewrite Hclient. simpl.
  unfold isStale, PRESENCE_TIMEOUT. rewrite Hseen. by destruct parsed.
Qed.

Lemma delete_set_fresh (uid : string) (cref : nat) (m : list (string * nat)) :
  JsMap.get uid m = None -> JsMap.delete uid (JsMap.set uid cref m) = m.
Proof.
  induction m as [|[k v] m IH]; simpl.
  - by rewrite decide_True.
  - destruct (decide (uid = k)) as [->|Hne]; [done|]. intros Hg. simpl.
    rewrite decide_False by done. by rewrite IH.
Qed.

(** X25.  A connection that comes and goes leaves its room as it found
    it.  When a socket joins a registered room under an id that is not
    in the room and then closes, the room object is what it was (same
    document, same client map in the same order, same activity stamp),
    the registry is unchanged, and a grace timer is armed exactly when
    the room had no client to begin with. *)
Theorem join_then_close_restores_room (w : nat) (pathname : string)
    (uidParam : option string) (generated : string) (rnd : nat)
    (nowRoom nowSeen : Z) (newGuid : string) s (r : nat) room :
  slice1 pathname ≠ "" ->
  JsMap.get (slice1 pathname) (rooms s) = Some r ->
  roomObjs s !! r = Some room ->
  JsMap.get (chosenUserId uidParam generated) (clients room) = None ->
  let s1 :=
    wssConnection w pathname uidParam generated rnd nowRoom nowSeen newGuid
      s in
  let s2 := wsClosed w s1 in
  getClientCount (slice1 pathname) s1 = S (getClientCount (slice1 pathname) s)
  /\ roomObjs s2 = roomObjs s
  /\ rooms s2 = rooms s
  /\ sockets s2 !! w = Some CLOSED
  /\ timers s2 =
       timers s ++
         if decide (clients room = []) then [mkTimer 60000 r] else [].
Proof.
  intros Hdoc Hg Hroom Hfresh s1 s2.
  set (uid := chosenUserId uidParam generated) in *.
  set (s0 := with_sockets (<[w := OPEN]> (sockets s)) s).
  assert (rooms s0 = rooms s /\ roomObjs s0 = roomObjs s
          /\ timers s0 = timers s /\ nextRef s0 = nextRef s)
    as (E1 & E2 & E3 & E4) by by destruct s.
  assert (getOrCreateRoom (slice1 pathname) nowRoom newGuid s0 = (r, s0))
    as Hgo.
  { unfold getOrCreateRoom. by rewrite E1, Hg. }
  assert (s1 = handleConnection w (slice1 pathname) uid rnd nowRoom nowSeen
                 newGuid s0) as Hs1.
  { subst s1. unfold wssConnection, onConnection.
    by rewrite decide_False by done. }
  subst s2. clearbody s1. subst s1.
  destruct (handleConnection_state w (slice1 pathname) uid rnd nowRoom
              nowSeen newGuid s0 r s0 room Hgo)
    as (Hr1 & Ho1 & _ & Hh1 & Hso1 & Ht1 & _ & _); [by rewrite E2|].
  set (s1 := handleConnection w (slice1 pathname) uid rnd nowRoom nowSeen
               newGuid s0) in *.
  set (room1 := set_clients (JsMap.set uid (nextRef s0) (clients room)) room)
    in *.
  split.
  { unfold getClientCount. rewrite Hr1, E1, Hg, Ho1, lookup_insert_eq, Hroom.
    simpl. rewrite JsMapMore.size_set, Hfresh. unfold JsMap.size. lia. }
  unfold wsClosed.
  set (s1c := with_sockets (<[w := CLOSED]> (sockets s1)) s1).
  assert (handlers s1c = handlers s1 /\ roomObjs s1c = roomObjs s1
          /\ rooms s1c = rooms s1 /\ timers s1c = timers s1
          /\ sockets s1c = <[w := CLOSED]> (sockets s1))
    as (F1 & F2 & F3 & F4 & F5) by by destruct s1.
  rewrite F1, Hh1, lookup_insert_eq. cbn [h_room h_userId].
  rewrite (handleDisconnection_state w r uid s1c room1)
    by by rewrite F2, Ho1, lookup_insert_eq.
  assert (JsMap.delete uid (clients room1) = clients room) as Hdel
    by by apply delete_set_fresh.
  rewrite Hdel.
  assert (set_clients (clients room) room1 = room) as Hback
    by by destruct room.
  rewrite Hback.
  clearbody s1c s1 s0.
  cbn [emit with_rooms with_clientToRoom with_roomObjs with_timers with_trace
       rooms roomObjs sockets timers].
  split.
  { rewrite F2, Ho1, E2, insert_insert_eq. by apply insert_id. }
  split; [by rewrite F3, Hr1, E1|].
  split; [by rewrite F5, lookup_insert_eq|]. by rewrite F4, Ht1, E3.
Qed.

(** X26.  The ['error'] and the ['close'] event of one socket each run
    the disconnection: the first logs the error and removes the entry
    under the handler's id, and the second, finding nothing to remove, still sends the
    [leave] update to the open sockets of the remaining clients and, for
    a room left empty, arms a second grace timer. *)
Theorem error_then_close_leaves_twice (w : nat) s (h : Handler) room :
  handlers s !! w = Some h ->
  roomObjs s !! h_room h = Some room ->
  NoDup (JsMap.keys (clients room)) ->
  let uid := h_userId h in
  let rest := JsMap.delete uid (clients room) in
  let leave := FPresence Leave uid (getPresenceList s (set_clients rest room)) in
  let s2 := wsClosed w (wsError w s) in
  (clients <$> roomObjs s2 !! h_room h) = Some rest
  /\ trace s2 =
       trace s ++
         ConsoleError ("WebSocket error for user " +:+ uid +:+ ":")
         :: map (fun w' => WsSend w' leave)
              (openTargets s (fun _ => true) rest)
         ++ map (fun w' => WsSend w' leave)
              (openTargets (with_sockets (<[w := CLOSED]> (sockets s)) s)
                 (fun _ => true) rest)
  /\ timers s2 =
       timers s ++
         if decide (rest = []) then
           [mkTimer 60000 (h_room h); mkTimer 60000 (h_room h)]
         else [].
Proof.
  intros Hh Hroom Hnd uid rest leave s2. subst s2.
  assert (JsMap.delete uid rest = rest) as Hagain.
  { apply JsMapMore.delete_absent. by apply JsMapFacts.get_delete_eq. }
  unfold wsError. rewrite Hh. fold uid.
  set (s0 :=
         emit [ConsoleError ("WebSocket error for user " +:+ uid +:+ ":")] s).
  assert (roomObjs s0 = roomObjs s /\ clientObjs s0 = clientObjs s
          /\ sockets s0 = sockets s /\ handlers s0 = handlers s
          /\ timers s0 = timers s
          /\ trace s0 =
               trace s ++
                 [ConsoleError ("WebSocket error for user " +:+ uid +:+ ":")])
    as (E1 & E2 & E3 & E4 & E5 & E6) by by destruct s.
  rewrite (handleDisconnection_state w (h_room h) uid s0 room)
    by by rewrite E1.
  fold rest.
  match goal with |- context [wsClosed w ?x] => set (s1 := x) end.
  assert (roomObjs s1 = <[h_room h := set_clients rest room]> (roomObjs s)
          /\ clientObjs s1 = clientObjs s /\ sockets s1 = sockets s
          /\ handlers s1 = handlers s
          /\ timers s1 =
               timers s ++
                 (if decide (rest = []) then [mkTimer 60000 (h_room h)]
                  else [])
          /\ trace s1 =
               (trace s ++
                  [ConsoleError
                     ("WebSocket error for user " +:+ uid +:+ ":")]) ++
                 map (fun w' => WsSend w' leave)
                   (openTargets s (fun _ => true) rest))
    as (G1 & G2 & G3 & G4 & G5 & G6).
  { subst s1.
    cbn [emit with_rooms with_clientToRoom with_roomObjs with_timers
         with_trace rooms roomObjs clientObjs sockets handlers timers trace].
    rewrite E1, E2, E3, E4, E5, E6. repeat split. }
  clearbody s1. clear E1 E2 E3 E4 E5 E6. clearbody s0.
  unfold wsClosed.
  set (s1c := with_sockets (<[w := CLOSED]> (sockets s1)) s1).
  assert (roomObjs s1c = roomObjs s1 /\ clientObjs s1c = clientObjs s1
          /\ sockets s1c = <[w := CLOSED]> (sockets s1)
          /\ handlers s1c = handlers s1 /\ timers s1c = timers s1
          /\ trace s1c = trace s1)
    as (F1 & F2 & F3 & F4 & F5 & F6) by by destruct s1.
  rewrite F4, G4, Hh. fold uid.
  rewrite (handleDisconnection_state w (h_room h) uid s1c
             (set_clients rest room))
    by by rewrite F1, G1, lookup_insert_eq.
  cbn [clients set_clients]. rewrite Hagain.
  clearbody s1c.
  cbn [emit with_rooms with_clientToRoom with_roomObjs with_timers
       with_trace rooms roomObjs clientObjs sockets handlers timers trace].
  split; [by rewrite lookup_insert_eq|]. split.
  - rewrite F6, G6, <- !app_assoc. simpl. do 3 f_equal.
    assert (set_clients rest (set_clients rest room) = set_clients rest room)
      as -> by done.
    assert (getPresenceList s1c (set_clients rest room)
            = getPresenceList s (set_clients rest room)) as ->.
    { unfold getPresenceList. by rewrite F2, G2. }
    fold leave. f_equal. apply openTargets_ext.
    + by rewrite F3, G3; destruct s.
    + intros ref. rewrite F2, G2. by destruct s.
  - rewrite F5, G5. destruct (decide (rest = [])); simpl.
    + by rewrite <- app_assoc.
    + by rewrite app_nil_r.
Qed.

(** X27.  The [documentId] field of a message is not used for routing:
    a message acts on the room its socket joined, whatever document it
    names.  Under any other [documentId] the same message leaves the
    same documents, rooms and client records and is followed by sends to
    the same sockets; only the forwarded frames repeat the field. *)
Theorem message_document_id_not_used (w r cref : nat) (m : WSMessage.t)
    (documentId' : string) (tSeen tActivity : Z) s :
  let s1 := handleMessage w r cref (JsonValue m) tSeen tActivity s in
  let s2 :=
    handleMessage w r cref (JsonValue (withDocumentId documentId' m)) tSeen
      tActivity s in
  roomObjs s2 = roomObjs s1
  /\ clientObjs s2 = clientObjs s1
  /\ rooms s2 = rooms s1
  /\ omap sendTarget (trace s2) = omap sendTarget (trace s1).
Proof.
  intros s1 s2. subst s1 s2. unfold handleMessage. cbv zeta.
  match goal with
  | |- context [with_roomObjs ?x (with_clientObjs ?y s)] =>
      set (s0 := with_roomObjs x (with_clientObjs y s))
  end.
  clearbody s0. cbn [withDocumentId WSMessage.type].
  assert (forall (f g : Frame) (l : list nat) (pre : list Effect),
            omap sendTarget (pre ++ map (fun w' => WsSend w' f) l)
            = omap sendTarget (pre ++ map (fun w' => WsSend w' g) l)) as Hmap.
  { intros f g l pre. rewrite !omap_app. f_equal.
    induction l as [|x l IH]; [done|]. simpl. f_equal. apply IH. }
  destruct (typeIs (WSMessage.type m) "update").
  { unfold handleUpdate. cbn [withDocumentId WSMessage.data].
    destruct (WSMessage.data m) as [[payload|]|]; try done.
    destruct (decide (payload = "")); [done|].
    destruct (roomObjs s0 !! r) as [room|]; [|done].
    destruct (clientObjs s0 !! cref) as [client|]; [|done].
    destruct (Y_applyUpdate (store (doc room)) (from_base64 payload));
      [|done].
    destruct s0. cbn. repeat (split; [done|]). apply Hmap. }
  destruct (typeIs (WSMessage.type m) "awareness"); [done|].
  destruct (typeIs (WSMessage.type m) "cursor"); [|done].
  unfold handleCursor. cbv zeta.
  cbn [withDocumentId WSMessage.cursor WSMessage.documentId].
  match goal with
  | |- context [with_clientObjs ?y s0] => set (s3 := with_clientObjs y s0)
  end.
  clearbody s3.
  destruct (roomObjs s3 !! r) as [room|]; [|done].
  destruct (clientObjs s3 !! cref) as [client|]; [|done].
  destruct s3. cbn. repeat (split; [done|]). apply Hmap.
Qed.

End ServerMore.

(** ** More on the client provider *)

Section ProviderMore.
Import YjsProvider ProviderApi.
Context {D : Type} `{Yjs D}.
Implicit Types (p : Provider D).

(** X16.  [areStatesEqual] compares encodings: when both states load, it
    answers whether the two documents encode to the same bytes, so it is
    symmetric and says [true] of a state and itself. *)
Theorem areStatesEqual_compares_encodings (s1 s2 : bytes) (d1 d2 : D) :
  Y_applyUpdate Y_Doc s1 = Applied d1 ->
  Y_applyUpdate Y_Doc s2 = Applied d2 ->
  areStatesEqual s1 s2 =
    Some (bool_decide (Y_encodeStateAsUpdate d1 = Y_encodeStateAsUpdate d2))
  /\ areStatesEqual s2 s1 = areStatesEqual s1 s2
  /\ areStatesEqual s1 s1 = Some true.
Proof.
  intros H1 H2.
  rewrite (areStatesEqual_bytes s1 s2 d1 d2 H1 H2),
    (areStatesEqual_bytes s2 s1 d2 d1 H2 H1),
    (areStatesEqual_bytes s1 s1 d1 d1 H1 H1).
  split; [done|]. split.
  - f_equal. apply bool_decide_ext. split; congruence.
  - by rewrite bool_decide_eq_true_2.
Qed.

(** X17.  [areStatesEqual] throws exactly when one of the two states does
    not load into a fresh document; otherwise it returns a boolean. *)
Theorem areStatesEqual_throws_iff (s1 s2 : bytes) :
  areStatesEqual s1 s2 = None <->
  applied (Y_applyUpdate Y_Doc s1) = None
  \/ applied (Y_applyUpdate Y_Doc s2) = None.
Proof.
  unfold areStatesEqual.
  destruct (Y_applyUpdate Y_Doc s1) as [d1|d1],
    (Y_applyUpdate Y_Doc s2) as [d2|d2]; simpl.
  - destruct (decide _); split; try done; intros [?|?]; done.
  - split; auto.
  - split; auto.
  - split; auto.
Qed.

Lemma backoff_delay_bounds (n : nat) :
  (n < 10)%nat ->
  (1000 <= Z.min (1000 * 2 ^ Z.of_nat n) 30000 <= 30000)%Z.
Proof.
  intros Hn. split; [|lia]. apply Z.min_glb; [|lia].
  assert (1 <= 2 ^ Z.of_nat n)%Z; [|lia].
  apply (Z.pow_le_mono_r 2 0 (Z.of_nat n)); lia.
Qed.


Lemma reenterAll_inv (P : Provider D -> Prop) (Q : Action -> Prop)
    (es : list Reentry) :
  (forall e q, P q ->
     P (reenter e q).1 /\ forall a, a ∈ (reenter e q).2 -> Q a) ->
  forall p, P p ->
    P (reenterAll es p).1 /\ forall a, a ∈ (reenterAll es p).2 -> Q a.
Proof.
  intros Hstep p Hp. unfold reenterAll.
  assert (P (p, @nil Action).1 /\ forall a, a ∈ (p, @nil Action).2 -> Q a)
    as Hinit.
  { split; [done|]. intros a Hin. by apply elem_of_nil in Hin. }
  revert Hinit. generalize (p, @nil Action) as pa.
  induction es as [|e es IH]; intros pa Hpa; simpl; [done|].
  apply IH. destruct Hpa as [Hq Hacts].
  destruct (Hstep e pa.1 Hq) as [Hq' Hacts']. split; [done|]. simpl.
  intros a Hin. apply elem_of_app in Hin as [Hin|Hin]; auto.
Qed.

Lemma disconnect_inv (P : Provider D -> Prop) (Q : Action -> Prop)
    (during : list Reentry) p :
  (forall q q', reconnectAttempts q' = reconnectAttempts q ->
                updateListeners q' = updateListeners q -> P q -> P q') ->
  (forall e q, P q ->
     P (reenter e q).1 /\ forall a, a ∈ (reenter e q).2 -> Q a) ->
  Q ClearTimeout -> Q WsProviderDisconnect -> Q WsProviderDestroy ->
  P p ->
  P (disconnect during p).1
  /\ forall a, a ∈ (disconnect during p).2 -> Q a.
Proof.
  intros Hext Hstep Hq1 Hq2 Hq3 Hp. unfold disconnect.
  assert (forall a, a ∈ (if reconnectTimeout p then [ClearTimeout] else [])
                    -> Q a) as Ha1.
  { intros a Hin. destruct (reconnectTimeout p).
    - by apply list_elem_of_singleton in Hin as ->.
    - by apply elem_of_nil in Hin. }
  set (p1 := with_reconnectTimeout false p).
  assert (P p1) as Hp1 by (by apply (Hext p)).
  destruct (wsProvider p1).
  - destruct (reenterAll_inv P Q during Hstep p1 Hp1) as [Hq Hcalled].
    destruct (reenterAll during p1) as [q called]. simpl in *. split.
    + by apply (Hext q).
    + intros a Hin. apply elem_of_app in Hin as [Hin|Hin]; [auto|].
      apply elem_of_cons in Hin as [->|Hin]; [done|].
      apply elem_of_app in Hin as [Hin|Hin]; [auto|].
      by apply list_elem_of_singleton in Hin as ->.
  - simpl. split; [by apply (Hext p1)|]. intros a Hin.
    rewrite app_nil_r in Hin. auto.
Qed.

Lemma destroy_inv (P : Provider D -> Prop) (Q : Action -> Prop)
    (during : list Reentry) (changes : list (list CollaboratorInfo)) p :
  (forall q q', reconnectAttempts q' = reconnectAttempts q ->
                updateListeners q' = updateListeners q -> P q -> P q') ->
  (forall e q, P q ->
     P (reenter e q).1 /\ forall a, a ∈ (reenter e q).2 -> Q a) ->
  Q ClearTimeout -> Q WsProviderDisconnect -> Q WsProviderDestroy ->
  P p ->
  P (destroy during changes p).1
  /\ forall a, a ∈ (destroy during changes p).2 -> Q a.
Proof.
  intros Hext Hstep Hq1 Hq2 Hq3 Hp. unfold destroy.
  destruct (disconnect_inv P Q during p Hext Hstep Hq1 Hq2 Hq3 Hp)
    as [Hp1 Hacts].
  destruct (disconnect during p) as [p1 acts]. simpl in Hp1, Hacts.
  match goal with
  | |- context [reenterAll ?l p1] =>
      destruct (reenterAll_inv P Q l Hstep p1 Hp1) as [Hp2 Hcalled];
      destruct (reenterAll l p1) as [p2 called]
  end.
  simpl in *. split; [by apply (Hext p2)|]. intros a Hin.
  apply elem_of_app in Hin as [Hin|Hin]; auto.
Qed.

Lemma handleDisconnect_bounds (q : Provider D) :
  (reconnectAttempts q <= maxReconnectAttempts)%nat ->
  (reconnectAttempts (handleDisconnect q).1 <= maxReconnectAttempts)%nat
  /\ forall a, a ∈ (handleDisconnect q).2 ->
       forall d, a = SetTimeout d -> (1000 <= d <= 30000)%Z.
Proof.
  intros Hq. unfold handleDisconnect.
  destruct (decide (maxReconnectAttempts <= reconnectAttempts q)%nat)
    as [Hge|Hlt]; simpl.
  - split; [done|]. intros a Hin d ->.
    apply list_elem_of_singleton in Hin. discriminate.
  - split; [lia|]. intros a Hin d ->.
    apply list_elem_of_singleton in Hin. injection Hin as ->.
    apply backoff_delay_bounds. unfold maxReconnectAttempts in *. lia.
Qed.

Lemma onStatus_bounds (st : ConnectionStatus) (q : Provider D) :
  (reconnectAttempts q <= maxReconnectAttempts)%nat ->
  (reconnectAttempts (onStatus st q).1 <= maxReconnectAttempts)%nat
  /\ forall a, a ∈ (onStatus st q).2 ->
       forall d, a = SetTimeout d -> (1000 <= d <= 30000)%Z.
Proof.
  intros Hq. unfold onStatus. destruct st; simpl.
  - split; [done|]. intros a Hin d ->.
    apply list_elem_of_singleton in Hin. discriminate.
  - split; [unfold maxReconnectAttempts; lia|]. intros a Hin d ->.
    apply list_elem_of_singleton in Hin. discriminate.
  - destruct (handleDisconnect_bounds (with_isConnected false q) Hq)
      as [Hc Hd].
    destruct (handleDisconnect (with_isConnected false q)) as [p2 acts].
    simpl in *. split; [done|]. intros a Hin d ->.
    apply elem_of_cons in Hin as [?|Hin]; [done|]. by eapply Hd.
Qed.

Lemma reenter_bounds (e : Reentry) (q : Provider D) :
  (reconnectAttempts q <= maxReconnectAttempts)%nat ->
  (reconnectAttempts (reenter e q).1 <= maxReconnectAttempts)%nat
  /\ forall a, a ∈ (reenter e q).2 ->
       forall d, a = SetTimeout d -> (1000 <= d <= 30000)%Z.
Proof.
  intros Hq. destruct e as [st|b|found]; simpl.
  - by apply onStatus_bounds.
  - split; [done|]. intros a Hin d ->.
    apply list_elem_of_singleton in Hin. discriminate.
  - split; [done|]. intros a Hin d ->.
    apply list_elem_of_singleton in Hin. discriminate.
Qed.

Lemma deliver_bounds (i : Input) p :
  (reconnectAttempts p <= maxReconnectAttempts)%nat ->
  (reconnectAttempts (deliver i p).1 <= maxReconnectAttempts)%nat
  /\ forall d, SetTimeout d ∈ (deliver i p).2 -> (1000 <= d <= 30000)%Z.
Proof.
  intros Hp.
  assert ((reconnectAttempts (deliver i p).1 <= maxReconnectAttempts)%nat
          /\ forall a, a ∈ (deliver i p).2 ->
               forall d, a = SetTimeout d -> (1000 <= d <= 30000)%Z)
    as [Hc Hd]; [|split; [done|]; intros d Hin; by eapply Hd].
  assert (forall (acts : list Action),
            (forall a, a ∈ acts -> forall d, a ≠ SetTimeout d) ->
            forall a, a ∈ acts ->
              forall d, a = SetTimeout d -> (1000 <= d <= 30000)%Z) as Hno.
  { intros acts Hacts a Hin d ->. by destruct (Hacts _ Hin d). }
  destruct i as [b|st|b| |u|u|found|during|during changes]; simpl.
  - unfold connect. destruct (wsProvider p); [|destruct b]; simpl;
      (split; [done|]); apply Hno; intros a Hin d;
      repeat (apply elem_of_cons in Hin as [->|Hin]; [done|]);
      by apply elem_of_nil in Hin.
  - by apply onStatus_bounds.
  - split; [done|]. apply Hno. intros a Hin d.
    apply list_elem_of_singleton in Hin as ->. done.
  - unfold reconnectTimerFired.
    destruct (wsProvider p && negb (isConnected p)); simpl;
      (split; [done|]); apply Hno; intros a Hin d;
      repeat (apply elem_of_cons in Hin as [->|Hin]; [done|]);
      by apply elem_of_nil in Hin.
  - split; [done|]. apply Hno. intros a Hin d.
    destruct (Y_updateEvent (ydoc p) u); [|by apply elem_of_nil in Hin].
    apply elem_of_replicate in Hin as [-> _]. done.
  - split; [done|]. apply Hno. intros a Hin d.
    destruct (Y_updateEvent (ydoc p) u); [|by apply elem_of_nil in Hin].
    apply elem_of_replicate in Hin as [-> _]. done.
  - split; [done|]. apply Hno. intros a Hin d.
    apply list_elem_of_singleton in Hin as ->. done.
  - apply (disconnect_inv
             (fun q => (reconnectAttempts q <= maxReconnectAttempts)%nat)
             (fun a => forall d, a = SetTimeout d -> (1000 <= d <= 30000)%Z));
      try done.
    + intros q q' Hr _. by rewrite Hr.
    + intros e q. apply reenter_bounds.
  - apply (destroy_inv
             (fun q => (reconnectAttempts q <= maxReconnectAttempts)%nat)
             (fun a => forall d, a = SetTimeout d -> (1000 <= d <= 30000)%Z));
      try done.
    + intros q q' Hr _. by rewrite Hr.
    + intros e q. apply reenter_bounds.
Qed.

(** X18.  Whatever the socket and the caller deliver to a provider, in
    any order, its attempt counter never passes 10 and every reconnect
    timer it arms waits at least 1000 ms and at most 30000 ms. *)
Theorem reconnect_policy_bounded (inputs : list Input) :
  (reconnectAttempts (prun (D := D) inputs).1 <= 10)%nat
  /\ forall d,
       SetTimeout d ∈ (prun (D := D) inputs).2 -> (1000 <= d <= 30000)%Z.
Proof.
  change (bounded (prun (D := D) inputs)). unfold prun.
  assert (bounded (constructor (D := D), [])) as Hinit.
  { split; [simpl; unfold maxReconnectAttempts; lia|].
    intros d Hin. by apply elem_of_nil in Hin. }
  revert Hinit. generalize (constructor (D := D), @nil Action) as pa.
  induction inputs as [|i inputs IH]; intros pa Hpa; simpl; [done|].
  apply IH. destruct Hpa as [Hc Hd].
  destruct (deliver_bounds i pa.1 Hc) as [Hc' Hd'].
  split; [done|]. unfold pstep. simpl. intros d Hin.
  apply elem_of_app in Hin as [Hin|Hin]; auto.
Qed.

Lemma reconnected_fields (n : nat) : forall p,
  wsProvider p = false ->
  updateListeners (reconnected n p) = (updateListeners p + n)%nat
  /\ ydoc (reconnected n p) = ydoc p
  /\ wsProvider (reconnected n p) = false
  /\ reconnectAttempts (reconnected n p) = reconnectAttempts p.
Proof.
  induction n as [|n IH]; intros p Hws; simpl.
  - split; [lia|done].
  - unfold connect. rewrite Hws. simpl.
    match goal with
    | |- context [reconnected n ?q] => destruct (IH q) as (Hu & Hy & Hw & Hr)
    end; [done|].
    rewrite Hu, Hy, Hw, Hr. simpl. split; [lia|done].
Qed.

(** X19.  [disconnect()] does not take the document's ['update']
    listener off again, and every successful [connect()] puts one more
    on: after [n] rounds of connecting and disconnecting, one update
    reaches [onUpdate] [n] times more than before, with the same payload
    each time.  The rounds leave the document and the attempt counter as
    they were. *)
Theorem update_listeners_accumulate (n : nat) p (update event : bytes) :
  wsProvider p = false ->
  Y_updateEvent (ydoc p) update = Some event ->
  callerSees (applyUpdate update (reconnected n p)).1.2 =
    replicate (updateListeners p + n) (onUpdate event)
  /\ ydoc (reconnected n p) = ydoc p
  /\ reconnectAttempts (reconnected n p) = reconnectAttempts p.
Proof.
  intros Hws Hev.
  destruct (reconnected_fields n p Hws) as (Hu & Hy & _ & Hr).
  split; [|done]. unfold applyUpdate. simpl. rewrite Hy, Hev, Hu.
  generalize (updateListeners p + n)%nat as k.
  induction k as [|k IH]; simpl; [done|]. by rewrite IH.
Qed.

Lemma reenter_silent (e : Reentry) (q : Provider D) :
  updateListeners q = 0%nat ->
  updateListeners (reenter e q).1 = 0%nat
  /\ forall a, a ∈ (reenter e q).2 -> forall u, a ≠ Notify (onUpdate u).
Proof.
  intros Hq. destruct e as [st|b|found]; simpl.
  - unfold onStatus, handleDisconnect. destruct st; simpl;
      try (split; [done|]; intros a Hin u;
           apply list_elem_of_singleton in Hin as ->; done).
    destruct (decide _); simpl; (split; [done|]); intros a Hin u;
      repeat (apply elem_of_cons in Hin as [->|Hin]; [done|]);
      by apply elem_of_nil in Hin.
  - split; [done|]. intros a Hin u.
    apply list_elem_of_singleton in Hin as ->. done.
  - split; [done|]. intros a Hin u.
    apply list_elem_of_singleton in Hin as ->. done.
Qed.

Lemma deliver_silent (i : Input) p :
  i ≠ Connect false ->
  updateListeners p = 0%nat ->
  updateListeners (deliver i p).1 = 0%nat
  /\ forall e, Notify (onUpdate e) ∉ (deliver i p).2.
Proof.
  intros Hi Hp.
  assert (updateListeners (deliver i p).1 = 0%nat
          /\ forall a, a ∈ (deliver i p).2 ->
               forall u, a ≠ Notify (onUpdate u))
    as [Hc Hd]; [|split; [done|]; intros e Hin; by eapply Hd].
  destruct i as [b|st|b| |u|u|found|during|during changes]; simpl.
  - destruct b; [|done]. unfold connect.
    destruct (wsProvider p); simpl; (split; [done|]); intros a Hin e;
      repeat (apply elem_of_cons in Hin as [->|Hin]; [done|]);
      by apply elem_of_nil in Hin.
  - by apply (reenter_silent (StatusEvent st)).
  - by apply (reenter_silent (SyncEvent b)).
  - unfold reconnectTimerFired.
    destruct (wsProvider p && negb (isConnected p)); simpl;
      (split; [done|]); intros a Hin e;
      repeat (apply elem_of_cons in Hin as [->|Hin]; [done|]);
      by apply elem_of_nil in Hin.
  - split; [done|]. rewrite Hp. intros a Hin e.
    destruct (Y_updateEvent (ydoc p) u); by apply elem_of_nil in Hin.
  - split; [done|]. rewrite Hp. intros a Hin e.
    destruct (Y_updateEvent (ydoc p) u); by apply elem_of_nil in Hin.
  - by apply (reenter_silent (AwarenessEvent found)).
  - apply (disconnect_inv (fun q => updateListeners q = 0%nat)
             (fun a => forall u, a ≠ Notify (onUpdate u))); try done.
    + intros q q' _ Hu. by rewrite Hu.
    + intros e q. apply reenter_silent.
  - apply (destroy_inv (fun q => updateListeners q = 0%nat)
             (fun a => forall u, a ≠ Notify (onUpdate u))); try done.
    + intros q q' _ Hu. by rewrite Hu.
    + intros e q. apply reenter_silent.
Qed.

(** X20.  The document gets its ['update'] listener in a successful
    [connect()], not before: however a new provider is used until then,
    no update is ever reported to [onUpdate].  So the state that the
    component loads before it connects reaches the document and no
    callback. *)
Theorem no_update_reported_before_connect (inputs : list Input)
    (update : bytes) :
  Connect false ∉ inputs ->
  let p := (prun (D := D) inputs).1 in
  (forall e, Notify (onUpdate e) ∉ (prun (D := D) inputs).2)
  /\ (applyUpdate update p).1.2 = []
  /\ (loadInitialState update p).1.2 = []
  /\ ydoc (loadInitialState update p).1.1 =
       leftDoc (Y_applyUpdate (ydoc p) update).
Proof.
  intros Hin p.
  assert (updateListeners p = 0%nat
          /\ forall e, Notify (onUpdate e) ∉ (prun (D := D) inputs).2)
    as [Hp Hacts].
  { subst p. unfold prun.
    assert (updateListeners (constructor (D := D), @nil Action).1 = 0%nat
            /\ forall e, Notify (onUpdate e)
                           ∉ (constructor (D := D), @nil Action).2) as Hinit.
    { split; [done|]. intros e He. by apply elem_of_nil in He. }
    revert Hinit. generalize (constructor (D := D), @nil Action) as pa.
    induction inputs as [|i inputs IH]; intros pa Hpa; simpl; [done|].
    apply IH.
    - intros Hc. apply Hin. by right.
    - destruct Hpa as [Hu Hn].
      destruct (deliver_silent i pa.1) as [Hu' Hn']; [|done|].
      + intros ->. apply Hin. left.
      + split; [done|]. unfold pstep. simpl. intros e He.
        apply elem_of_app in He as [He|He]; [by eapply Hn|by eapply Hn']. }
  split; [done|]. unfold applyUpdate, loadInitialState. simpl. rewrite Hp.
  by destruct (Y_updateEvent (ydoc p) update).
Qed.



(** X22.  [connect()] on a provider that has a socket provider does
    nothing, not even a status notification.  When the socket provider
    cannot be made, the caller is told [connecting] and then
    [disconnected], the provider is left as it was, and no retry is
    scheduled: the attempt counter and the timer are untouched. *)
Theorem connect_guarded (ctorThrows : bool) p :
  (wsProvider p = true -> connect ctorThrows p = (p, []))
  /\ (wsProvider p = false ->
      (connect true p).1 = p
      /\ callerSees (connect true p).2 =
           [onStatusChange connecting; onStatusChange disconnected]
      /\ (forall d, SetTimeout d ∉ (connect true p).2)
      /\ wsProvider (connect false p).1 = true
      /\ callerSees (connect false p).2 = [onStatusChange connecting]).
Proof.
  unfold connect. split; intros ->; [done|]. simpl.
  repeat split. intros d Hin.
  repeat (apply elem_of_cons in Hin as [?|Hin]; [done|]).
  by apply elem_of_nil in Hin.
Qed.

(** X23.  [getCollaborators] never lists the local client, lists every
    other client that has a [user] (also one with the local user's id,
    from another tab), in the order of the awareness states, and the
    defaults make every listed name and colour non-empty.  Without a
    socket provider the list is empty. *)
Theorem collaborators_listed (showId : nat -> string) (clientID : nat)
    (states : list (nat * AwarenessState)) p :
  let listed := getCollaborators showId clientID states p in
  (wsProvider p = false -> listed = [])
  /\ (forall c, c ∈ listed -> name c ≠ "" /\ color c ≠ "")
  /\ (length listed <= length (filter (fun e => e.1 ≠ clientID) states))%nat
  /\ (wsProvider p = true ->
      forall cid st u,
        (cid, st) ∈ states -> cid ≠ clientID -> a_user st = Some u ->
        exists c, c ∈ listed
                  /\ id c = default (showId cid) (truthy (u_id u))
                  /\ cursor c = a_cursor st)
  /\ (forall st, states = [(clientID, st)] -> listed = []).
Proof.
  intros listed. subst listed. unfold getCollaborators.
  assert (forall o d, d ≠ "" -> default d (truthy o) ≠ "") as Hdef.
  { intros [x|] d Hd; simpl; [|done]. unfold truthy.
    destruct (decide (x = "")); simpl; done. }
  split; [by intros ->|]. split; [|split; [|split]].
  - intros c Hin. destruct (wsProvider p); [|by apply elem_of_nil in Hin].
    apply list_elem_of_omap in Hin as ([cid st] & _ & Hc). simpl in Hc.
    destruct (decide (cid = clientID)); [done|].
    destruct (a_user st) as [u|]; simpl in Hc; [|done].
    injection Hc as <-. simpl. split; by apply Hdef.
  - destruct (wsProvider p); [|simpl; lia].
    match goal with |- context [omap ?g states] => set (f := g) end.
    induction states as [|[cid st] states IH]; [done|].
    change (omap f ((cid, st) :: states))
      with (match f (cid, st) with
            | Some y => y :: omap f states
            | None => omap f states
            end).
    destruct (decide (cid = clientID)) as [->|Hne].
    + rewrite filter_cons_False by (simpl; auto).
      subst f. simpl. by rewrite decide_True.
    + rewrite filter_cons_True by done.
      destruct (f (cid, st)); simpl; lia.
  - intros -> cid st u Hin Hne Hu. eexists. split.
    + apply list_elem_of_omap. exists (cid, st). split; [done|]. simpl.
      rewrite decide_False by done. rewrite Hu. reflexivity.
    + done.
  - intros st ->. destruct (wsProvider p); [|done]. simpl.
    by rewrite decide_True.
Qed.

End ProviderMore.

(** ** The further properties at concrete runs *)

Section MoreScenarios.
Import WsServer ServerApi Replica Scenario Scenario2.

(** carol joins the room of alice and bob. *)
Lemma connection_registered_witness :
  getClientCount "doc1"
    (onConnection 7 "/doc1" (Some "carol") "client_20_c" 5 20 20 doc1Guid
       bothIn) = 3%nat.
Proof.
  refine (proj1 (connection_registered 7 "/doc1" (Some "carol")
                   "client_20_c" 5 20 20 doc1Guid bothIn _ _)).
  - discriminate.
  - intros r Hr. vm_compute in Hr. injection Hr as <-. vm_compute. eauto.
Defined.

(** alice renames herself; the empty colour is not taken. *)
Lemma awareness_rebroadcast_witness :
  let presence :=
    [ {| p_userId := "alice"; p_userName := "Alice";
         p_userColor := "#96CEB4"; p_cursor := None |};
      presenceOf bob ] in
  trace (handleMessage 1 0 1 (JsonValue awarenessMessage) 20 20 bothIn) =
    trace bothIn ++
      [ WsSend 1 (FPresence Awareness "alice" presence);
        WsSend 2 (FPresence Awareness "alice" presence) ].
Proof.
  refine (proj1 (proj2 (proj2 (awareness_rebroadcast 1 0 1 awarenessMessage
                                 20 20 bothIn doc1Room alice _ _ _)))).
  - reflexivity.
  - vm_compute. reflexivity.
  - vm_compute. reflexivity.
Defined.

(** alice moves her cursor; bob is told, alice is not. *)
Lemma cursor_forwarded_witness :
  trace (handleMessage 1 0 1 (JsonValue cursorMessage) 20 20 bothIn) =
    trace bothIn ++
      [ WsSend 2 (FCursor "doc1" "alice" "Anonymous" "#96CEB4"
                    (Some (3, 4)%Z)) ].
Proof.
  refine (proj1 (proj2 (proj2 (cursor_forwarded 1 0 1 cursorMessage
                                 20 20 bothIn doc1Room alice _ _ _)))).
  - reflexivity.
  - vm_compute. reflexivity.
  - vm_compute. reflexivity.
Defined.

(** alice's first tab closes: the entry under her id, which by then is
    her second tab's, leaves the room although socket 3 is open. *)
Lemma closed_socket_leaves_room_witness :
  sockets twoTabs !! 3 = Some OPEN
  /\ exists room',
       roomObjs (wsClosed 1 twoTabs) !! 0 = Some room'
       /\ JsMap.get "alice" (clients room') = None
       /\ timers (wsClosed 1 twoTabs) = [mkTimer 60000 0].
Proof.
  split; [vm_compute; reflexivity|].
  destruct (closed_socket_leaves_room 1 twoTabs (mkHandler 0 1 "alice")
              (mkRoom (mkYDoc doc1Guid ∅ false) [("alice", 2)] 0))
    as (room' & targets & Hroom & _ & Hget & _ & _ & _ & _ & _ & Ht).
  - vm_compute. reflexivity.
  - vm_compute. reflexivity.
  - by apply (bool_decide_unpack _); vm_compute.
  - exists room'. split; [exact Hroom|]. split; [exact Hget|].
    rewrite Ht. vm_compute in Hroom. injection Hroom as <-. reflexivity.
Defined.

(** bob came back before alice's grace timer fired. *)
Lemma timer_spares_occupied_room_witness :
  timers bobBack = [mkTimer 60000 0]
  /\ JsMap.get "doc1" (rooms (fireTimer bobBack)) = Some 0
  /\ (clients <$> roomObjs (fireTimer bobBack) !! 0) = Some [("bob", 2)].
Proof.
  split; [vm_compute; reflexivity|].
  destruct (timer_spares_occupied_room bobBack "doc1" 0
              (mkRoom (mkYDoc doc1Guid ∅ false) [("bob", 2)] 0))
    as (Hget & Hroom & _).
  - vm_compute. reflexivity.
  - vm_compute. reflexivity.
  - discriminate.
  - split; [exact Hget|]. rewrite Hroom. reflexivity.
Defined.

(** A room registered under its document's own identifier is disposed. *)
Lemma timer_disposes_room_under_guid_witness :
  JsMap.get doc1Guid (rooms (fireTimer selfNamed)) = None
  /\ (isDestroyed ∘ doc <$> roomObjs (fireTimer selfNamed) !! 0) = Some true.
Proof.
  destruct (timer_disposes_room_under_guid selfNamed (mkTimer 60000 0) []
              (mkRoom (mkYDoc doc1Guid ∅ false) [] 0) 0
              (mkRoom (mkYDoc doc1Guid ∅ false) [] 0))
    as (Hget & _ & _ & Hd & _).
  - vm_compute. reflexivity.
  - vm_compute. reflexivity.
  - vm_compute. reflexivity.
  - vm_compute. reflexivity.
  - reflexivity.
  - by apply (bool_decide_unpack _); vm_compute.
  - split; [exact Hget|exact Hd].
Defined.

(** The state [1; 7] loaded into the room of alice and bob. *)
Lemma loaded_state_is_returned_witness :
  getDocumentState "doc1"
    (loadDocumentState "doc1" [1; 7]%Z 30 doc1Guid bothIn).1
  = Some [1; 7]%Z.
Proof.
  refine (proj1 (loaded_state_is_returned "doc1" [1; 7]%Z 30 doc1Guid
                   bothIn _)).
  intros r Hr. vm_compute in Hr. injection Hr as <-. vm_compute. eauto.
Defined.

(** At 5000 alice, last seen at 0, is at the end of the window. *)
Lemma sweep_of_fresh_clients_is_noop_witness :
  cleanupStalePresence 5000 bothIn = bothIn.
Proof.
  apply (sweep_of_fresh_clients_is_noop 5000 bothIn).
  intros docId r room k cref c Hreg Hroom Hin Hc.
  vm_compute in Hreg. apply list_elem_of_singleton in Hreg.
  injection Hreg as -> ->. vm_compute in Hroom. injection Hroom as <-.
  simpl in Hin. apply elem_of_cons in Hin as [Hin|Hin].
  - injection Hin as -> ->. vm_compute in Hc. injection Hc as <-.
    simpl. lia.
  - apply list_elem_of_singleton in Hin. injection Hin as -> ->.
    vm_compute in Hc. injection Hc as <-. simpl. lia.
Defined.

(** At 5005 the sweep evicts alice; a second sweep finds nothing. *)
Lemma sweep_idempotent_witness :
  cleanupStalePresence 5005 (cleanupStalePresence 5005 bothIn)
  = cleanupStalePresence 5005 bothIn.
Proof.
  refine (proj2 (sweep_idempotent 5005 bothIn _ _)).
  - by apply (bool_decide_unpack _); vm_compute.
  - intros docId r room Hreg Hroom.
    vm_compute in Hreg. apply list_elem_of_singleton in Hreg.
    injection Hreg as -> ->. vm_compute in Hroom. injection Hroom as <-.
    by apply (bool_decide_unpack _); vm_compute.
Defined.

Lemma presence_list_matches_members_witness :
  p_userId <$> getPresenceList (run [aliceJoins; bobJoins]) doc1Room
  = ["alice"; "bob"].
Proof.
  refine (proj1 (presence_list_matches_members [aliceJoins; bobJoins] 0
                   doc1Room _)).
  vm_compute. reflexivity.
Defined.

(** A message that is the JSON text [null] parses, and fails after the
    stamps. *)
Lemma parsed_message_refreshes_presence_witness :
  (lastSeen <$>
     clientObjs (handleMessage 1 0 1 JsonNull 20 25 bothIn) !! 1) = Some 20%Z
  /\ (lastActivity <$>
        roomObjs (handleMessage 1 0 1 JsonNull 20 25 bothIn) !! 0)
     = Some 25%Z.
Proof.
  destruct (parsed_message_refreshes_presence 1 0 1 JsonNull 20 25 bothIn
              doc1Room alice) as (Hc & Hr & _).
  - vm_compute. reflexivity.
  - vm_compute. reflexivity.
  - split; [exact Hc|exact Hr].
Defined.


(** carol joins the room of alice and bob and leaves again. *)
Lemma join_then_close_restores_room_witness :
  roomObjs
    (wsClosed 7
       (wssConnection 7 "/doc1" (Some "carol") "client_20_c" 5 20 20
          doc1Guid bothIn))
  = roomObjs bothIn.
Proof.
  refine (proj1 (proj2 (join_then_close_restores_room 7 "/doc1"
                          (Some "carol") "client_20_c" 5 20 20 doc1Guid
                          bothIn 0 doc1Room _ _ _ _))).
  - discriminate.
  - vm_compute. reflexivity.
  - vm_compute. reflexivity.
  - vm_compute. reflexivity.
Defined.

(** alice's socket fails and then closes: bob is told twice. *)
Lemma error_then_close_leaves_twice_witness :
  trace (wsClosed 1 (wsError 1 bothIn)) =
    trace bothIn ++
      [ ConsoleError "WebSocket error for user alice:";
        WsSend 2 (FPresence Leave "alice" [presenceOf bob]);
        WsSend 2 (FPresence Leave "alice" [presenceOf bob]) ].
Proof.
  refine (proj1 (proj2 (error_then_close_leaves_twice 1 bothIn
                          (mkHandler 0 1 "alice") doc1Room _ _ _))).
  - vm_compute. reflexivity.
  - vm_compute. reflexivity.
  - by apply (bool_decide_unpack _); vm_compute.
Defined.

End MoreScenarios.

Section ProviderScenarios.
Import YjsProvider ProviderApi Replica.

(** The states [1; 7] and [1; 8] load and encode differently. *)
Lemma areStatesEqual_compares_encodings_witness :
  areStatesEqual (D := gset Z) [1; 7]%Z [1; 8]%Z = Some false
  /\ areStatesEqual (D := gset Z) [1; 7]%Z [1; 7]%Z = Some true.
Proof.
  destruct (areStatesEqual_compares_encodings (D := gset Z) [1; 7]%Z
              [1; 8]%Z {[ 7%Z ]} {[ 8%Z ]}) as (Heq & _ & Hsame).
  - vm_compute. reflexivity.
  - vm_compute. reflexivity.
  - split; [exact Heq|exact Hsame].
Defined.

(** Three rounds of connecting and disconnecting: an update is reported
    three times. *)
Lemma update_listeners_accumulate_witness :
  callerSees
    (applyUpdate [1; 7]%Z (reconnected 3 (constructor (D := gset Z)))).1.2
  = [onUpdate [1; 7]%Z; onUpdate [1; 7]%Z; onUpdate [1; 7]%Z].
Proof.
  refine (proj1 (update_listeners_accumulate 3 (constructor (D := gset Z))
                   [1; 7]%Z [1; 7]%Z _ _)).
  - reflexivity.
  - vm_compute. reflexivity.
Defined.

(** A provider whose socket provider could not be made: the state it
    loads is not reported. *)
Lemma no_update_reported_before_connect_witness :
  (loadInitialState [1; 7]%Z
     (prun (D := gset Z) [Connect true; Status disconnected]).1).1.2 = [].
Proof.
  refine (proj1 (proj2 (proj2 (no_update_reported_before_connect
                                 (D := gset Z)
                                 [Connect true; Status disconnected]
                                 [1; 7]%Z _)))).
  intros Hin. apply elem_of_cons in Hin as [Hin|Hin]; [discriminate|].
  apply list_elem_of_singleton in Hin. discriminate.
Defined.

End ProviderScenarios.
